(** * chukkie/infra: the deployment orchestrator and the payload validator

    A shallow embedding of [scripts/deploy.py] and
    [deploy/scripts/validate_payload.py].

    Conventions of the embedding.
    - A Python [str] is a [string] holding its UTF-8 bytes, so that
      [s.encode("utf-8")] is the identity and [bytes] are [string]s too.
    - A JSON document as [json.load] returns it is a [json] value; an object
      is the association list of its items in insertion order (a [dict]
      keeps that order and [json.dumps] follows it), with distinct keys.
      Numbers are the integers; no claim depends on a fractional number.
    - The network, the clock, the file system, [str.format] and the schema
      library are the environment: they are variables of the sections
      below.
    - The diagnostic [print]s of [deploy.py] are left out: nothing reads
      them back. *)

From Stdlib Require Import ZArith String Ascii List Lia Bool.
From Stdlib Require Import DecimalString DecimalPos DecimalZ.
From Stdlib Require Import Sorting.Sorted Sorting.Permutation.
From stdpp Require Import gmap strings list.

Set Warnings "-register-all".
Open Scope string_scope.
Open Scope Z_scope.

(** ** Python values *)

Inductive json : Type :=
| JNull
| JBool (b : bool)
| JInt (n : Z)
| JStr (s : string)
| JArr (xs : list json)
| JObj (items : list (string * json)).

(** Truth value of an object, as [not x] and [x or y] test it. *)
Definition truthy (v : json) : bool :=
  match v with
  | JNull => false
  | JBool b => b
  | JInt n => negb (n =? 0)
  | JStr s => negb (String.eqb s EmptyString)
  | JArr xs => match xs with [] => false | _ => true end
  | JObj items => match items with [] => false | _ => true end
  end.

(** [x or y] *)
Definition py_or (x y : json) : json := if truthy x then x else y.

Fixpoint assoc (k : string) (items : list (string * json)) : option json :=
  match items with
  | [] => None
  | (k', v) :: rest => if String.eqb k k' then Some v else assoc k rest
  end.

(** [d.get(k)]: the value, or [None] (which is also what JSON [null] loads
    to) when the key is missing. *)
Definition dict_get (items : list (string * json)) (k : string) : json :=
  match assoc k items with Some v => v | None => JNull end.

(** A dict seen as a mapping: what [==] on dicts compares. *)
Definition as_mapping (items : list (string * json)) : gmap string json :=
  list_to_map items.

(** [str(n)] for an int. *)
Definition str_int (n : Z) : string := NilZero.string_of_int (Z.to_int n).

(** ** [_json_dumps]: [json.dumps(data, separators=(",", ":"), ensure_ascii=False)] *)

Module Dumps.

Definition dquote : ascii := "034"%char.
Definition backslash : ascii := "092"%char.

Definition hex_digit (n : Z) : ascii :=
  ascii_of_N (Z.to_N (if n <? 10 then 48 + n else 87 + n)).

Definition esc (c : ascii) : string := String backslash (String c EmptyString).

(** One character of a string literal: the quote, the backslash and the
    control characters are escaped, everything else (non-ASCII bytes
    included, as [ensure_ascii] is off) is copied. *)
Definition escape_char (c : ascii) : string :=
  let n := Z.of_N (N_of_ascii c) in
  if n =? 34 then esc dquote
  else if n =? 92 then esc backslash
  else if n =? 10 then esc "n"%char
  else if n =? 13 then esc "r"%char
  else if n =? 9 then esc "t"%char
  else if n =? 8 then esc "b"%char
  else if n =? 12 then esc "f"%char
  else if n <? 32 then
    String backslash ("u00" ++ String (hex_digit (n / 16)) (String (hex_digit (n mod 16)) EmptyString))
  else String c EmptyString.

Fixpoint escape (s : string) : string :=
  match s with
  | EmptyString => EmptyString
  | String c rest => escape_char c ++ escape rest
  end.

Definition quote (s : string) : string :=
  String dquote (escape s ++ String dquote EmptyString).

Fixpoint dumps (v : json) : string :=
  match v with
  | JNull => "null"
  | JBool true => "true"
  | JBool false => "false"
  | JInt n => str_int n
  | JStr s => quote s
  | JArr xs => "[" ++ String.concat "," (List.map dumps xs) ++ "]"
  | JObj items =>
      "{" ++ String.concat "," (List.map (fun kv => quote (fst kv) ++ ":" ++ dumps (snd kv)) items) ++ "}"
  end.

End Dumps.

Definition _json_dumps (data : json) : string := Dumps.dumps data.

(** ** [hashlib.sha256(raw).hexdigest()]

    SHA-256 as FIPS 180-4 defines it, on words kept in [Z] below [2^32].
    The round constants and the initial state are computed the way the
    standard defines them: the fractional bits of the cube roots, resp.
    square roots, of the first primes. *)

Module Sha256.

Definition wrap (x : Z) : Z := x mod 2 ^ 32.
Definition add32 (x y : Z) : Z := wrap (x + y).
Definition rotr (n x : Z) : Z :=
  Z.lor (Z.shiftr x n) (wrap (Z.shiftl x (32 - n))).
Definition not32 (x : Z) : Z := 2 ^ 32 - 1 - x.

Definition Ch (x y z : Z) : Z := Z.lxor (Z.land x y) (Z.land (not32 x) z).
Definition Maj (x y z : Z) : Z :=
  Z.lxor (Z.lxor (Z.land x y) (Z.land x z)) (Z.land y z).
Definition Sigma0 (x : Z) : Z := Z.lxor (Z.lxor (rotr 2 x) (rotr 13 x)) (rotr 22 x).
Definition Sigma1 (x : Z) : Z := Z.lxor (Z.lxor (rotr 6 x) (rotr 11 x)) (rotr 25 x).
Definition sigma0 (x : Z) : Z := Z.lxor (Z.lxor (rotr 7 x) (rotr 18 x)) (Z.shiftr x 3).
Definition sigma1 (x : Z) : Z := Z.lxor (Z.lxor (rotr 17 x) (rotr 19 x)) (Z.shiftr x 10).

(** The constants. *)

Fixpoint has_divisor (cands : list Z) (n : Z) : bool :=
  match cands with
  | [] => false
  | d :: rest => (n mod d =? 0) || has_divisor rest n
  end.

(** The first [count] primes, by trial division from [n] upwards. *)
Fixpoint primes_from (fuel : nat) (n : Z) (found : list Z) (count : nat) : list Z :=
  match fuel, count with
  | O, _ | _, O => List.rev found
  | S fuel', S count' =>
      if has_divisor found n then primes_from fuel' (n + 1) found count
      else primes_from fuel' (n + 1) (n :: found) count'
  end.

Definition primes (count : nat) : list Z := primes_from 400 2 [] count.

(** Integer cube root, one bit at a time from bit [b] down. *)
Fixpoint icbrt_bits (b : nat) (n r : Z) : Z :=
  let try := r + 2 ^ Z.of_nat b in
  let r' := if try * try * try <=? n then try else r in
  match b with
  | O => r'
  | S b' => icbrt_bits b' n r'
  end.

Definition frac_cbrt (p : Z) : Z := wrap (icbrt_bits 40 (p * 2 ^ 96) 0).
Definition frac_sqrt (p : Z) : Z := wrap (Z.sqrt (p * 2 ^ 64)).

Definition K : list Z := Eval vm_compute in List.map frac_cbrt (primes 64).
Definition H0 : list Z := Eval vm_compute in List.map frac_sqrt (primes 8).

(** Padding and parsing of the message. *)

Definition bytes_of (s : string) : list Z :=
  List.map (fun c => Z.of_N (N_of_ascii c)) (list_ascii_of_string s).

Fixpoint be_bytes (width : nat) (x : Z) : list Z :=
  match width with
  | O => []
  | S w' => (Z.shiftr x (8 * Z.of_nat w')) mod 256 :: be_bytes w' x
  end.

Definition pad (msg : list Z) : list Z :=
  let len := Z.of_nat (List.length msg) in
  let zeros := Z.to_nat ((55 - len) mod 64) in
  msg ++ [128] ++ List.repeat 0 zeros ++ be_bytes 8 (8 * len).

Fixpoint words (fuel : nat) (bs : list Z) : list Z :=
  match fuel, bs with
  | S fuel', b0 :: b1 :: b2 :: b3 :: rest =>
      (((b0 * 256 + b1) * 256 + b2) * 256 + b3) :: words fuel' rest
  | _, _ => []
  end.

Fixpoint blocks (fuel : nat) (ws : list Z) : list (list Z) :=
  match fuel, ws with
  | O, _ | _, [] => []
  | S fuel', _ => List.firstn 16 ws :: blocks fuel' (List.skipn 16 ws)
  end.

(** The message schedule, newest word first. *)
Fixpoint schedule (n : nat) (w : list Z) : list Z :=
  match n with
  | O => w
  | S n' =>
      let x := add32 (add32 (sigma1 (List.nth 1 w 0)) (List.nth 6 w 0))
                     (add32 (sigma0 (List.nth 14 w 0)) (List.nth 15 w 0)) in
      schedule n' (x :: w)
  end.

Record regs := Regs { ra : Z; rb : Z; rc : Z; rd : Z; re : Z; rf : Z; rg : Z; rh : Z }.

Definition round (s : regs) (kw : Z * Z) : regs :=
  let t1 := add32 (add32 (add32 (rh s) (Sigma1 (re s))) (Ch (re s) (rf s) (rg s)))
                  (add32 (fst kw) (snd kw)) in
  let t2 := add32 (Sigma0 (ra s)) (Maj (ra s) (rb s) (rc s)) in
  Regs (add32 t1 t2) (ra s) (rb s) (rc s) (add32 (rd s) t1) (re s) (rf s) (rg s).

Definition regs_of (h : list Z) : regs :=
  Regs (List.nth 0 h 0) (List.nth 1 h 0) (List.nth 2 h 0) (List.nth 3 h 0)
       (List.nth 4 h 0) (List.nth 5 h 0) (List.nth 6 h 0) (List.nth 7 h 0).

Definition list_of (s : regs) : list Z :=
  [ra s; rb s; rc s; rd s; re s; rf s; rg s; rh s].

Definition compress (h : list Z) (block : list Z) : list Z :=
  let w := List.rev (schedule 48 (List.rev block)) in
  let s := List.fold_left round (List.combine K w) (regs_of h) in
  List.map (fun p => add32 (fst p) (snd p)) (List.combine h (list_of s)).

Definition digest (msg : list Z) : list Z :=
  let ws := words (List.length msg + 72) (pad msg) in
  List.fold_left compress (blocks (List.length ws) ws) H0.

Definition hex_digit (n : Z) : ascii :=
  ascii_of_N (Z.to_N (if n <? 10 then 48 + n else 87 + n)).

Fixpoint hex (digits : nat) (x : Z) : string :=
  match digits with
  | O => EmptyString
  | S d' => String (hex_digit ((Z.shiftr x (4 * Z.of_nat d')) mod 16)) (hex d' x)
  end.

Definition hexdigest (raw : string) : string :=
  String.concat EmptyString (List.map (hex 8) (digest (bytes_of raw))).

End Sha256.

(** ** [_make_idempotency_key] *)

Definition _make_idempotency_key (payload : json) (salt : string) : string :=
  let raw := _json_dumps payload ++ salt in
  Sha256.hexdigest raw.

(** ** The world [deploy.py] runs in *)

Record Request := mkRequest {
  method : string;
  url : string;
  headers : gmap string string;
  data : option string;
  timeout : Z
}.

(** What one [urllib.request.urlopen] call does. [urlopen] hands back a
    response object only for a status it does not turn into an error (the
    2xx family); every other status reaches the caller as the exception
    [HTTPError], which carries the status and the body. *)
Inductive Outcome :=
| Response (status : Z) (body : string)
| HTTPError (code : Z) (body : string)
| URLError (reason : string)      (* [URLError] or [TimeoutError] *)
| OtherError (what : string).     (* an exception no clause of [_request] catches *)

Record Artifact := mkArtifact {
  art_dir : string;
  art_file : string;
  art_jobId : json;
  art_payload : json;
  art_submitResponse : json;
  art_finalStatus : json;
  art_timestamp : Z
}.

(** What a run does to the outside, in order. [EvCall] marks the entry of
    [_request]; the other events are the effects themselves. Times are
    clock ticks. *)
Inductive Event :=
| EvCall (t : Z) (req : Request)
| EvUrlopen (t : Z) (req : Request) (out : Outcome)
| EvSleep (t : Z) (secs : Z)
| EvArtifact (t : Z) (a : Artifact).

Inductive Exn :=
| RuntimeError_HTTPError (status : Z) (payload : string)       (* line 62 *)
| RuntimeError_failed_after_retries (last_err : option string)  (* line 74 *)
| Uncaught (what : string)
| AttributeError
| JSONDecodeError
| ValueError
| FormatError
| OSError.

Inductive Result (A : Type) :=
| Ok (a : A)
| Raise (e : Exn).
Arguments Ok {A} a.
Arguments Raise {A} e.

Record World := mkWorld {
  now : Z;              (* [time.time()], in ticks *)
  calls : nat;          (* [urlopen] calls made so far *)
  trace : list Event
}.

(** The environment of a run. *)
Record Env := mkEnv {
  hz : Z;                                   (* clock ticks per second *)
  net : nat -> Request -> Outcome;          (* the n-th [urlopen] call *)
  lag : nat -> Z;                           (* ticks the k-th effect takes beyond its nominal time *)
  json_loads : string -> option json;       (* [json.loads], [None] when it raises *)
  py_str : json -> string;                  (* [str(x)] *)
  str_format : string -> json -> option string; (* [template.format(jobId=x)] *)
  writable : string -> string -> bool       (* the file system takes the file: see [_write_artifacts] *)
}.

(** State and exceptions. *)
Definition M (A : Type) : Type := World -> Result A * World.

Definition ret {A} (a : A) : M A := fun w => (Ok a, w).
Definition raise {A} (e : Exn) : M A := fun w => (Raise e, w).
Definition bind {A B} (m : M A) (k : A -> M B) : M B :=
  fun w => match m w with
           | (Ok a, w') => k a w'
           | (Raise e, w') => (Raise e, w')
           end.
Definition lift {A} (r : Result A) : M A := fun w => (r, w).

Declare Scope run_scope.
Delimit Scope run_scope with run.
Notation "x <- m ;; k" := (bind m (fun x => k))
  (at level 100, m at next level, right associativity) : run_scope.
Notation "m ;; k" := (bind m (fun _ => k))
  (at level 100, right associativity) : run_scope.
Open Scope run_scope.

(** Record an effect that takes [ticks] of time, or none. *)
Definition emit (e : Event) (ticks : Z) : M unit := fun w =>
  (Ok tt, mkWorld (now w + ticks) (calls w) (trace w ++ [e])).
Definition note (e : Event) : M unit := fun w =>
  (Ok tt, mkWorld (now w) (calls w) (trace w ++ [e])).

Definition time_time : M Z := fun w => (Ok (now w), w).

Section Effects.
Context (env : Env).

(** [urllib.request.urlopen(req, timeout=timeout)] with its result or
    exception reified. *)
Definition urlopen (req : Request) : M Outcome := fun w =>
  let out := net env (calls w) req in
  (Ok out, mkWorld (now w + lag env (List.length (trace w))) (S (calls w))
                   (trace w ++ [EvUrlopen (now w) req out])).

(** [time.sleep(secs)]: at least [secs] seconds; a negative argument is a
    [ValueError]. *)
Definition time_sleep (secs : Z) : M unit := fun w =>
  if secs <? 0 then (Raise ValueError, w)
  else emit (EvSleep (now w) secs) (secs * hz env + lag env (List.length (trace w))) w.

(** ** [_request] *)

Definition RETRYABLE_HTTP : gset Z := {[ 429; 500; 502; 503; 504 ]}.

(** [min(60, 2 ** attempt)] *)
Definition backoff (attempt : Z) : Z := Z.min 60 (2 ^ attempt).

(** The [while attempt <= max_retries] loop. Every iteration that goes
    round again has [attempt < max_retries] and adds one to [attempt], so
    [budget] iterations are enough when [budget >= max_retries + 1 -
    attempt] ([_request_loop_budget] below); the loop is entered with
    exactly that. Leaving the loop, by the [break] of line 72 or by its
    condition, reaches the [raise] of line 74. *)
Fixpoint _request_loop (budget : nat) (req : Request) (max_retries : Z)
         (attempt : Z) (last_err : option string) : M (Z * string) :=
  if attempt <=? max_retries then
    match budget with
    | O => raise (RuntimeError_failed_after_retries last_err)
    | S budget' =>
        out <- urlopen req ;;
        match out with
        | Response status body => ret (status, body)
        | HTTPError status payload =>
            if bool_decide (status ∈ RETRYABLE_HTTP) && (attempt <? max_retries) then
              time_sleep (backoff attempt) ;;
              _request_loop budget' req max_retries (attempt + 1) last_err
            else raise (RuntimeError_HTTPError status payload)
        | URLError e =>
            if attempt <? max_retries then
              time_sleep (backoff attempt) ;;
              _request_loop budget' req max_retries (attempt + 1) (Some e)
            else raise (RuntimeError_failed_after_retries (Some e))
        | OtherError what => raise (Uncaught what)
        end
    end
  else raise (RuntimeError_failed_after_retries last_err).

Definition _request (req : Request) (max_retries : Z) : M (Z * string) :=
  t <- time_time ;;
  note (EvCall t req) ;;
  _request_loop (Z.to_nat (max_retries + 1)) req max_retries 0 None.

End Effects.

(** ** The status vocabulary (lines 171-184) *)

Inductive NormalizedState := Succeeded | Failed | InProgress.

Definition lower_char (c : ascii) : ascii :=
  let n := N_of_ascii c in
  if ((65 <=? n) && (n <=? 90))%N then ascii_of_N (n + 32) else c.

(** [s.lower()]. Only the ASCII letters are mapped: no other character
    lower-cases to a letter of the two vocabularies. *)
Fixpoint lower (s : string) : string :=
  match s with
  | EmptyString => EmptyString
  | String c rest => String (lower_char c) (lower rest)
  end.

Definition SUCCESS_STATES : list string := ["succeeded"; "success"; "completed"].
Definition FAILURE_STATES : list string := ["failed"; "error"; "cancelled"; "canceled"].

(** [state in (...)] *)
Definition str_in (s : string) (l : list string) : bool :=
  List.existsb (String.eqb s) l.

(** The two membership tests of the polling loop on [state], the
    lower-cased string. *)
Definition normalize (state : string) : NormalizedState :=
  if str_in state SUCCESS_STATES then Succeeded
  else if str_in state FAILURE_STATES then Failed
  else InProgress.

Definition classify (raw : string) : NormalizedState := normalize (lower raw).

(** [v.get(k)] on a loaded document: only a dict has [get]. *)
Definition py_get (v : json) (k : string) : Result json :=
  match v with
  | JObj items => Ok (dict_get items k)
  | _ => Raise AttributeError
  end.

(** [resp.get("jobId") or resp.get("id") or resp.get("deploymentId")] *)
Definition job_id_of (resp : json) : Result json :=
  match resp with
  | JObj items =>
      Ok (py_or (dict_get items "jobId")
                (py_or (dict_get items "id") (dict_get items "deploymentId")))
  | _ => Raise AttributeError
  end.

(** [s_resp.get("status") or s_resp.get("state") or ""] *)
Definition raw_state_of (s_resp : json) : Result json :=
  match s_resp with
  | JObj items =>
      Ok (py_or (dict_get items "status")
                (py_or (dict_get items "state") (JStr EmptyString)))
  | _ => Raise AttributeError
  end.

(** [(...).lower()]: only a [str] has [lower]. *)
Definition str_lower (v : json) : Result string :=
  match v with
  | JStr s => Ok (lower s)
  | _ => Raise AttributeError
  end.

(** [s.rstrip("/")] *)
Fixpoint rstrip_slash (s : string) : string :=
  match s with
  | EmptyString => EmptyString
  | String c rest =>
      match rstrip_slash rest with
      | EmptyString => if Ascii.eqb c "/"%char then EmptyString else String c EmptyString
      | rest' => String c rest'
      end
  end.

(** ** [main] *)

(** The parsed command line together with the process environment and the
    file that [--payload] names. *)
Record Args := mkArgs {
  base_url : string;
  api_key : string;
  arg_timeout : Z;
  poll : Z;
  max_wait : Z;
  max_retries : Z;
  submit_path : string;
  status_path_template : string;
  correlation_id : string;
  payload_file : option json;        (* [None]: [open] or [json.load] raises *)
  BUILD_SOURCEVERSION : string;
  BUILD_BUILDID : string;
  BUILD_ARTIFACTSTAGINGDIRECTORY : option string
}.

Section Main.
Context (env : Env).

Definition _parse_json (b : string) : Result json :=
  if String.eqb b EmptyString then Ok (JObj [])
  else match json_loads env b with
       | Some v => Ok v
       | None => Raise JSONDecodeError
       end.

(** [os.makedirs], [open] and [json.dump] can raise. [os.makedirs("")]
    always does; whether the directory can be made and the file (whose name
    holds the job id, slashes and all) opened and written is up to the file
    system, the [writable] of the environment. A write that raises leaves
    no result file to count. *)
Definition _write_artifacts (args : Args) (job_id payload submit_resp status_resp : json)
  : M unit := fun w =>
  let out_dir := default "artifacts" (BUILD_ARTIFACTSTAGINGDIRECTORY args) in
  let file := "deploy-result-" ++ py_str env job_id ++ ".json" in
  if String.eqb out_dir EmptyString then (Raise OSError, w)
  else if writable env out_dir file then
    note (EvArtifact (now w)
            (mkArtifact out_dir file job_id payload submit_resp status_resp (now w))) w
  else (Raise OSError, w).

Definition status_headers (args : Args) (hdrs : gmap string string) : gmap string string :=
  <["Accept" := "application/json"]>
    (<["X-API-Key" := api_key args]>
       (<["X-Correlation-Id" := default EmptyString (hdrs !! "X-Correlation-Id")]> ∅)).

(** [int(time.time() - start)] *)
Definition elapsed_seconds (t start : Z) : Z := Z.quot (t - start) (hz env).

(** The [while True] loop of lines 151-186; [None] when [fuel]
    iterations did not reach a [return]. *)
Fixpoint poll_loop (fuel : nat) (args : Args) (job_id payload resp : json)
         (hdrs : gmap string string) (status_url : string) (start : Z)
  : M (option Z) :=
  match fuel with
  | O => ret None
  | S fuel' =>
      t <- time_time ;;
      let elapsed := elapsed_seconds t start in
      if elapsed >? max_wait args then ret (Some 4)
      else
        sb <- _request env (mkRequest "GET" status_url (status_headers args hdrs)
                                       None (arg_timeout args)) (max_retries args) ;;
        s_resp <- lift (_parse_json (snd sb)) ;;
        raw <- lift (raw_state_of s_resp) ;;
        state <- lift (str_lower raw) ;;
        match normalize state with
        | Succeeded =>
            _write_artifacts args job_id payload resp s_resp ;; ret (Some 0)
        | Failed =>
            _write_artifacts args job_id payload resp s_resp ;; ret (Some 5)
        | InProgress =>
            time_sleep env (poll args) ;;
            poll_loop fuel' args job_id payload resp hdrs status_url start
        end
  end.

Definition submit_headers (args : Args) (idem_key : string) : gmap string string :=
  let hdrs : gmap string string :=
    <["Content-Type" := "application/json"]>
      (<["Accept" := "application/json"]>
         (<["X-API-Key" := api_key args]>
            (<["Idempotency-Key" := idem_key]> ∅))) in
  if String.eqb (correlation_id args) EmptyString then hdrs
  else <["X-Correlation-Id" := correlation_id args]> hdrs.

Definition main (fuel : nat) (args : Args) : M (option Z) :=
  if String.eqb (base_url args) EmptyString then ret (Some 2)
  else if String.eqb (api_key args) EmptyString then ret (Some 2)
  else
    payload <- lift (match payload_file args with
                     | Some p => Ok p
                     | None => Raise OSError
                     end) ;;
    let salt := BUILD_SOURCEVERSION args ++ "|" ++ BUILD_BUILDID args ++ "|" ++ base_url args in
    let idem_key := _make_idempotency_key payload salt in
    let submit_url := rstrip_slash (base_url args) ++ submit_path args in
    let hdrs := submit_headers args idem_key in
    sr <- _request env (mkRequest "POST" submit_url hdrs (Some (_json_dumps payload))
                                   (arg_timeout args)) (max_retries args) ;;
    resp <- lift (_parse_json (snd sr)) ;;
    job_id <- lift (job_id_of resp) ;;
    if negb (truthy job_id) then ret (Some 3)
    else
      path <- lift (match str_format env (status_path_template args) job_id with
                    | Some p => Ok p
                    | None => Raise FormatError
                    end) ;;
      let status_url := rstrip_slash (base_url args) ++ path in
      start <- time_time ;;
      poll_loop fuel args job_id payload resp hdrs status_url start.

End Main.

(** What the shell sees of [sys.exit(main())]: the returned code, or 1
    when an exception ends the process. *)
Definition exit_status (r : Result (option Z)) : option Z :=
  match r with
  | Ok code => code
  | Raise _ => Some 1
  end.

(** ** [validate_payload.py] *)

Module Validate.

(** A segment of [e.path]: a property name or an array index. *)
Inductive Seg := Key (name : string) | Index (i : Z).

Record ValidationError := mkError { path : list Seg; message : string }.

(** [a == b] on segments: a [str] never equals an [int]. *)
Definition seg_eqb (a b : Seg) : bool :=
  match a, b with
  | Key s, Key t => String.eqb s t
  | Index i, Index j => i =? j
  | _, _ => false
  end.

(** [a < b] on segments; [None] is the [TypeError] of comparing a [str]
    with an [int]. Strings compare by code point, which on UTF-8 bytes is
    the byte order. *)
Definition seg_lt (a b : Seg) : option bool :=
  match a, b with
  | Key s, Key t => Some (String.ltb s t)
  | Index i, Index j => Some (i <? j)
  | _, _ => None
  end.

(** [p < q] on paths ([deque]s compare like sequences: the first
    differing pair decides, a proper prefix is smaller). *)
Fixpoint path_lt (p q : list Seg) : option bool :=
  match p, q with
  | [], [] => Some false
  | [], _ :: _ => Some true
  | _ :: _, [] => Some false
  | a :: p', b :: q' => if seg_eqb a b then path_lt p' q' else seg_lt a b
  end.

Definition path_ltb (p q : list Seg) : bool := default false (path_lt p q).

Definition comparable (p q : list Seg) : bool :=
  match path_lt p q, path_lt q p with
  | Some _, Some _ => true
  | _, _ => false
  end.

Fixpoint all_comparable (errs : list ValidationError) : bool :=
  match errs with
  | [] => true
  | e :: rest =>
      List.forallb (fun e' => comparable (path e) (path e')) rest && all_comparable rest
  end.

(** Stable insertion with [<] only, as [list.sort] compares. *)
Fixpoint insert_error (e : ValidationError) (sorted : list ValidationError)
  : list ValidationError :=
  match sorted with
  | [] => [e]
  | e' :: rest =>
      if path_ltb (path e') (path e) then e' :: insert_error e rest
      else e :: sorted
  end.

Fixpoint stable_sort (errs : list ValidationError) : list ValidationError :=
  match errs with
  | [] => []
  | e :: rest => insert_error e (stable_sort rest)
  end.

(** [sorted(errors, key=lambda e: e.path)]. [list.sort] raises
    [TypeError] when it compares a [str] segment with an [int] one; which
    pairs it compares is its own business, so the model gives [None] as
    soon as some pair of paths is not comparable. The paths of the errors
    of one document are always comparable (two paths that agree up to a
    point continue into the same container), and then the stable order
    is the only possible result. *)
Definition sorted_by_path (errs : list ValidationError) : option (list ValidationError) :=
  if all_comparable errs then Some (stable_sort errs) else None.

Definition str_seg (p : Seg) : string :=
  match p with
  | Key s => s
  | Index i => str_int i
  end.

(** [".".join([str(p) for p in e.path])] *)
Definition dotted (p : list Seg) : string := String.concat "." (List.map str_seg p).

(** [dotted or "(root)"] *)
Definition render_path (p : list Seg) : string :=
  let joined := dotted p in
  if String.eqb joined EmptyString then "(root)" else joined.

Definition render (e : ValidationError) : string :=
  "- " ++ render_path (path e) ++ ": " ++ message e.

Definition newline : string := String "010"%char EmptyString.
Definition FAILED_HEADER : string := "Payload schema validation FAILED:" ++ newline.
Definition OK_MESSAGE : string := "Payload schema validation OK.".

Section Validator.
(** [Draft202012Validator(schema).iter_errors(payload)] *)
Variable iter_errors : json -> json -> list ValidationError.

(** [main]: the strings given to [print], in order, and the return
    value; [None] when the sort raises. *)
Definition main (payload schema : json) : option (list string * Z) :=
  match sorted_by_path (iter_errors schema payload) with
  | None => None
  | Some [] => Some ([OK_MESSAGE], 0)
  | Some errors => Some (FAILED_HEADER :: List.map render errors, 2)
  end.
End Validator.

End Validate.

(** ** Observations on a trace *)

Definition is_urlopen (e : Event) : bool :=
  match e with EvUrlopen _ _ _ => true | _ => false end.

Definition is_call (e : Event) : bool :=
  match e with EvCall _ _ => true | _ => false end.

Definition is_artifact (e : Event) : bool :=
  match e with EvArtifact _ _ => true | _ => false end.

(** Network calls made. *)
Definition attempts (tr : list Event) : nat := List.length (List.filter is_urlopen tr).

(** The arguments of the [time.sleep] calls, in order. *)
Fixpoint sleeps (tr : list Event) : list Z :=
  match tr with
  | [] => []
  | EvSleep _ secs :: rest => secs :: sleeps rest
  | _ :: rest => sleeps rest
  end.

(** The files written. *)
Fixpoint artifacts (tr : list Event) : list Artifact :=
  match tr with
  | [] => []
  | EvArtifact _ a :: rest => a :: artifacts rest
  | _ :: rest => artifacts rest
  end.

(** The times at which [_request] was entered for a [GET]: the status
    requests of the poller. *)
Fixpoint status_requests (tr : list Event) : list Z :=
  match tr with
  | [] => []
  | EvCall t req :: rest =>
      if String.eqb (method req) "GET" then t :: status_requests rest
      else status_requests rest
  | _ :: rest => status_requests rest
  end.

Definition event_time (e : Event) : Z :=
  match e with
  | EvCall t _ | EvUrlopen t _ _ | EvSleep t _ | EvArtifact t _ => t
  end.

(** The outcomes [_request] goes round again on, when attempts remain. *)
Definition retryable (out : Outcome) : bool :=
  match out with
  | HTTPError status _ => bool_decide (status ∈ RETRYABLE_HTTP)
  | URLError _ => true
  | _ => false
  end.

(** What [_request] does with the outcome of its last attempt. *)
Definition settle (out : Outcome) : Result (Z * string) :=
  match out with
  | Response status body => Ok (status, body)
  | HTTPError status payload => Raise (RuntimeError_HTTPError status payload)
  | URLError e => Raise (RuntimeError_failed_after_retries (Some e))
  | OtherError what => Raise (Uncaught what)
  end.

(** [a; a+1; ...], [n] of them. *)
Fixpoint zseq (a : Z) (n : nat) : list Z :=
  match n with
  | O => []
  | S n' => a :: zseq (a + 1) n'
  end.

(** Character classes of a string. *)
Fixpoint all_chars (P : ascii -> bool) (s : string) : bool :=
  match s with
  | EmptyString => true
  | String c rest => P c && all_chars P rest
  end.

Definition is_lower_hex (c : ascii) : bool :=
  let n := N_of_ascii c in
  (((48 <=? n) && (n <=? 57)) || ((97 <=? n) && (n <=? 102)))%N.

Definition is_blank (c : ascii) : bool :=
  let n := N_of_ascii c in
  ((n =? 32) || (n =? 9) || (n =? 10) || (n =? 13))%N.

Definition no_space (c : ascii) : bool := negb (N_of_ascii c =? 32)%N.
Definition not_blank (c : ascii) : bool := negb (is_blank c).

(** No string of the document, key or value, holds a space. *)
Fixpoint spaceless (v : json) : bool :=
  match v with
  | JStr s => all_chars no_space s
  | JArr xs => List.forallb spaceless xs
  | JObj items =>
      List.forallb (fun kv => all_chars no_space (fst kv) && spaceless (snd kv)) items
  | _ => true
  end.

(** The submission request of [main], and the headers it leaves for the
    poller. *)
Definition salt_of (args : Args) : string :=
  BUILD_SOURCEVERSION args ++ "|" ++ BUILD_BUILDID args ++ "|" ++ base_url args.

Definition submit_request (args : Args) (payload : json) : Request :=
  mkRequest "POST" (rstrip_slash (base_url args) ++ submit_path args)
            (submit_headers args (_make_idempotency_key payload (salt_of args)))
            (Some (_json_dumps payload)) (arg_timeout args).

Definition status_request (args : Args) (payload : json) (status_url : string) : Request :=
  mkRequest "GET" status_url (status_headers args (headers (submit_request args payload)))
            None (arg_timeout args).

(** The job-id fields [main] looks at, in its order. *)
Definition JOB_ID_FIELDS : list string := ["jobId"; "id"; "deploymentId"].

(** The events of [l] are in time order, between [t0] and [t1]. *)
Fixpoint chrono (t0 : Z) (l : list Event) (t1 : Z) : Prop :=
  match l with
  | [] => t0 <= t1
  | e :: rest => t0 <= event_time e /\ chrono (event_time e) rest t1
  end.

(** A clock that runs forwards. *)
Definition sane (env : Env) : Prop := 0 < hz env /\ forall k, 0 <= lag env k.

(** ** Concrete environments

    Small worlds to run the program in: a clock of [ticks] per second with
    no lag, a scripted server, a loader that knows the documents the server
    sends, [str]/[format] as they act on scalar job ids with the default
    path template ["/deployments/{jobId}"], and a file system that takes
    every file (in a directory that has a name). *)

Module Scenario.

Definition loads_of (docs : list json) (b : string) : option json :=
  List.find (fun d => String.eqb (_json_dumps d) b) docs.

Definition str_of_scalar (v : json) : string :=
  match v with
  | JStr s => s
  | JInt n => str_int n
  | JBool true => "True"
  | JBool false => "False"
  | _ => "None"
  end.

Definition world (ticks : Z) (server : nat -> Request -> Outcome) (docs : list json) : Env :=
  mkEnv ticks server (fun _ => 0) (loads_of docs) str_of_scalar
        (fun _ job_id => Some ("/deployments/" ++ str_of_scalar job_id))
        (fun _ _ => true).

Definition boot : World := mkWorld 0 0 [].

Definition get_status : Request := mkRequest "GET" "https://deploy-api.internal/deployments/abc" ∅ None 30.

(** 503, 503, then 200. *)
Definition flaky (n : nat) (_ : Request) : Outcome :=
  match n with
  | 0%nat | 1%nat => HTTPError 503 "busy"
  | _ => Response 200 "{}"
  end.

(** 404 on every call. *)
Definition not_found (_ : nat) (_ : Request) : Outcome := HTTPError 404 "no such job".

(** A server that answers every call with the same response. *)
Definition always (status : Z) (doc : json) (_ : nat) (_ : Request) : Outcome :=
  Response status (_json_dumps doc).

(** A server that accepts the submission with [submitted] and then
    reports [status] on every poll. *)
Definition api (submitted status : json) (_ : nat) (req : Request) : Outcome :=
  if String.eqb (method req) "POST" then Response 200 (_json_dumps submitted)
  else Response 200 (_json_dumps status).

Definition accepted : json := JObj [("jobId", JStr "abc")].
Definition id_only : json := JObj [("id", JInt 1)].
Definition empty_job_id : json := JObj [("jobId", JStr EmptyString); ("note", JStr "queued")].
Definition completed : json := JObj [("status", JStr "completed")].
Definition running : json := JObj [("status", JStr "running")].
Definition docs : list json := [accepted; id_only; empty_job_id; completed; running].
Definition payload : json := JObj [("env", JStr "prod")].

(** The same mapping written in two orders. *)
Definition region_first : json := JObj [("region", JStr "eu"); ("env", JStr "prod")].
Definition env_first : json := JObj [("env", JStr "prod"); ("region", JStr "eu")].

Definition args (wait every : Z) : Args :=
  mkArgs "https://deploy-api.internal/" "k-123456789" 30 every wait 2
         "/deployments" "/deployments/{jobId}" EmptyString
         (Some (JObj [("env", JStr "prod")])) "4f2a" "77" None.

(** The errors a schema library reports for some payload, in its order. *)
Definition violations : list Validate.ValidationError :=
  [Validate.mkError [Validate.Key "targets"; Validate.Index 10] "'x' is not of type 'object'";
   Validate.mkError [] "'env' is a required property";
   Validate.mkError [Validate.Key "targets"; Validate.Index 2; Validate.Key "region"]
                    "'moon' is not one of ['eu', 'us']";
   Validate.mkError [Validate.Key "replicas"] "-1 is less than the minimum of 0"].

Definition checker (_ _ : json) : list Validate.ValidationError := violations.

(** A submission response whose first job-id field is empty and whose
    second is not. *)
Definition second_field : json := JObj [("jobId", JStr EmptyString); ("id", JStr "i-2")].

(** The command line of [args] in a pipeline that sets
    [BUILD_ARTIFACTSTAGINGDIRECTORY] to the empty string. *)
Definition unnamed_staging (wait every : Z) : Args :=
  mkArgs "https://deploy-api.internal/" "k-123456789" 30 every wait 2
         "/deployments" "/deployments/{jobId}" EmptyString
         (Some (JObj [("env", JStr "prod")])) "4f2a" "77" (Some EmptyString).

End Scenario.

(** ** [_redact] *)

(** [_redact] counts and slices characters, so here a [str] is the list of
    its code points. *)
Definition MASK : list Z := [42; 42; 42; 42].     (* four asterisks *)

Definition _redact (s : list Z) : list Z :=
  match s with
  | [] => s
  | _ =>
      if (List.length s <=? 8)%nat then MASK
      else (List.firstn 4 s ++ MASK ++ List.skipn (List.length s - 4) s)%list
  end.

(** ** More observations on a trace *)

(** The requests handed to [urlopen], in order. *)
Fixpoint wire (tr : list Event) : list Request :=
  match tr with
  | [] => []
  | EvUrlopen _ req _ :: rest => req :: wire rest
  | _ :: rest => wire rest
  end.

(** The requests [_request] was called with, in order. *)
Fixpoint entered (tr : list Event) : list Request :=
  match tr with
  | [] => []
  | EvCall _ req :: rest => req :: entered rest
  | _ :: rest => entered rest
  end.

(** [sum(l)] *)
Definition total (l : list Z) : Z := List.fold_right Z.add 0 l.

(** Consecutive times are at least [gap] apart. *)
Fixpoint spaced (gap : Z) (times : list Z) : Prop :=
  match times with
  | t1 :: (t2 :: _) as rest => t1 + gap <= t2 /\ spaced gap rest
  | _ => True
  end.

(** [k] slashes, and the last character of a string. *)
Fixpoint slashes (k : nat) : string :=
  match k with
  | O => EmptyString
  | S k' => String "/"%char (slashes k')
  end.

Fixpoint last_char (s : string) : option ascii :=
  match s with
  | EmptyString => None
  | String c EmptyString => Some c
  | String _ rest => last_char rest
  end.

(** Equality of path segments is decidable: the errors at one path can be
    picked out of a report. *)
#[global] Instance Seg_eq_dec : EqDecision Validate.Seg.
Proof. solve_decision. Defined.

(** The errors of [errs] that lie at path [p], in their order. *)
Definition errors_at (p : list Validate.Seg) (errs : list Validate.ValidationError)
  : list Validate.ValidationError :=
  filter (fun e => Validate.path e = p) errs.

(** [a] does not come after [b] in the order of the paths. *)
Definition path_le (a b : Validate.ValidationError) : Prop :=
  Validate.path_ltb (Validate.path b) (Validate.path a) = false.

(** ** Character classes of the JSON text *)

(** Not a control character. *)
Definition visible (c : ascii) : bool := (32 <=? N_of_ascii c)%N.

Definition is_digit (c : ascii) : bool :=
  let n := N_of_ascii c in ((48 <=? n) && (n <=? 57))%N.

(** A text that does not go on with a digit: what follows a number in a
    JSON text. *)
Definition stops (r : string) : bool :=
  match r with
  | EmptyString => true
  | String c _ => negb (is_digit c)
  end.

(** Reading one character of a string literal back from the head of a
    text: the inverse of [Dumps.escape_char]. *)
Definition unhex (c : ascii) : N :=
  let n := N_of_ascii c in if (n <=? 57)%N then (n - 48)%N else (n - 87)%N.

Definition unescape_letter (x : ascii) : ascii :=
  if Ascii.eqb x "n" then "010"
  else if Ascii.eqb x "r" then "013"
  else if Ascii.eqb x "t" then "009"
  else if Ascii.eqb x "b" then "008"
  else if Ascii.eqb x "f" then "012"
  else x.

Definition unescape_head (s : string) : option (ascii * string) :=
  match s with
  | EmptyString => None
  | String c rest =>
      if Ascii.eqb c Dumps.backslash then
        match rest with
        | EmptyString => None
        | String x rest' =>
            if Ascii.eqb x "u" then
              match rest' with
              | String _ (String _ (String h1 (String h2 r))) =>
                  Some (ascii_of_N (16 * unhex h1 + unhex h2), r)
              | _ => None
              end
            else Some (unescape_letter x, rest')
        end
      else Some (c, rest)
  end.

(** The kind of JSON value a text starts with, by its first character. *)
Inductive Kind := KNull | KTrue | KFalse | KNumber | KString | KArray | KObject | KNone.

Definition kind_of_head (s : string) : Kind :=
  match s with
  | EmptyString => KNone
  | String c _ =>
      if Ascii.eqb c "n" then KNull
      else if Ascii.eqb c "t" then KTrue
      else if Ascii.eqb c "f" then KFalse
      else if is_digit c || Ascii.eqb c "-" then KNumber
      else if Ascii.eqb c Dumps.dquote then KString
      else if Ascii.eqb c "[" then KArray
      else if Ascii.eqb c "{" then KObject
      else KNone
  end.

Definition kind (v : json) : Kind :=
  match v with
  | JNull => KNull
  | JBool true => KTrue
  | JBool false => KFalse
  | JInt _ => KNumber
  | JStr _ => KString
  | JArr _ => KArray
  | JObj _ => KObject
  end.

(** The items of an array or object after the first, up to and including
    the closing bracket, followed by [r]. *)
Fixpoint joined (l : list string) (close r : string) : string :=
  match l with
  | [] => close ++ r
  | s :: rest => "," ++ s ++ joined rest close r
  end.

(** No vertical bar in a string: the salt joins its parts with bars. *)
Definition no_bar (s : string) : bool :=
  all_chars (fun c => negb (Ascii.eqb c "|")) s.

(** ** The command line of [deploy.py] (lines 86-99)

    [argparse] is modelled by its result: for each option the text given
    on the command line, if any. The defaults come from the process
    environment, as the [add_argument] calls compute them, before the
    command line is looked at. *)

Record Cli := mkCli {
  opt_payload : option string;
  opt_base_url : option string;
  opt_api_key : option string;
  opt_timeout : option string;
  opt_poll : option string;
  opt_max_wait : option string;
  opt_max_retries : option string;
  opt_submit_path : option string;
  opt_status_path_template : option string;
  opt_correlation_id : option string
}.

Inductive Startup :=
| Started (args : Args)
| UsageError        (* [argparse] reports the error and exits with status 2 *)
| EnvValueError.    (* the [ValueError] of [int(os.getenv(...))] *)

Definition DEFAULT_TIMEOUT_SECONDS : Z := 30.
Definition DEFAULT_POLL_SECONDS : Z := 10.
Definition DEFAULT_MAX_WAIT_SECONDS : Z := 60 * 60.
Definition DEFAULT_MAX_RETRIES : Z := 6.

Section Startup.
Variable environ : gmap string string.        (* [os.environ] *)
Variable py_int : string -> option Z.         (* [int(s)], [None] when it raises *)
Variable py_strip : string -> string.         (* [s.strip()] *)
Variable read_json : string -> option json.   (* [open] and [json.load] *)

(** [os.getenv(name, dflt)] with a [str] default. *)
Definition getenv (name dflt : string) : string := default dflt (environ !! name).

(** [int(os.getenv(name, dflt))] with an [int] default. *)
Definition getenv_int (name : string) (dflt : Z) : option Z :=
  match environ !! name with
  | Some s => py_int s
  | None => Some dflt
  end.

(** [x or y] on strings. *)
Definition str_or (x y : string) : string := if String.eqb x EmptyString then y else x.

(** An option declared with [type=int]. *)
Definition int_opt (given : option string) (dflt : Z) : option Z :=
  match given with
  | Some s => py_int s
  | None => Some dflt
  end.

Definition parse_args (cli : Cli) : Startup :=
  let base_url_default := py_strip (getenv "DEPLOY_API_BASE_URL" EmptyString) in
  let api_key_default := py_strip (getenv "DEPLOY_API_KEY" EmptyString) in
  match getenv_int "DEPLOY_API_TIMEOUT" DEFAULT_TIMEOUT_SECONDS,
        getenv_int "DEPLOY_API_POLL_SECONDS" DEFAULT_POLL_SECONDS,
        getenv_int "DEPLOY_API_MAX_WAIT" DEFAULT_MAX_WAIT_SECONDS,
        getenv_int "DEPLOY_API_MAX_RETRIES" DEFAULT_MAX_RETRIES with
  | Some timeout_default, Some poll_default, Some max_wait_default, Some max_retries_default =>
      let submit_path_default := getenv "DEPLOY_API_SUBMIT_PATH" "/deployments" in
      let template_default := getenv "DEPLOY_API_STATUS_PATH_TEMPLATE" "/deployments/{jobId}" in
      let correlation_default :=
        str_or (getenv "BUILD_BUILDID" EmptyString)
               (str_or (getenv "SYSTEM_JOBID" EmptyString) EmptyString) in
      match opt_payload cli,
            int_opt (opt_timeout cli) timeout_default,
            int_opt (opt_poll cli) poll_default,
            int_opt (opt_max_wait cli) max_wait_default,
            int_opt (opt_max_retries cli) max_retries_default with
      | Some file, Some t, Some p, Some mw, Some mr =>
          Started
            (mkArgs (default base_url_default (opt_base_url cli))
                    (default api_key_default (opt_api_key cli))
                    t p mw mr
                    (default submit_path_default (opt_submit_path cli))
                    (default template_default (opt_status_path_template cli))
                    (default correlation_default (opt_correlation_id cli))
                    (read_json file)
                    (getenv "BUILD_SOURCEVERSION" EmptyString)
                    (getenv "BUILD_BUILDID" EmptyString)
                    (environ !! "BUILD_ARTIFACTSTAGINGDIRECTORY"))
      | _, _, _, _, _ => UsageError
      end
  | _, _, _, _ => EnvValueError
  end.

End Startup.

(** The numeric environment variables. *)
Definition NUMERIC_VARIABLES : list string :=
  ["DEPLOY_API_TIMEOUT"; "DEPLOY_API_POLL_SECONDS"; "DEPLOY_API_MAX_WAIT";
   "DEPLOY_API_MAX_RETRIES"].

(** A command line that gives the payload file and nothing else. *)
Definition only_payload (file : string) : Cli :=
  mkCli (Some file) None None None None None None None None None.

(** The environment of a pipeline run. *)
Definition pipeline_environ : gmap string string :=
  {[ "BUILD_BUILDID" := "77"; "BUILD_SOURCEVERSION" := "4f2a";
     "DEPLOY_API_BASE_URL" := "https://deploy-api.internal";
     "DEPLOY_API_KEY" := "k-123456789" ]}.

(** [int(s)] on plain decimal numerals, for the examples. *)
Definition int_of_text (s : string) : option Z :=
  option_map Z.of_int (NilZero.int_of_string s).

(** ** The stages of a run *)

(** Where [_write_artifacts] writes, and whether it can. *)
Definition artifact_dir (args : Args) : string :=
  default "artifacts" (BUILD_ARTIFACTSTAGINGDIRECTORY args).

Definition artifact_file (env : Env) (job_id : json) : string :=
  "deploy-result-" ++ py_str env job_id ++ ".json".

Definition can_write (env : Env) (args : Args) (job_id : json) : bool :=
  negb (String.eqb (artifact_dir args) EmptyString)
  && writable env (artifact_dir args) (artifact_file env job_id).

(** The artifact [_write_artifacts] makes at time [t]. *)
Definition artifact_of (env : Env) (args : Args) (job_id payload resp status : json) (t : Z)
  : Artifact :=
  mkArtifact (artifact_dir args) (artifact_file env job_id) job_id payload resp status t.

(** The submission made in [w] is accepted: [_request] returns, in [w1], a
    response whose body reads as [resp], which holds the job id [job_id],
    and [path] is the status path of that job. *)
Definition accepted (env : Env) (args : Args) (w : World) (payload resp job_id : json)
           (path : string) (w1 : World) : Prop :=
  base_url args <> EmptyString /\ api_key args <> EmptyString /\
  payload_file args = Some payload /\
  (exists st b,
      _request env (submit_request args payload) (max_retries args) w = (Ok (st, b), w1) /\
      _parse_json env b = Ok resp) /\
  job_id_of resp = Ok job_id /\ truthy job_id = true /\
  str_format env (status_path_template args) job_id = Some path.

(** The status request made in [w] is answered: [_request] returns, in
    [w'], a response whose body reads as [doc], whose state is [raw]. *)
Definition answered (env : Env) (args : Args) (payload : json) (status_url : string)
           (w : World) (doc : json) (raw : string) (w' : World) : Prop :=
  exists st b,
    _request env (status_request args payload status_url) (max_retries args) w
    = (Ok (st, b), w') /\
    _parse_json env b = Ok doc /\ raw_state_of doc = Ok (JStr raw).

(** [k] polls in a row, from [w] to [w'], each made within the wait budget
    counted from [start], answered with a state that is in progress and
    followed by the sleep of the poll interval. *)
Inductive in_progress (env : Env) (args : Args) (payload : json) (status_url : string)
          (start : Z) : nat -> World -> World -> Prop :=
| in_progress_O (w : World) : in_progress env args payload status_url start O w w
| in_progress_S (k : nat) (w w1 w2 w' : World) (doc : json) (raw : string) :
    elapsed_seconds env (now w) start <= max_wait args ->
    answered env args payload status_url w doc raw w1 ->
    classify raw = InProgress ->
    time_sleep env (poll args) w1 = (Ok tt, w2) ->
    in_progress env args payload status_url start k w2 w' ->
    in_progress env args payload status_url start (S k) w w'.

(** * Properties *)

(** ** The state classifier *)





(** A poll tick that sees a state outside both vocabularies neither returns
    nor raises: it sleeps for the poll interval and goes round again. *)
Lemma poll_tick_in_progress env fuel args job_id payload resp hdrs status_url start
      (w w1 : World) (st : Z) (b : string) (doc : json) (raw : string) :
  (elapsed_seconds env (now w) start >? max_wait args) = false ->
  _request env (mkRequest "GET" status_url (status_headers args hdrs) None (arg_timeout args))
           (max_retries args) w = (Ok (st, b), w1) ->
  _parse_json env b = Ok doc ->
  raw_state_of doc = Ok (JStr raw) ->
  classify raw = InProgress ->
  poll_loop env (S fuel) args job_id payload resp hdrs status_url start w
  = (time_sleep env (poll args) ;;
     poll_loop env fuel args job_id payload resp hdrs status_url start) w1.
Proof.
  intros Hel Hreq Hparse Hraw Hcl.
  cbn [poll_loop]. unfold bind at 1. unfold time_time at 1.
  rewrite Hel. unfold bind at 1. rewrite Hreq.
  cbn [snd]. unfold bind at 1, lift at 1. rewrite Hparse.
  unfold bind at 1, lift at 1. rewrite Hraw.
  unfold bind at 1, lift at 1. cbn [str_lower].
  unfold classify in Hcl. rewrite Hcl. reflexivity.
Qed.


(** ** The request executor *)

Lemma backoff_nonneg (attempt : Z) : 0 <= backoff attempt.
Proof.
  unfold backoff. apply Z.min_glb; [lia |]. apply Z.pow_nonneg. lia.
Qed.

Lemma time_sleep_backoff env (attempt : Z) (w : World) :
  time_sleep env (backoff attempt) w
  = (Ok tt, mkWorld (now w + (backoff attempt * hz env + lag env (List.length (trace w))))
                    (calls w) (trace w ++ [EvSleep (now w) (backoff attempt)])).
Proof.
  unfold time_sleep. pose proof (backoff_nonneg attempt) as H.
  destruct (backoff attempt <? 0) eqn:E; [lia | reflexivity].
Qed.

Lemma attempts_app (l1 l2 : list Event) : attempts (l1 ++ l2) = (attempts l1 + attempts l2)%nat.
Proof. unfold attempts. now rewrite List.filter_app, List.length_app. Qed.

Lemma sleeps_app (l1 l2 : list Event) : sleeps (l1 ++ l2) = (sleeps l1 ++ sleeps l2)%list.
Proof.
  induction l1 as [| e l1 IH]; [reflexivity |].
  destruct e; simpl; now rewrite ?IH.
Qed.

(** One round of the loop, by the outcome of its network call. *)
Lemma _request_loop_step env budget req mr a le (w : World) :
  (a <=? mr) = true ->
  let out := net env (calls w) req in
  let w1 := mkWorld (now w + lag env (List.length (trace w))) (S (calls w))
                    (trace w ++ [EvUrlopen (now w) req out]) in
  _request_loop env (S budget) req mr a le w
  = if retryable out && (a <? mr) then
      (time_sleep env (backoff a) ;;
       _request_loop env budget req mr (a + 1)
                     (match out with URLError e => Some e | _ => le end)) w1
    else (settle out, w1).
Proof.
  intros Ha out w1. cbn [_request_loop]. rewrite Ha.
  unfold bind at 1. unfold urlopen. fold out. fold w1.
  destruct out as [status body | status payload | e | what]; cbn [retryable settle andb]; try reflexivity.
  - destruct (bool_decide (status ∈ RETRYABLE_HTTP) && (a <? mr)); reflexivity.
  - destruct (a <? mr); reflexivity.
Qed.

Lemma _request_loop_exit env budget req mr a le (w : World) :
  (a <=? mr) = false ->
  _request_loop env budget req mr a le w = (Raise (RuntimeError_failed_after_retries le), w).
Proof. intros Ha. destruct budget; cbn [_request_loop]; rewrite Ha; reflexivity. Qed.

(** The whole run of the loop from attempt [a]: [n] network calls, a
    [backoff] sleep between two consecutive ones, every call but the last
    retryable, and the last one settled. *)
Lemma _request_loop_run env req mr : forall budget a le w r w',
  mr + 1 - a <= Z.of_nat budget ->
  _request_loop env budget req mr a le w = (r, w') ->
  exists (n : nat) (new : list Event),
    trace w' = (trace w ++ new)%list /\
    attempts new = n /\
    calls w' = (calls w + n)%nat /\
    sleeps new = List.map backoff (zseq a (Nat.pred n)) /\
    Z.of_nat n <= Z.max 0 (mr + 1 - a) /\
    (a <= mr -> (1 <= n)%nat) /\
    (forall i, (S i < n)%nat -> retryable (net env (calls w + i) req) = true) /\
    (forall i, n = S i -> a + Z.of_nat i < mr ->
               retryable (net env (calls w + i) req) = false) /\
    (forall i, n = S i -> r = settle (net env (calls w + i) req)) /\
    (n = O -> r = Raise (RuntimeError_failed_after_retries le)).
Proof.
  induction budget as [| budget IH]; intros a le w r w' Hb Hrun.
  - assert (Ha : (a <=? mr) = false) by lia.
    rewrite (_request_loop_exit _ _ _ _ _ _ _ Ha) in Hrun. inversion Hrun; subst.
    exists O, []. rewrite List.app_nil_r.
    repeat split; try reflexivity; try lia; intros; lia.
  - destruct (a <=? mr) eqn:Ha.
    2:{ rewrite (_request_loop_exit _ _ _ _ _ _ _ Ha) in Hrun. inversion Hrun; subst.
        exists O, []. rewrite List.app_nil_r.
        repeat split; try reflexivity; try lia; intros; lia. }
    rewrite (_request_loop_step _ _ _ _ _ _ _ Ha) in Hrun.
    set (out := net env (calls w) req) in *.
    destruct (retryable out && (a <? mr)) eqn:Hretry.
    + apply andb_true_iff in Hretry as [Hout Hlt].
      unfold bind in Hrun. rewrite time_sleep_backoff in Hrun. cbn [now calls trace] in Hrun.
      apply IH in Hrun; [| lia].
      destruct Hrun as (n & new & Htr & Hn & Hc & Hs & Hle & Hge & Hpre & Hlast & Hres & Hzero).
      cbn [now calls trace] in *.
      assert (Hpos : (1 <= n)%nat) by (apply Hge; lia).
      exists (S n), (EvUrlopen (now w) req out :: EvSleep (now w + lag env (List.length (trace w))) (backoff a) :: new).
      repeat split.
      * rewrite Htr, <- !List.app_assoc. reflexivity.
      * unfold attempts in *. cbn. now rewrite Hn.
      * lia.
      * cbn [sleeps]. rewrite Hs. destruct n; [lia |]. reflexivity.
      * lia.
      * lia.
      * intros i Hi. destruct i as [| i].
        -- now rewrite Nat.add_0_r.
        -- replace (calls w + S i)%nat with (S (calls w) + i)%nat by lia.
           apply Hpre. lia.
      * intros i Hi Hlt'. injection Hi as ->. destruct i as [| i]; [lia |].
        replace (calls w + S i)%nat with (S (calls w) + i)%nat by lia.
        apply (Hlast i); lia.
      * intros i Hi. injection Hi as ->. destruct i as [| i]; [lia |].
        replace (calls w + S i)%nat with (S (calls w) + i)%nat by lia.
        now apply Hres.
      * discriminate.
    + inversion Hrun; subst.
      exists 1%nat, [EvUrlopen (now w) req out]. cbn [now calls trace].
      repeat split; try reflexivity; try lia.
      * intros i Hi Hlt. injection Hi as <-. rewrite Nat.add_0_r. fold out.
        apply andb_false_iff in Hretry as [H | H]; [exact H | lia].
      * intros i Hi. injection Hi as <-. now rewrite Nat.add_0_r.
Qed.

Lemma _request_unfold env req mr (w : World) :
  _request env req mr w
  = _request_loop env (Z.to_nat (mr + 1)) req mr 0 None
                  (mkWorld (now w) (calls w) (trace w ++ [EvCall (now w) req])).
Proof. reflexivity. Qed.

(** [_request] as a whole: the entry mark, then the run of the loop from
    attempt 0. *)
Lemma _request_run env req mr (w : World) r w' :
  _request env req mr w = (r, w') ->
  exists (n : nat) (new : list Event),
    trace w' = (trace w ++ EvCall (now w) req :: new)%list /\
    attempts new = n /\
    calls w' = (calls w + n)%nat /\
    sleeps new = List.map backoff (zseq 0 (Nat.pred n)) /\
    Z.of_nat n <= Z.max 0 (mr + 1) /\
    (0 <= mr -> (1 <= n)%nat) /\
    (forall i, (S i < n)%nat -> retryable (net env (calls w + i) req) = true) /\
    (forall i, n = S i -> Z.of_nat i < mr ->
               retryable (net env (calls w + i) req) = false) /\
    (forall i, n = S i -> r = settle (net env (calls w + i) req)) /\
    (n = O -> r = Raise (RuntimeError_failed_after_retries None)).
Proof.
  rewrite _request_unfold. intros Hrun.
  apply _request_loop_run in Hrun; [| lia].
  destruct Hrun as (n & new & Htr & Hn & Hc & Hs & Hle & Hge & Hpre & Hlast & Hres & Hzero).
  cbn [now calls trace] in *.
  exists n, new. rewrite Htr, <- List.app_assoc.
  replace (mr + 1 - 0) with (mr + 1) in Hle by lia.
  repeat split; auto.
Qed.

Lemma backoff_table :
  List.map backoff [0; 1; 2; 3; 4; 5; 6; 7] = [1; 2; 4; 8; 16; 32; 60; 60].
Proof. reflexivity. Qed.

Lemma backoff_capped (attempt : Z) : 6 <= attempt -> backoff attempt = 60.
Proof.
  intros H. unfold backoff. apply Z.min_l.
  assert (2 ^ 6 <= 2 ^ attempt) by (apply Z.pow_le_mono_r; lia). lia.
Qed.

Lemma retryable_503 (b : string) : retryable (HTTPError 503 b) = true.
Proof. reflexivity. Qed.

(** The transport that answers 503, 503, 200, with two retries allowed. *)
Lemma _request_503_503_200 env req (w : World) (b1 b2 b3 : string) :
  net env (calls w) req = HTTPError 503 b1 ->
  net env (calls w + 1) req = HTTPError 503 b2 ->
  net env (calls w + 2) req = Response 200 b3 ->
  exists w' new,
    _request env req 2 w = (Ok (200, b3), w') /\
    trace w' = (trace w ++ EvCall (now w) req :: new)%list /\
    attempts new = 3%nat /\
    sleeps new = [1; 2].
Proof.
  intros H1 H2 H3.
  destruct (_request env req 2 w) as [r w'] eqn:Hrun.
  destruct (_request_run _ _ _ _ _ _ Hrun)
    as (n & new & Htr & Hn & Hc & Hs & Hle & Hge & Hpre & Hlast & Hres & Hzero).
  assert (n = 3%nat) as ->.
  { destruct n as [| [| [| [| n]]]]; try lia.
    - specialize (Hlast 0%nat eq_refl ltac:(lia)).
      rewrite Nat.add_0_r, H1 in Hlast. discriminate.
    - specialize (Hlast 1%nat eq_refl ltac:(lia)).
      rewrite H2 in Hlast. discriminate. }
  exists w', new. rewrite (Hres 2%nat eq_refl), H3.
  repeat split; assumption.
Qed.

(** C1. A call of the request executor makes [n >= 1] attempts; before
    each attempt after the first it sleeps [min(60, 2^attempt)] seconds,
    the attempt counter starting at 0 (1, 2, 4, 8, 16, 32, 60, 60, ...);
    every attempt but the last had a retryable outcome, a retryable outcome
    is the last one only when no retry is left, and [n <= max_retries + 1].
    With 503, 503, 200 and two retries allowed the call returns the 200 on
    its third attempt after sleeping 1 and 2 seconds. ([max_retries] is a
    count; with a negative one the loop body never runs.) *)
Theorem C1_request_retries_with_backoff :
  (forall env req max_retries (w : World) r w',
      0 <= max_retries ->
      _request env req max_retries w = (r, w') ->
      exists (n : nat) (new : list Event),
        trace w' = (trace w ++ EvCall (now w) req :: new)%list /\
        attempts new = n /\
        (1 <= n)%nat /\
        Z.of_nat n <= max_retries + 1 /\
        sleeps new = List.map (fun attempt => Z.min 60 (2 ^ attempt)) (zseq 0 (Nat.pred n)) /\
        (forall i, (S i < n)%nat -> retryable (net env (calls w + i) req) = true) /\
        (forall i, n = S i -> Z.of_nat i < max_retries ->
                   retryable (net env (calls w + i) req) = false) /\
        (forall i, n = S i -> r = settle (net env (calls w + i) req))) /\
  (forall status body,
      retryable (HTTPError status body) = true <-> In status [429; 500; 502; 503; 504]) /\
  (forall reason, retryable (URLError reason) = true) /\
  List.map backoff [0; 1; 2; 3; 4; 5; 6; 7] = [1; 2; 4; 8; 16; 32; 60; 60] /\
  (forall attempt, 6 <= attempt -> backoff attempt = 60) /\
  (forall env req (w : World) (b1 b2 b3 : string),
      net env (calls w) req = HTTPError 503 b1 ->
      net env (calls w + 1) req = HTTPError 503 b2 ->
      net env (calls w + 2) req = Response 200 b3 ->
      exists w' new,
        _request env req 2 w = (Ok (200, b3), w') /\
        trace w' = (trace w ++ EvCall (now w) req :: new)%list /\
        attempts new = 3%nat /\
        sleeps new = [1; 2]).
Proof.
  split; [| split; [| split; [| split; [| split]]]].
  - intros env req mr w r w' Hmr Hrun.
    destruct (_request_run _ _ _ _ _ _ Hrun)
      as (n & new & Htr & Hn & Hc & Hs & Hle & Hge & Hpre & Hlast & Hres & Hzero).
    exists n, new. repeat split; auto; lia.
  - intros status body. cbn [retryable]. rewrite bool_decide_eq_true.
    unfold RETRYABLE_HTTP. rewrite !elem_of_union, !elem_of_singleton.
    cbn [In]. intuition lia.
  - reflexivity.
  - exact backoff_table.
  - exact backoff_capped.
  - exact _request_503_503_200.
Qed.

Lemma C1_witness :
  exists w' new,
    _request (Scenario.world 1 Scenario.flaky []) Scenario.get_status 2 Scenario.boot
    = (Ok (200, "{}"), w') /\
    trace w' = (trace Scenario.boot ++ EvCall (now Scenario.boot) Scenario.get_status :: new)%list /\
    attempts new = 3%nat /\
    sleeps new = [1; 2].
Proof.
  apply (proj2 (proj2 (proj2 (proj2 (proj2 C1_request_retries_with_backoff))))
           (Scenario.world 1 Scenario.flaky []) Scenario.get_status Scenario.boot
           "busy" "busy" "{}"); reflexivity.
Defined.

(** C2 as stated fails: on a 404 the executor returns nothing; it raises. *)
Lemma C2_counterexample_404_raises :
  fst (_request (Scenario.world 1 Scenario.not_found []) Scenario.get_status 2 Scenario.boot)
  = Raise (RuntimeError_HTTPError 404 "no such job") /\
  fst (_request (Scenario.world 1 Scenario.not_found []) Scenario.get_status 2 Scenario.boot)
  <> Ok (404, "no such job").
Proof. split; [reflexivity | discriminate]. Qed.


(** ** Time and the trace *)

Lemma chrono_le (l : list Event) : forall t0 t1, chrono t0 l t1 -> t0 <= t1.
Proof.
  induction l as [| e l IH]; intros t0 t1 H; cbn in H; [exact H |].
  destruct H as [H1 H2]. apply IH in H2. lia.
Qed.

Lemma chrono_weaken (l : list Event) (t0 t0' t1 : Z) :
  t0' <= t0 -> chrono t0 l t1 -> chrono t0' l t1.
Proof. destruct l; cbn; intros; [lia | intuition lia]. Qed.

Lemma chrono_app (l1 : list Event) : forall l2 t0 t1 t2,
  chrono t0 l1 t1 -> chrono t1 l2 t2 -> chrono t0 (l1 ++ l2) t2.
Proof.
  induction l1 as [| e l1 IH]; intros l2 t0 t1 t2 H1 H2; cbn in *.
  - eapply chrono_weaken; eassumption.
  - destruct H1 as [Ha Hb]. split; [exact Ha |]. eapply IH; eassumption.
Qed.

Lemma chrono_lower (l : list Event) : forall t0 t1 e,
  chrono t0 l t1 -> In e l -> t0 <= event_time e.
Proof.
  induction l as [| x l IH]; intros t0 t1 e H Hin; [destruct Hin |].
  cbn in H. destruct H as [Hx Hl]. destruct Hin as [-> | Hin]; [exact Hx |].
  transitivity (event_time x); [exact Hx |]. eapply IH; eassumption.
Qed.

(** An event of a chronological trace is not earlier than the events
    before it. *)
Lemma chrono_later (l1 : list Event) : forall l2 t0 t1 e1 e2,
  chrono t0 (l1 ++ l2) t1 -> In e1 l1 -> In e2 l2 -> event_time e1 <= event_time e2.
Proof.
  induction l1 as [| e l1 IH]; intros l2 t0 t1 e1 e2 H H1 H2; [destruct H1 |].
  cbn in H. destruct H as [Ha Hb]. destruct H1 as [-> | H1].
  - eapply chrono_lower; [exact Hb |]. apply List.in_or_app. now right.
  - eapply IH; eassumption.
Qed.

Lemma artifacts_app (l1 l2 : list Event) :
  artifacts (l1 ++ l2) = (artifacts l1 ++ artifacts l2)%list.
Proof.
  induction l1 as [| e l1 IH]; [reflexivity |].
  destruct e; simpl; now rewrite ?IH.
Qed.

Lemma status_requests_app (l1 l2 : list Event) :
  status_requests (l1 ++ l2) = (status_requests l1 ++ status_requests l2)%list.
Proof.
  induction l1 as [| e l1 IH]; [reflexivity |].
  destruct e; simpl; rewrite ?IH; try reflexivity.
  destruct (String.eqb (method req) "GET"); reflexivity.
Qed.

(** The loop of [_request] only calls the network and sleeps, and time
    does not run backwards through it. *)
Lemma _request_loop_frame env req mr : sane env -> forall budget a le w r w',
  _request_loop env budget req mr a le w = (r, w') ->
  exists new : list Event,
    trace w' = (trace w ++ new)%list /\
    chrono (now w) new (now w') /\
    artifacts new = [] /\
    status_requests new = [].
Proof.
  intros [Hhz Hlag].
  induction budget as [| budget IH]; intros a le w r w' Hrun.
  - exists []. cbn [_request_loop] in Hrun.
    destruct (a <=? mr); inversion Hrun; subst;
      rewrite List.app_nil_r; cbn; repeat split; lia.
  - destruct (a <=? mr) eqn:Ha.
    2:{ rewrite (_request_loop_exit _ _ _ _ _ _ _ Ha) in Hrun. inversion Hrun; subst.
        exists []. rewrite List.app_nil_r; cbn; repeat split; lia. }
    rewrite (_request_loop_step _ _ _ _ _ _ _ Ha) in Hrun.
    set (out := net env (calls w) req) in *.
    pose proof (Hlag (List.length (trace w))) as Hl0.
    destruct (retryable out && (a <? mr)) eqn:Hretry.
    + unfold bind in Hrun. rewrite time_sleep_backoff in Hrun. cbn [now calls trace] in Hrun.
      apply IH in Hrun. destruct Hrun as (new & Htr & Hch & Hart & Hst).
      cbn [now calls trace] in *.
      exists (EvUrlopen (now w) req out
              :: EvSleep (now w + lag env (List.length (trace w))) (backoff a) :: new).
      repeat split.
      * rewrite Htr, <- !List.app_assoc. reflexivity.
      * cbn [event_time]. lia.
      * cbn [event_time]. lia.
      * eapply chrono_weaken; [| exact Hch].
        pose proof (backoff_nonneg a).
        pose proof (Hlag (List.length (trace w ++ [EvUrlopen (now w) req out]))).
        assert (0 <= backoff a * hz env) by (apply Z.mul_nonneg_nonneg; lia).
        cbn [event_time]. lia.
      * exact Hart.
      * exact Hst.
    + inversion Hrun; subst. exists [EvUrlopen (now w) req out]. cbn.
      repeat split; lia.
Qed.

Lemma _request_frame env req mr (w : World) r w' :
  sane env ->
  _request env req mr w = (r, w') ->
  exists new : list Event,
    trace w' = (trace w ++ EvCall (now w) req :: new)%list /\
    chrono (now w) new (now w') /\
    artifacts new = [] /\
    status_requests new = [].
Proof.
  intros Hsane. rewrite _request_unfold. intros Hrun.
  apply (_request_loop_frame _ _ _ Hsane) in Hrun.
  destruct Hrun as (new & Htr & Hch & Hart & Hst). cbn [now calls trace] in *.
  exists new. rewrite Htr, <- List.app_assoc. auto.
Qed.

(** ** The poller *)

Lemma poll_loop_timeout env fuel args job_id payload resp hdrs status_url start (w : World) :
  max_wait args < elapsed_seconds env (now w) start ->
  poll_loop env (S fuel) args job_id payload resp hdrs status_url start w = (Ok (Some 4), w).
Proof.
  intros H. cbn [poll_loop]. unfold bind at 1. unfold time_time at 1.
  destruct (elapsed_seconds env (now w) start >? max_wait args) eqn:E; [reflexivity | lia].
Qed.

(** One iteration of the loop, case by case. *)
Lemma poll_loop_step env fuel args job_id payload resp hdrs status_url start (w : World) r w' :
  poll_loop env (S fuel) args job_id payload resp hdrs status_url start w = (r, w') ->
  (max_wait args < elapsed_seconds env (now w) start /\ r = Ok (Some 4) /\ w' = w)
  \/
  (elapsed_seconds env (now w) start <= max_wait args /\
   exists r1 w1,
     _request env (mkRequest "GET" status_url (status_headers args hdrs) None (arg_timeout args))
              (max_retries args) w = (r1, w1) /\
     ((exists e, r = Raise e /\ w' = w1)
      \/
      (exists st b s_resp raw,
          r1 = Ok (st, b) /\ _parse_json env b = Ok s_resp /\
          raw_state_of s_resp = Ok (JStr raw) /\
          let written :=
            mkWorld (now w1) (calls w1)
                    (trace w1 ++ [EvArtifact (now w1)
                       (mkArtifact (default "artifacts" (BUILD_ARTIFACTSTAGINGDIRECTORY args))
                                   ("deploy-result-" ++ py_str env job_id ++ ".json")
                                   job_id payload resp s_resp (now w1))]) in
          ((classify raw = Succeeded /\ r = Ok (Some 0) /\ w' = written)
           \/ (classify raw = Failed /\ r = Ok (Some 5) /\ w' = written)
           \/ (classify raw = InProgress /\ 0 <= poll args /\
               poll_loop env fuel args job_id payload resp hdrs status_url start
                 (mkWorld (now w1 + (poll args * hz env + lag env (List.length (trace w1))))
                          (calls w1) (trace w1 ++ [EvSleep (now w1) (poll args)]))
               = (r, w')))))).
Proof.
  intros Hrun. cbn [poll_loop] in Hrun. unfold bind at 1 in Hrun. unfold time_time at 1 in Hrun.
  destruct (elapsed_seconds env (now w) start >? max_wait args) eqn:E.
  { left. inversion Hrun; subst. repeat split; try reflexivity; lia. }
  right. split; [lia |].
  unfold bind at 1 in Hrun.
  destruct (_request env _ (max_retries args) w) as [r1 w1] eqn:Hreq.
  exists r1, w1. split; [reflexivity |].
  destruct r1 as [[st b] | e]; [| left; inversion Hrun; eauto].
  cbn [snd] in Hrun. unfold bind at 1, lift at 1 in Hrun.
  destruct (_parse_json env b) as [s_resp | e] eqn:Hparse; [| left; inversion Hrun; eauto].
  unfold bind at 1, lift at 1 in Hrun.
  destruct (raw_state_of s_resp) as [rawv | e] eqn:Hraw; [| left; inversion Hrun; eauto].
  unfold bind at 1, lift at 1 in Hrun.
  destruct rawv as [| | | raw | |]; cbn [str_lower] in Hrun;
    try (left; inversion Hrun; eauto; fail).
  destruct (normalize (lower raw)) eqn:Hn.
  - unfold bind, _write_artifacts, note, ret in Hrun.
    destruct (String.eqb _ EmptyString); [left; inversion Hrun; eauto |].
    destruct (writable env _ _); [| left; inversion Hrun; eauto].
    right. exists st, b, s_resp, raw.
    split; [reflexivity |]. split; [exact Hparse |]. split; [exact Hraw |].
    intros written. subst written. unfold classify.
    left. inversion Hrun. auto.
  - unfold bind, _write_artifacts, note, ret in Hrun.
    destruct (String.eqb _ EmptyString); [left; inversion Hrun; eauto |].
    destruct (writable env _ _); [| left; inversion Hrun; eauto].
    right. exists st, b, s_resp, raw.
    split; [reflexivity |]. split; [exact Hparse |]. split; [exact Hraw |].
    intros written. subst written. unfold classify.
    right; left. inversion Hrun. auto.
  - unfold bind at 1, time_sleep at 1 in Hrun.
    destruct (poll args <? 0) eqn:Hp.
    + left. inversion Hrun. eauto.
    + right. exists st, b, s_resp, raw.
      split; [reflexivity |]. split; [exact Hparse |]. split; [exact Hraw |].
      intros written. subst written. unfold classify.
      right; right. unfold emit in Hrun. repeat split; [exact Hn | lia | exact Hrun].
Qed.

Lemma chrono_snoc (l : list Event) (t0 t1 t2 : Z) (e : Event) :
  chrono t0 l t1 -> t1 <= event_time e -> event_time e <= t2 -> chrono t0 (l ++ [e]) t2.
Proof.
  intros H1 H2 H3. eapply chrono_app; [exact H1 |]. cbn. lia.
Qed.

(** What a run of the polling loop leaves behind, by its result. *)
Lemma poll_loop_run env args job_id payload resp hdrs status_url start :
  sane env ->
  forall fuel w r w',
    poll_loop env fuel args job_id payload resp hdrs status_url start w = (r, w') ->
    exists new : list Event,
      trace w' = (trace w ++ new)%list /\
      chrono (now w) new (now w') /\
      Forall (fun t => elapsed_seconds env t start <= max_wait args) (status_requests new) /\
      (r = Ok (Some 4) ->
       max_wait args < elapsed_seconds env (now w') start /\ artifacts new = []) /\
      (forall c, r = Ok (Some c) -> c <> 4 ->
                 exists pre a raw,
                   new = (pre ++ [EvArtifact (now w') a])%list /\
                   artifacts pre = [] /\
                   art_jobId a = job_id /\ art_payload a = payload /\
                   art_submitResponse a = resp /\
                   raw_state_of (art_finalStatus a) = Ok (JStr raw) /\
                   ((c = 0 /\ classify raw = Succeeded) \/ (c = 5 /\ classify raw = Failed))) /\
      ((forall c, r <> Ok (Some c)) -> artifacts new = []).
Proof.
  intros Hsane. pose proof Hsane as [Hhz Hlag].
  induction fuel as [| fuel IH]; intros w r w' Hrun.
  - cbn in Hrun. inversion Hrun; subst. exists []. rewrite List.app_nil_r. cbn.
    repeat split; try lia; try constructor; try discriminate.
  - apply poll_loop_step in Hrun.
    destruct Hrun as [(Hel & -> & ->) | (Hel & r1 & w1 & Hreq & Hrest)].
    { exists []. rewrite List.app_nil_r. cbn.
      split; [reflexivity |]. split; [lia |]. split; [constructor |].
      split; [intros _; split; [lia | reflexivity] |].
      split; [intros c Hc Hne; injection Hc as <-; lia |].
      intros Hno. exfalso. apply (Hno 4). reflexivity. }
    destruct (_request_frame _ _ _ _ _ _ Hsane Hreq) as (new1 & Htr1 & Hch1 & Hart1 & Hst1).
    set (req := mkRequest "GET" status_url (status_headers args hdrs) None (arg_timeout args)) in *.
    assert (Hstat : forall tail,
               status_requests (EvCall (now w) req :: new1 ++ tail)
               = now w :: status_requests tail).
    { intros tail. cbn. now rewrite status_requests_app, Hst1. }
    assert (Harts : forall tail,
               artifacts (EvCall (now w) req :: new1 ++ tail) = artifacts tail).
    { intros tail. cbn. now rewrite artifacts_app, Hart1. }
    destruct Hrest as [(e & -> & ->) | (st & b & s_resp & raw & -> & Hparse & Hraw & Hcases)].
    { exists (EvCall (now w) req :: new1 ++ []).
      rewrite Hstat, Harts, List.app_nil_r. cbn.
      split; [rewrite Htr1; reflexivity |].
      split; [split; [lia | exact Hch1] |].
      split; [constructor; [exact Hel | constructor] |].
      split; [discriminate |].
      split; [discriminate | reflexivity]. }
    cbv zeta in Hcases.
    destruct Hcases as [(Hcl & -> & ->) | [(Hcl & -> & ->) | (Hcl & Hpoll & Hrun)]].
    + eexists (EvCall (now w) req :: new1 ++ [EvArtifact (now w1) _]).
      rewrite Hstat, Harts. cbn [now calls trace].
      split; [rewrite Htr1, <- List.app_assoc; reflexivity |].
      split; [cbn; split; [lia |]; eapply chrono_snoc; [exact Hch1 | cbn; lia | cbn; lia] |].
      split; [cbn; constructor; [exact Hel | constructor] |].
      split; [discriminate |].
      split; [| intros Hno; exfalso; apply (Hno 0); reflexivity].
      intros c Hc Hne. injection Hc as <-.
      eexists (EvCall (now w) req :: new1), _, raw.
      split; [reflexivity |]. cbn [artifacts art_jobId art_payload art_submitResponse art_finalStatus].
      repeat split; auto.
    + eexists (EvCall (now w) req :: new1 ++ [EvArtifact (now w1) _]).
      rewrite Hstat, Harts. cbn [now calls trace].
      split; [rewrite Htr1, <- List.app_assoc; reflexivity |].
      split; [cbn; split; [lia |]; eapply chrono_snoc; [exact Hch1 | cbn; lia | cbn; lia] |].
      split; [cbn; constructor; [exact Hel | constructor] |].
      split; [discriminate |].
      split; [| intros Hno; exfalso; apply (Hno 5); reflexivity].
      intros c Hc Hne. injection Hc as <-.
      eexists (EvCall (now w) req :: new1), _, raw.
      split; [reflexivity |]. cbn [artifacts art_jobId art_payload art_submitResponse art_finalStatus].
      repeat split; auto.
    + apply IH in Hrun.
      destruct Hrun as (new2 & Htr2 & Hch2 & Hst2 & Hto & Hdone & Hnone).
      cbn [now calls trace] in *.
      assert (Hstep : 0 <= poll args * hz env + lag env (List.length (trace w1))).
      { pose proof (Hlag (List.length (trace w1))).
        assert (0 <= poll args * hz env) by (apply Z.mul_nonneg_nonneg; lia). lia. }
      exists (EvCall (now w) req :: new1 ++ EvSleep (now w1) (poll args) :: new2).
      rewrite Hstat, Harts.
      split; [rewrite Htr2, Htr1, <- !List.app_assoc; reflexivity |].
      split.
      { cbn. split; [lia |]. eapply chrono_app; [exact Hch1 |].
        cbn. split; [lia |]. eapply chrono_weaken; [| exact Hch2]. lia. }
      split; [cbn; constructor; [exact Hel | exact Hst2] |].
      split; [exact Hto |].
      split; [| exact Hnone].
      intros c Hc Hne. destruct (Hdone c Hc Hne) as (pre & a & raw' & Hnew & Hpre & Hrest).
      exists (EvCall (now w) req :: new1 ++ EvSleep (now w1) (poll args) :: pre), a, raw'.
      split; [rewrite Hnew; cbn; rewrite <- List.app_assoc; reflexivity |].
      split; [rewrite Harts; exact Hpre | exact Hrest].
Qed.

Lemma elapsed_lower env (t start d : Z) :
  0 < hz env -> 0 <= d -> d * hz env <= t - start -> d <= elapsed_seconds env t start.
Proof.
  intros Hhz Hd H. unfold elapsed_seconds.
  assert (0 <= d * hz env) by (apply Z.mul_nonneg_nonneg; lia).
  rewrite Z.quot_div_nonneg by lia.
  apply Z.div_le_lower_bound; lia.
Qed.

Lemma elapsed_mono env (t t' start : Z) :
  0 < hz env -> t <= t' -> elapsed_seconds env t start <= elapsed_seconds env t' start.
Proof.
  intros Hhz H. unfold elapsed_seconds. apply Z.quot_le_mono; lia.
Qed.

(** Polls are at least [poll] seconds apart, so a wait budget leaves room
    for [max_wait / poll + 1] of them and no more: when [d] seconds have
    already gone by, [k] further status requests need
    [(k - 1) * poll <= max_wait - d]. *)
Lemma poll_loop_count env args job_id payload resp hdrs status_url start :
  sane env -> 1 <= poll args ->
  forall fuel w r w' d,
    0 <= d -> d * hz env <= now w - start ->
    poll_loop env fuel args job_id payload resp hdrs status_url start w = (r, w') ->
    exists new : list Event,
      trace w' = (trace w ++ new)%list /\
      Z.of_nat (List.length (status_requests new)) * poll args
      <= Z.max 0 (max_wait args - d + poll args).
Proof.
  intros Hsane Hpoll. pose proof Hsane as [Hhz Hlag].
  induction fuel as [| fuel IH]; intros w r w' d Hd Hnow Hrun.
  - cbn in Hrun. inversion Hrun; subst. exists []. rewrite List.app_nil_r. split; [reflexivity | cbn; lia].
  - apply poll_loop_step in Hrun.
    destruct Hrun as [(Hel & -> & ->) | (Hel & r1 & w1 & Hreq & Hrest)].
    { exists []. rewrite List.app_nil_r. split; [reflexivity | cbn; lia]. }
    pose proof (elapsed_lower env _ _ _ Hhz Hd Hnow) as Hlow.
    destruct (_request_frame _ _ _ _ _ _ Hsane Hreq) as (new1 & Htr1 & Hch1 & Hart1 & Hst1).
    set (req := mkRequest "GET" status_url (status_headers args hdrs) None (arg_timeout args)) in *.
    assert (Hstat : forall tail,
               status_requests (EvCall (now w) req :: new1 ++ tail)
               = now w :: status_requests tail).
    { intros tail. cbn. now rewrite status_requests_app, Hst1. }
    pose proof (chrono_le _ _ _ Hch1) as Hmono.
    destruct Hrest as [(e & -> & ->) | (st & b & s_resp & raw & -> & Hparse & Hraw & Hcases)].
    { exists (EvCall (now w) req :: new1 ++ []). rewrite Hstat, List.app_nil_r.
      split; [rewrite Htr1; reflexivity | cbn; lia]. }
    cbv zeta in Hcases.
    destruct Hcases as [(Hcl & -> & ->) | [(Hcl & -> & ->) | (Hcl & Hp & Hrun)]].
    + eexists (EvCall (now w) req :: new1 ++ [EvArtifact (now w1) _]). rewrite Hstat.
      cbn [now calls trace].
      split; [rewrite Htr1, <- List.app_assoc; reflexivity | cbn; lia].
    + eexists (EvCall (now w) req :: new1 ++ [EvArtifact (now w1) _]). rewrite Hstat.
      cbn [now calls trace].
      split; [rewrite Htr1, <- List.app_assoc; reflexivity | cbn; lia].
    + apply (IH _ _ _ (d + poll args)) in Hrun; cbn [now calls trace] in *.
      * destruct Hrun as (new2 & Htr2 & Hbound).
        exists (EvCall (now w) req :: new1 ++ EvSleep (now w1) (poll args) :: new2).
        rewrite Hstat.
        split; [rewrite Htr2, Htr1, <- !List.app_assoc; reflexivity |].
        cbn [status_requests List.length]. lia.
      * lia.
      * pose proof (Hlag (List.length (trace w1))). nia.
Qed.

Lemma _request_immediate env req mr (w : World) status body :
  0 <= mr ->
  net env (calls w) req = Response status body ->
  _request env req mr w
  = (Ok (status, body),
     mkWorld (now w + lag env (List.length (trace w ++ [EvCall (now w) req])))
             (S (calls w))
             ((trace w ++ [EvCall (now w) req])
              ++ [EvUrlopen (now w) req (Response status body)])).
Proof.
  intros Hmr Hout. rewrite _request_unfold.
  destruct (Z.to_nat (mr + 1)) as [| budget] eqn:Hb; [lia |].
  rewrite _request_loop_step by lia. cbn [calls now trace].
  rewrite Hout. reflexivity.
Qed.

(** A status endpoint that always answers and never with a terminal state. *)
Lemma poll_loop_gives_up env args job_id payload resp hdrs status_url start :
  sane env -> 1 <= poll args -> 0 <= max_retries args ->
  (forall n req, exists st b doc raw,
        net env n req = Response st b /\ _parse_json env b = Ok doc /\
        raw_state_of doc = Ok (JStr raw) /\ classify raw = InProgress) ->
  forall fuel w d,
    0 <= d -> d * hz env <= now w - start ->
    Z.max 0 (max_wait args - d + poll args) < Z.of_nat fuel * poll args ->
    exists w', poll_loop env fuel args job_id payload resp hdrs status_url start w
               = (Ok (Some 4), w').
Proof.
  intros Hsane Hpoll Hmr Hquiet. pose proof Hsane as [Hhz Hlag].
  induction fuel as [| fuel IH]; intros w d Hd Hnow Hfuel; [lia |].
  destruct (Z.ltb (max_wait args) (elapsed_seconds env (now w) start)) eqn:Hel.
  - exists w. apply poll_loop_timeout. lia.
  - pose proof (elapsed_lower env _ _ _ Hhz Hd Hnow) as Hlow.
    set (req := mkRequest "GET" status_url (status_headers args hdrs) None (arg_timeout args)).
    destruct (Hquiet (calls w) req) as (st & b & doc & raw & Hout & Hparse & Hraw & Hcl).
    pose proof (_request_immediate env req (max_retries args) w st b Hmr Hout) as Hreq.
    erewrite poll_tick_in_progress; [| lia | exact Hreq | exact Hparse | exact Hraw | exact Hcl].
    unfold bind at 1, time_sleep at 1.
    destruct (poll args <? 0) eqn:Hp; [lia |].
    unfold emit. cbn [now calls trace].
    apply (IH _ (d + poll args)); cbn [now calls trace].
    + lia.
    + pose proof (Hlag (List.length (trace w ++ [EvCall (now w) req]))).
      pose proof (Hlag (List.length ((trace w ++ [EvCall (now w) req])
                                     ++ [EvUrlopen (now w) req (Response st b)]))).
      nia.
    + nia.
Qed.

Lemma status_requests_In (l : list Event) (t : Z) :
  In t (status_requests l) -> exists e, In e l /\ event_time e = t.
Proof.
  induction l as [| e l IH]; intros H; [destruct H |].
  destruct e as [t' req | | |]; cbn in H;
    try (destruct (IH H) as (e' & He' & Ht); exists e'; split; [now right | exact Ht]).
  destruct (String.eqb (method req) "GET").
  - destruct H as [<- | H].
    + eexists. split; [now left | reflexivity].
    + destruct (IH H) as (e' & He' & Ht). exists e'. split; [now right | exact Ht].
  - destruct (IH H) as (e' & He' & Ht). exists e'. split; [now right | exact Ht].
Qed.

(** Once some event of the run lies beyond the budget, no status request
    follows it. *)
Lemma no_status_request_after_budget env args start (new : list Event) (t0 t1 : Z) :
  0 < hz env ->
  chrono t0 new t1 ->
  Forall (fun t => elapsed_seconds env t start <= max_wait args) (status_requests new) ->
  forall l1 e l2,
    new = (l1 ++ e :: l2)%list ->
    max_wait args < elapsed_seconds env (event_time e) start ->
    status_requests l2 = [].
Proof.
  intros Hhz Hch Hall l1 e l2 -> Hlate.
  destruct (status_requests l2) as [| t rest] eqn:Hsr; [reflexivity | exfalso].
  assert (Hin : In t (status_requests l2)) by (rewrite Hsr; now left).
  destruct (status_requests_In _ _ Hin) as (e2 & He2 & Ht).
  assert (Hle : event_time e <= event_time e2).
  { replace (l1 ++ e :: l2)%list with ((l1 ++ [e]) ++ l2)%list in Hch
      by (rewrite <- List.app_assoc; reflexivity).
    eapply chrono_later; [exact Hch | | exact He2].
    apply List.in_or_app. right. now left. }
  assert (Hok : elapsed_seconds env t start <= max_wait args).
  { rewrite List.Forall_forall in Hall. apply Hall.
    rewrite status_requests_app. apply List.in_or_app. right.
    replace (e :: l2) with ([e] ++ l2)%list by reflexivity.
    rewrite status_requests_app. apply List.in_or_app. now right. }
  pose proof (elapsed_mono env _ _ start Hhz Hle) as Hmono.
  rewrite Ht in Hmono. lia.
Qed.

(** C3. The poller enters a status request only while the elapsed whole
    seconds are within the wait budget; when a loop check finds the budget
    exceeded it returns the timeout code without touching the network, so
    no status request follows the moment the budget is first exceeded. With
    a budget of 5 s and a poll interval of 2 s at most 3 status requests are
    made, and against an endpoint that never reports a terminal state the
    run ends in the timeout. (A status request is one call of the request
    executor; its internal retries are not checked against the budget.) *)
Theorem C3_poller_respects_wait_budget :
  (forall env args job_id payload resp hdrs status_url start fuel (w : World) r w',
      sane env ->
      poll_loop env fuel args job_id payload resp hdrs status_url start w = (r, w') ->
      exists new : list Event,
        trace w' = (trace w ++ new)%list /\
        Forall (fun t => elapsed_seconds env t start <= max_wait args) (status_requests new) /\
        (forall l1 e l2,
            new = (l1 ++ e :: l2)%list ->
            max_wait args < elapsed_seconds env (event_time e) start ->
            status_requests l2 = []) /\
        (r = Ok (Some 4) -> max_wait args < elapsed_seconds env (now w') start)) /\
  (forall env args job_id payload resp hdrs status_url start fuel (w : World),
      max_wait args < elapsed_seconds env (now w) start ->
      poll_loop env (S fuel) args job_id payload resp hdrs status_url start w
      = (Ok (Some 4), w)) /\
  (forall env args job_id payload resp hdrs status_url fuel (w : World) r w',
      sane env -> max_wait args = 5 -> poll args = 2 ->
      poll_loop env fuel args job_id payload resp hdrs status_url (now w) w = (r, w') ->
      exists new : list Event,
        trace w' = (trace w ++ new)%list /\
        (List.length (status_requests new) <= 3)%nat) /\
  (forall env args job_id payload resp hdrs status_url fuel (w : World),
      sane env -> max_wait args = 5 -> poll args = 2 -> 0 <= max_retries args ->
      (forall n req, exists st b doc raw,
            net env n req = Response st b /\ _parse_json env b = Ok doc /\
            raw_state_of doc = Ok (JStr raw) /\ classify raw = InProgress) ->
      (4 <= fuel)%nat ->
      exists w' new,
        poll_loop env fuel args job_id payload resp hdrs status_url (now w) w
        = (Ok (Some 4), w') /\
        trace w' = (trace w ++ new)%list /\
        (List.length (status_requests new) <= 3)%nat).
Proof.
  split; [| split; [| split]].
  - intros env args job_id payload resp hdrs status_url start fuel w r w' Hsane Hrun.
    destruct (poll_loop_run _ _ _ _ _ _ _ _ Hsane _ _ _ _ Hrun)
      as (new & Htr & Hch & Hall & Hto & _).
    exists new. split; [exact Htr |]. split; [exact Hall |]. split.
    + eapply no_status_request_after_budget; [apply Hsane | exact Hch | exact Hall].
    + intros Hr. apply (Hto Hr).
  - intros. now apply poll_loop_timeout.
  - intros env args job_id payload resp hdrs status_url fuel w r w' Hsane Hw Hp Hrun.
    assert (H1 : 1 <= poll args) by lia.
    assert (H2 : 0 * hz env <= now w - now w) by lia.
    destruct (poll_loop_count _ _ _ _ _ _ _ _ Hsane H1 _ _ _ _ 0 (Z.le_refl 0) H2 Hrun)
      as (new & Htr & Hbound).
    exists new. split; [exact Htr | lia].
  - intros env args job_id payload resp hdrs status_url fuel w Hsane Hw Hp Hmr Hquiet Hfuel.
    assert (H1 : 1 <= poll args) by lia.
    assert (H2 : 0 * hz env <= now w - now w) by lia.
    assert (H3 : Z.max 0 (max_wait args - 0 + poll args) < Z.of_nat fuel * poll args) by lia.
    destruct (poll_loop_gives_up _ _ job_id payload resp hdrs status_url (now w)
                Hsane H1 Hmr Hquiet fuel w 0 (Z.le_refl 0) H2 H3)
      as (w' & Hrun).
    destruct (poll_loop_count _ _ _ _ _ _ _ _ Hsane H1 _ _ _ _ 0 (Z.le_refl 0) H2 Hrun)
      as (new & Htr & Hbound).
    exists w', new. split; [exact Hrun |]. split; [exact Htr | lia].
Qed.

(** ** The whole run *)

Lemma main_missing_config env fuel args (w : World) :
  base_url args = EmptyString \/ api_key args = EmptyString ->
  main env fuel args w = (Ok (Some 2), w).
Proof.
  intros H. unfold main.
  destruct (String.eqb (base_url args) EmptyString) eqn:E1; [reflexivity |].
  destruct (String.eqb (api_key args) EmptyString) eqn:E2; [reflexivity |].
  apply String.eqb_neq in E1, E2. tauto.
Qed.

(** [main], case by case, up to the polling loop. *)
Lemma main_cases env fuel args (w : World) r w' :
  main env fuel args w = (r, w') ->
  ((base_url args = EmptyString \/ api_key args = EmptyString) /\ r = Ok (Some 2) /\ w' = w)
  \/
  (base_url args <> EmptyString /\ api_key args <> EmptyString /\
   ((payload_file args = None /\ r = Raise OSError /\ w' = w)
    \/
    (exists payload r1 w1,
        payload_file args = Some payload /\
        _request env (submit_request args payload) (max_retries args) w = (r1, w1) /\
        ((exists e, r = Raise e /\ w' = w1)
         \/
         (exists st b resp job_id,
             r1 = Ok (st, b) /\ _parse_json env b = Ok resp /\ job_id_of resp = Ok job_id /\
             ((truthy job_id = false /\ r = Ok (Some 3) /\ w' = w1)
              \/
              (truthy job_id = true /\
               exists path,
                 str_format env (status_path_template args) job_id = Some path /\
                 poll_loop env fuel args job_id payload resp
                           (headers (submit_request args payload))
                           (rstrip_slash (base_url args) ++ path) (now w1) w1
                 = (r, w')))))))).
Proof.
  intros Hrun. unfold main in Hrun.
  destruct (String.eqb (base_url args) EmptyString) eqn:E1.
  { left. apply String.eqb_eq in E1. inversion Hrun. auto. }
  destruct (String.eqb (api_key args) EmptyString) eqn:E2.
  { left. apply String.eqb_eq in E2. inversion Hrun. auto. }
  apply String.eqb_neq in E1, E2. right. split; [exact E1 |]. split; [exact E2 |].
  unfold bind at 1, lift at 1 in Hrun.
  destruct (payload_file args) as [payload |] eqn:Hpay.
  2:{ left. inversion Hrun. auto. }
  right. cbv zeta in Hrun. unfold bind at 1 in Hrun.
  fold (salt_of args) in Hrun. fold (submit_request args payload) in Hrun.
  destruct (_request env (submit_request args payload) (max_retries args) w)
    as [r1 w1] eqn:Hreq.
  exists payload, r1, w1. split; [reflexivity |]. split; [exact Hreq |].
  destruct r1 as [[st b] | e]; [| left; inversion Hrun; eauto].
  cbn [snd] in Hrun. unfold bind at 1, lift at 1 in Hrun.
  destruct (_parse_json env b) as [resp | e] eqn:Hparse; [| left; inversion Hrun; eauto].
  unfold bind at 1, lift at 1 in Hrun.
  destruct (job_id_of resp) as [job_id | e] eqn:Hjob; [| left; inversion Hrun; eauto].
  destruct (truthy job_id) eqn:Htruthy; cbn [negb] in Hrun.
  - unfold bind at 1, lift at 1 in Hrun.
    destruct (str_format env (status_path_template args) job_id) as [path |] eqn:Hfmt.
    + right. exists st, b, resp, job_id. repeat split; auto.
      right. split; [exact Htruthy |]. exists path. split; [exact Hfmt |].
      unfold bind at 1, time_time at 1 in Hrun. exact Hrun.
    + left. inversion Hrun. eauto.
  - right. exists st, b, resp, job_id. repeat split; auto.
    left. inversion Hrun. auto.
Qed.

Lemma main_no_job_id env fuel args (w w1 : World) payload st b resp job_id :
  base_url args <> EmptyString -> api_key args <> EmptyString ->
  payload_file args = Some payload ->
  _request env (submit_request args payload) (max_retries args) w = (Ok (st, b), w1) ->
  _parse_json env b = Ok resp ->
  job_id_of resp = Ok job_id ->
  truthy job_id = false ->
  main env fuel args w = (Ok (Some 3), w1).
Proof.
  intros E1 E2 Hpay Hreq Hparse Hjob Hfalsy. unfold main.
  apply String.eqb_neq in E1, E2. rewrite E1, E2, Hpay.
  unfold bind at 1, lift at 1. cbv zeta. unfold bind at 1.
  fold (salt_of args). fold (submit_request args payload). rewrite Hreq.
  cbn [snd]. unfold bind at 1, lift at 1. rewrite Hparse.
  unfold bind at 1, lift at 1. rewrite Hjob, Hfalsy. reflexivity.
Qed.

Lemma main_polls env fuel args (w w1 : World) payload st b resp job_id path :
  base_url args <> EmptyString -> api_key args <> EmptyString ->
  payload_file args = Some payload ->
  _request env (submit_request args payload) (max_retries args) w = (Ok (st, b), w1) ->
  _parse_json env b = Ok resp ->
  job_id_of resp = Ok job_id ->
  truthy job_id = true ->
  str_format env (status_path_template args) job_id = Some path ->
  main env fuel args w
  = poll_loop env fuel args job_id payload resp (headers (submit_request args payload))
              (rstrip_slash (base_url args) ++ path) (now w1) w1.
Proof.
  intros E1 E2 Hpay Hreq Hparse Hjob Htruthy Hfmt. unfold main.
  apply String.eqb_neq in E1, E2. rewrite E1, E2, Hpay.
  unfold bind at 1, lift at 1. cbv zeta. unfold bind at 1.
  fold (salt_of args). fold (submit_request args payload). rewrite Hreq.
  cbn [snd]. unfold bind at 1, lift at 1. rewrite Hparse.
  unfold bind at 1, lift at 1. rewrite Hjob, Htruthy. cbn [negb].
  unfold bind at 1, lift at 1. rewrite Hfmt. reflexivity.
Qed.

Lemma submit_is_not_a_status_request args payload (t : Z) (l : list Event) :
  status_requests (EvCall t (submit_request args payload) :: l) = status_requests l.
Proof. reflexivity. Qed.

(** Everything a run that returns an exit code has done, by the code. *)
Lemma main_run env fuel args (w : World) r w' :
  sane env ->
  main env fuel args w = (r, w') ->
  exists new : list Event,
    trace w' = (trace w ++ new)%list /\
    ((forall c, r <> Ok (Some c)) -> artifacts new = []) /\
    (forall c, r = Ok (Some c) ->
       (c = 2 /\ (base_url args = EmptyString \/ api_key args = EmptyString) /\ new = [])
       \/
       (base_url args <> EmptyString /\ api_key args <> EmptyString /\
        exists payload st b w1 resp job_id new1,
          payload_file args = Some payload /\
          _request env (submit_request args payload) (max_retries args) w = (Ok (st, b), w1) /\
          trace w1 = (trace w ++ new1)%list /\
          artifacts new1 = [] /\ status_requests new1 = [] /\
          _parse_json env b = Ok resp /\ job_id_of resp = Ok job_id /\
          ((c = 3 /\ truthy job_id = false /\ new = new1)
           \/
           (truthy job_id = true /\
            exists new2,
              new = (new1 ++ new2)%list /\
              Forall (fun t => elapsed_seconds env t (now w1) <= max_wait args)
                     (status_requests new2) /\
              ((c = 4 /\ max_wait args < elapsed_seconds env (now w') (now w1) /\
                artifacts new2 = [])
               \/
               (exists pre a raw,
                   new2 = (pre ++ [EvArtifact (now w') a])%list /\
                   artifacts pre = [] /\
                   art_jobId a = job_id /\ art_payload a = payload /\
                   art_submitResponse a = resp /\
                   raw_state_of (art_finalStatus a) = Ok (JStr raw) /\
                   ((c = 0 /\ classify raw = Succeeded)
                    \/ (c = 5 /\ classify raw = Failed)))))))).
Proof.
  intros Hsane Hrun. apply main_cases in Hrun.
  destruct Hrun as [(Hmiss & -> & ->) | (E1 & E2 & Hrest)].
  { exists []. rewrite List.app_nil_r. split; [reflexivity |]. split; [reflexivity |].
    intros c Hc. injection Hc as <-. left. auto. }
  destruct Hrest as [(Hpay & -> & ->) | (payload & r1 & w1 & Hpay & Hreq & Hrest)].
  { exists []. rewrite List.app_nil_r. split; [reflexivity |]. split; [reflexivity |].
    intros c Hc. discriminate. }
  destruct (_request_frame _ _ _ _ _ _ Hsane Hreq) as (new1 & Htr1 & Hch1 & Hart1 & Hst1).
  set (sub := EvCall (now w) (submit_request args payload) :: new1) in *.
  assert (Hart : artifacts sub = []) by exact Hart1.
  assert (Hst : status_requests sub = []) by exact Hst1.
  destruct Hrest as [(e & -> & ->) | (st & b & resp & job_id & -> & Hparse & Hjob & Hcases)].
  { exists sub. split; [exact Htr1 |]. split; [intros _; exact Hart |].
    intros c Hc. discriminate. }
  destruct Hcases as [(Hfalsy & -> & ->) | (Htruthy & path & Hfmt & Hpoll)].
  { exists sub. split; [exact Htr1 |].
    split; [intros Hno; exfalso; apply (Hno 3); reflexivity |].
    intros c Hc. injection Hc as <-. right. split; [exact E1 |]. split; [exact E2 |].
    exists payload, st, b, w1, resp, job_id, sub.
    repeat split; auto. }
  destruct (poll_loop_run _ _ _ _ _ _ _ _ Hsane _ _ _ _ Hpoll)
    as (new2 & Htr2 & Hch2 & Hall & Hto & Hdone & Hnone).
  exists (sub ++ new2)%list.
  split; [rewrite Htr2, Htr1, <- List.app_assoc; reflexivity |].
  split; [intros Hno; rewrite artifacts_app, Hart, (Hnone Hno); reflexivity |].
  intros c Hc. right. split; [exact E1 |]. split; [exact E2 |].
  exists payload, st, b, w1, resp, job_id, sub.
  repeat (split; [assumption || reflexivity |]).
  right. split; [exact Htruthy |]. exists new2. split; [reflexivity |]. split; [exact Hall |].
  destruct (Z.eq_dec c 4) as [-> | Hne].
  - left. destruct (Hto Hc) as [H1 H2]. auto.
  - right. apply (Hdone c Hc Hne).
Qed.

Lemma job_id_of_dict (items : list (string * json)) :
  job_id_of (JObj items)
  = Ok (if truthy (dict_get items "jobId") then dict_get items "jobId"
        else if truthy (dict_get items "id") then dict_get items "id"
             else dict_get items "deploymentId").
Proof. reflexivity. Qed.

Lemma job_id_of_falsy (items : list (string * json)) :
  (forall k, In k JOB_ID_FIELDS -> truthy (dict_get items k) = false) ->
  exists job_id, job_id_of (JObj items) = Ok job_id /\ truthy job_id = false.
Proof.
  intros H. rewrite job_id_of_dict.
  assert (H1 := H "jobId" ltac:(cbn; tauto)).
  assert (H2 := H "id" ltac:(cbn; tauto)).
  assert (H3 := H "deploymentId" ltac:(cbn; tauto)).
  rewrite H1, H2. eauto.
Qed.

Lemma dict_get_missing (items : list (string * json)) (k : string) :
  assoc k items = None -> truthy (dict_get items k) = false.
Proof. intros H. unfold dict_get. now rewrite H. Qed.

(** The submission succeeded but its response holds no usable job id: the
    run ends there with code 3, before any status request. *)
Lemma main_stops_without_job_id env fuel args (w w1 : World) payload st b items :
  sane env ->
  base_url args <> EmptyString -> api_key args <> EmptyString ->
  payload_file args = Some payload ->
  _request env (submit_request args payload) (max_retries args) w = (Ok (st, b), w1) ->
  _parse_json env b = Ok (JObj items) ->
  (forall k, In k JOB_ID_FIELDS -> truthy (dict_get items k) = false) ->
  main env fuel args w = (Ok (Some 3), w1) /\
  exists new1, trace w1 = (trace w ++ new1)%list /\ status_requests new1 = [].
Proof.
  intros Hsane E1 E2 Hpay Hreq Hparse Hfalsy.
  destruct (job_id_of_falsy items Hfalsy) as (job_id & Hjob & Hf).
  split; [eapply main_no_job_id; eassumption |].
  destruct (_request_frame _ _ _ _ _ _ Hsane Hreq) as (new1 & Htr1 & _ & _ & Hst1).
  exists (EvCall (now w) (submit_request args payload) :: new1).
  split; [exact Htr1 | exact Hst1].
Qed.

Lemma sane_scenario (ticks : Z) server (known : list json) :
  0 < ticks -> sane (Scenario.world ticks server known).
Proof. intros H. split; [exact H | intros k; cbn; lia]. Qed.

(** What is true of C4 on the code: the job id is the value of the first
    field among jobId, id, deploymentId whose value is truthy; when none of
    the three is present the run ends with code 3 right after the
    submission, with no status request; the response [{"id": 1}] does carry
    a recognised field, so the run goes on to poll job 1. *)
Theorem C4_job_id_is_first_truthy_field :
  (forall items,
      job_id_of (JObj items)
      = Ok (if truthy (dict_get items "jobId") then dict_get items "jobId"
            else if truthy (dict_get items "id") then dict_get items "id"
                 else dict_get items "deploymentId")) /\
  (forall env fuel args (w w1 : World) payload st b items,
      sane env ->
      base_url args <> EmptyString -> api_key args <> EmptyString ->
      payload_file args = Some payload ->
      _request env (submit_request args payload) (max_retries args) w = (Ok (st, b), w1) ->
      _parse_json env b = Ok (JObj items) ->
      (forall k, In k ["jobId"; "id"; "deploymentId"] -> assoc k items = None) ->
      main env fuel args w = (Ok (Some 3), w1) /\
      exists new1, trace w1 = (trace w ++ new1)%list /\ status_requests new1 = []) /\
  (forall env fuel args (w w1 : World) payload st b path,
      base_url args <> EmptyString -> api_key args <> EmptyString ->
      payload_file args = Some payload ->
      _request env (submit_request args payload) (max_retries args) w = (Ok (st, b), w1) ->
      _parse_json env b = Ok (JObj [("id", JInt 1)]) ->
      str_format env (status_path_template args) (JInt 1) = Some path ->
      main env fuel args w
      = poll_loop env fuel args (JInt 1) payload (JObj [("id", JInt 1)])
                  (headers (submit_request args payload))
                  (rstrip_slash (base_url args) ++ path) (now w1) w1).
Proof.
  split; [exact job_id_of_dict | split].
  - intros env fuel args w w1 payload st b items Hsane E1 E2 Hpay Hreq Hparse Hnone.
    eapply main_stops_without_job_id; try eassumption.
    intros k Hk. apply dict_get_missing. now apply Hnone.
  - intros env fuel args w w1 payload st b path E1 E2 Hpay Hreq Hparse Hfmt.
    eapply main_polls; try eassumption; reflexivity.
Qed.

Lemma C4_witness :
  main (Scenario.world 1 (Scenario.api Scenario.id_only Scenario.completed) Scenario.docs)
       5 (Scenario.args 5 2) Scenario.boot
  = poll_loop (Scenario.world 1 (Scenario.api Scenario.id_only Scenario.completed) Scenario.docs)
              5 (Scenario.args 5 2) (JInt 1) Scenario.payload (JObj [("id", JInt 1)])
              (headers (submit_request (Scenario.args 5 2) Scenario.payload))
              (rstrip_slash (base_url (Scenario.args 5 2)) ++ "/deployments/1")
              (now (snd (_request
                           (Scenario.world 1 (Scenario.api Scenario.id_only Scenario.completed)
                                           Scenario.docs)
                           (submit_request (Scenario.args 5 2) Scenario.payload) 2 Scenario.boot)))
              (snd (_request
                      (Scenario.world 1 (Scenario.api Scenario.id_only Scenario.completed)
                                      Scenario.docs)
                      (submit_request (Scenario.args 5 2) Scenario.payload) 2 Scenario.boot)).
Proof.
  apply (proj2 (proj2 C4_job_id_is_first_truthy_field)
               (Scenario.world 1 (Scenario.api Scenario.id_only Scenario.completed) Scenario.docs)
               5%nat (Scenario.args 5 2) Scenario.boot _ Scenario.payload 200
               (_json_dumps Scenario.id_only) "/deployments/1").
  - discriminate.
  - discriminate.
  - reflexivity.
  - vm_compute. reflexivity.
  - reflexivity.
  - reflexivity.
Defined.

(** C4 as stated fails on its own example: a submission answered with
    [{"id": 1}] is polled (one status request) and ends with code 0, not
    with the missing-job-id code. *)
Lemma C4_counterexample_id_field_is_recognised :
  fst (main (Scenario.world 1 (Scenario.api Scenario.id_only Scenario.completed) Scenario.docs)
            5 (Scenario.args 5 2) Scenario.boot)
  = Ok (Some 0) /\
  List.length
    (status_requests
       (trace (snd (main (Scenario.world 1 (Scenario.api Scenario.id_only Scenario.completed)
                                         Scenario.docs)
                         5 (Scenario.args 5 2) Scenario.boot))))
  = 1%nat.
Proof. split; vm_compute; reflexivity. Qed.


Lemma C3_witness :
  exists w' new,
    poll_loop (Scenario.world 1000 (Scenario.always 200 Scenario.running) Scenario.docs)
              4 (Scenario.args 5 2) (JStr "abc") Scenario.payload Scenario.accepted ∅
              "https://deploy-api.internal/deployments/abc" (now Scenario.boot) Scenario.boot
    = (Ok (Some 4), w') /\
    trace w' = (trace Scenario.boot ++ new)%list /\
    (List.length (status_requests new) <= 3)%nat.
Proof.
  apply (proj2 (proj2 (proj2 C3_poller_respects_wait_budget))
               (Scenario.world 1000 (Scenario.always 200 Scenario.running) Scenario.docs)
               (Scenario.args 5 2)).
  - apply sane_scenario. lia.
  - reflexivity.
  - reflexivity.
  - cbn. lia.
  - intros n req. exists 200, (_json_dumps Scenario.running), Scenario.running, "running".
    repeat split; reflexivity.
  - lia.
Defined.

(** ** The payload validator *)

Lemma seg_lt_asym (a b : Validate.Seg) :
  Validate.seg_lt a b = Some true -> Validate.seg_lt b a = Some false.
Proof.
  destruct a as [s | i], b as [t | j]; cbn; try discriminate.
  - unfold String.ltb. rewrite (String.compare_antisym t s).
    destruct (String.compare s t); cbn; congruence.
  - intros H. f_equal. injection H as H. lia.
Qed.

Lemma seg_eqb_sym (a b : Validate.Seg) : Validate.seg_eqb a b = Validate.seg_eqb b a.
Proof.
  destruct a as [s | i], b as [t | j]; cbn; try reflexivity.
  - apply String.eqb_sym.
  - apply Z.eqb_sym.
Qed.

Lemma path_lt_asym (p : list Validate.Seg) : forall q,
  Validate.path_lt p q = Some true -> Validate.path_lt q p = Some false.
Proof.
  induction p as [| a p IH]; intros [| b q]; cbn; try congruence.
  rewrite (seg_eqb_sym b a). destruct (Validate.seg_eqb a b).
  - apply IH.
  - apply seg_lt_asym.
Qed.

Lemma path_ltb_asym (p q : list Validate.Seg) :
  Validate.path_ltb p q = true -> Validate.path_ltb q p = false.
Proof.
  unfold Validate.path_ltb. intros H.
  destruct (Validate.path_lt p q) as [[|] |] eqn:E; try discriminate.
  now rewrite (path_lt_asym _ _ E).
Qed.

Lemma insert_error_perm (e : Validate.ValidationError) (l : list Validate.ValidationError) :
  Permutation.Permutation (e :: l) (Validate.insert_error e l).
Proof.
  induction l as [| x l IH]; cbn; [apply Permutation.Permutation_refl |].
  destruct (Validate.path_ltb (Validate.path x) (Validate.path e)).
  - eapply Permutation.perm_trans; [apply Permutation.perm_swap |].
    now apply Permutation.perm_skip.
  - apply Permutation.Permutation_refl.
Qed.

Lemma stable_sort_perm (l : list Validate.ValidationError) :
  Permutation.Permutation l (Validate.stable_sort l).
Proof.
  induction l as [| x l IH]; cbn; [constructor |].
  eapply Permutation.perm_trans; [| apply insert_error_perm].
  now apply Permutation.perm_skip.
Qed.

Lemma insert_error_sorted (e : Validate.ValidationError) (l : list Validate.ValidationError) :
  Sorted.Sorted (fun a b => Validate.path_ltb (Validate.path b) (Validate.path a) = false) l ->
  Sorted.Sorted (fun a b => Validate.path_ltb (Validate.path b) (Validate.path a) = false)
                (Validate.insert_error e l).
Proof.
  induction l as [| x l IH]; intros Hs; cbn.
  - repeat constructor.
  - destruct (Validate.path_ltb (Validate.path x) (Validate.path e)) eqn:E.
    + inversion Hs as [| ? ? Hs' Hhd]; subst. constructor; [now apply IH |].
      destruct l as [| y l]; cbn.
      * constructor. now apply path_ltb_asym.
      * destruct (Validate.path_ltb (Validate.path y) (Validate.path e)).
        -- constructor. now inversion Hhd.
        -- constructor. now apply path_ltb_asym.
    + constructor; [exact Hs | constructor; exact E].
Qed.

Lemma stable_sort_sorted (l : list Validate.ValidationError) :
  Sorted.Sorted (fun a b => Validate.path_ltb (Validate.path b) (Validate.path a) = false)
                (Validate.stable_sort l).
Proof.
  induction l as [| x l IH]; cbn; [constructor | now apply insert_error_sorted].
Qed.

(** The sort keeps errors with equal keys in the order they came in: the
    sort is the stable one. *)
Lemma insert_error_first (e : Validate.ValidationError) (l : list Validate.ValidationError) :
  (forall x, In x l -> Validate.path_ltb (Validate.path x) (Validate.path e) = false) ->
  Validate.insert_error e l = e :: l.
Proof.
  destruct l as [| x l]; intros H; cbn; [reflexivity |].
  now rewrite (H x (or_introl eq_refl)).
Qed.

Example validator_report_example :
  Validate.main Scenario.checker JNull JNull
  = Some ([Validate.FAILED_HEADER;
           "- (root): 'env' is a required property";
           "- replicas: -1 is less than the minimum of 0";
           "- targets.2.region: 'moon' is not one of ['eu', 'us']";
           "- targets.10: 'x' is not of type 'object'"], 2).
Proof. reflexivity. Qed.

(** ** The idempotency key *)

Lemma append_cons (c : ascii) (s t : string) : String c s ++ t = String c (s ++ t).
Proof. reflexivity. Qed.

Lemma append_nil (t : string) : EmptyString ++ t = t.
Proof. reflexivity. Qed.

Lemma all_chars_app (P : ascii -> bool) (s t : string) :
  all_chars P (s ++ t) = all_chars P s && all_chars P t.
Proof.
  induction s as [| c s IH]; [reflexivity |].
  rewrite append_cons. cbn [all_chars]. now rewrite IH, andb_assoc.
Qed.

Lemma length_app_string (s t : string) :
  String.length (s ++ t) = (String.length s + String.length t)%nat.
Proof.
  induction s as [| c s IH]; [reflexivity |].
  rewrite append_cons. cbn [String.length]. now rewrite IH.
Qed.

Lemma hex_digit_lower (n : Z) : 0 <= n < 16 -> is_lower_hex (Sha256.hex_digit n) = true.
Proof.
  intros H. rewrite <- (Z2Nat.id n) by lia.
  assert (Hk : (Z.to_nat n < 16)%nat) by lia.
  revert Hk. generalize (Z.to_nat n) as k. intros k Hk.
  do 16 (destruct k as [| k]; [reflexivity |]). lia.
Qed.

Lemma hex_shape (digits : nat) (x : Z) :
  String.length (Sha256.hex digits x) = digits /\
  all_chars is_lower_hex (Sha256.hex digits x) = true.
Proof.
  induction digits as [| d [IH1 IH2]]; cbn [Sha256.hex String.length all_chars]; [auto |].
  split; [now rewrite IH1 |].
  rewrite IH2, andb_true_r. apply hex_digit_lower. apply Z.mod_pos_bound. lia.
Qed.

Lemma compress_length (h block : list Z) :
  List.length h = 8%nat -> List.length (Sha256.compress h block) = 8%nat.
Proof.
  intros H. unfold Sha256.compress.
  rewrite List.length_map, List.length_combine, H. reflexivity.
Qed.

Lemma digest_length (msg : list Z) : List.length (Sha256.digest msg) = 8%nat.
Proof.
  unfold Sha256.digest.
  generalize (Sha256.blocks
                (List.length (Sha256.words (List.length msg + 72) (Sha256.pad msg)))
                (Sha256.words (List.length msg + 72) (Sha256.pad msg))) as bs.
  assert (H : List.length Sha256.H0 = 8%nat) by reflexivity.
  revert H. generalize Sha256.H0 as h.
  intros h H bs. revert h H.
  induction bs as [| blk bs IH]; intros h H; cbn [List.fold_left]; [exact H |].
  apply IH. now apply compress_length.
Qed.

Lemma concat_hex_shape (ws : list Z) :
  String.length (String.concat EmptyString (List.map (Sha256.hex 8) ws))
  = (8 * List.length ws)%nat /\
  all_chars is_lower_hex (String.concat EmptyString (List.map (Sha256.hex 8) ws)) = true.
Proof.
  induction ws as [| x ws [IH1 IH2]]; [split; reflexivity |].
  destruct (hex_shape 8 x) as [H1 H2].
  destruct ws as [| y ws].
  - cbn [List.map String.concat List.length]. split; [rewrite H1; reflexivity | exact H2].
  - change (String.concat EmptyString (List.map (Sha256.hex 8) (x :: y :: ws)))
      with (Sha256.hex 8 x ++ EmptyString
            ++ String.concat EmptyString (List.map (Sha256.hex 8) (y :: ws))).
    rewrite append_nil.
    rewrite length_app_string, all_chars_app, H1, H2, IH1, IH2.
    split; [cbn [List.length]; lia | reflexivity].
Qed.

Lemma hexdigest_shape (raw : string) :
  String.length (Sha256.hexdigest raw) = 64%nat /\
  all_chars is_lower_hex (Sha256.hexdigest raw) = true.
Proof.
  unfold Sha256.hexdigest.
  destruct (concat_hex_shape (Sha256.digest (Sha256.bytes_of raw))) as [H1 H2].
  rewrite digest_length in H1. auto.
Qed.

(** Induction on documents, through the lists they nest in. *)
Lemma json_rect_nested (P : json -> Prop) :
  P JNull -> (forall b, P (JBool b)) -> (forall n, P (JInt n)) -> (forall s, P (JStr s)) ->
  (forall xs, List.Forall P xs -> P (JArr xs)) ->
  (forall items, List.Forall (fun kv => P (snd kv)) items -> P (JObj items)) ->
  forall v, P v.
Proof.
  intros Hnull Hbool Hint Hstr Harr Hobj.
  fix IH 1. intros [| b | n | s | xs | items].
  - exact Hnull.
  - apply Hbool.
  - apply Hint.
  - apply Hstr.
  - apply Harr. induction xs as [| x xs IHxs]; constructor; [apply IH | exact IHxs].
  - apply Hobj. induction items as [| [k x] items IHitems]; constructor;
      [apply IH | exact IHitems].
Qed.

Lemma uint_not_blank (d : Decimal.uint) :
  all_chars not_blank (NilEmpty.string_of_uint d) = true.
Proof. induction d; cbn [NilEmpty.string_of_uint all_chars]; rewrite ?IHd; reflexivity. Qed.

Lemma str_int_not_blank (n : Z) : all_chars not_blank (str_int n) = true.
Proof.
  unfold str_int, NilZero.string_of_int, NilZero.string_of_uint.
  destruct (Z.to_int n) as [d | d]; destruct d eqn:E; try reflexivity;
    rewrite <- E; cbn [all_chars]; rewrite ?uint_not_blank; reflexivity.
Qed.

Lemma escape_char_not_blank (c : ascii) :
  no_space c = true -> all_chars not_blank (Dumps.escape_char c) = true.
Proof.
  destruct c as [[|] [|] [|] [|] [|] [|] [|] [|]]; vm_compute; auto.
Qed.

Lemma escape_not_blank (s : string) :
  all_chars no_space s = true -> all_chars not_blank (Dumps.escape s) = true.
Proof.
  induction s as [| c s IH]; cbn [all_chars Dumps.escape]; [reflexivity |].
  intros H. apply andb_true_iff in H as [Hc Hs].
  rewrite all_chars_app, (escape_char_not_blank c Hc), (IH Hs). reflexivity.
Qed.

Lemma quote_not_blank (s : string) :
  all_chars no_space s = true -> all_chars not_blank (Dumps.quote s) = true.
Proof.
  intros H. unfold Dumps.quote. cbn [all_chars].
  rewrite all_chars_app, (escape_not_blank s H). reflexivity.
Qed.

Lemma concat_not_blank (l : list string) :
  List.Forall (fun s => all_chars not_blank s = true) l ->
  all_chars not_blank (String.concat "," l) = true.
Proof.
  induction 1 as [| s l Hs Hl IH]; [reflexivity |].
  destruct l as [| t l]; [exact Hs |].
  change (String.concat "," (s :: t :: l)) with (s ++ "," ++ String.concat "," (t :: l)).
  rewrite !all_chars_app, Hs, IH. reflexivity.
Qed.

Lemma bracket_not_blank (o c : string) (s : string) :
  all_chars not_blank o = true -> all_chars not_blank c = true ->
  all_chars not_blank s = true ->
  all_chars not_blank (o ++ s ++ c) = true.
Proof. intros Ho Hc Hs. now rewrite !all_chars_app, Ho, Hc, Hs. Qed.

(** Compact separators: the serializer adds no whitespace of its own. *)
Lemma dumps_not_blank (v : json) :
  spaceless v = true -> all_chars not_blank (_json_dumps v) = true.
Proof.
  unfold _json_dumps. induction v as [| b | n | s | xs IH | items IH] using json_rect_nested;
    cbn [spaceless Dumps.dumps]; intros H.
  - reflexivity.
  - destruct b; reflexivity.
  - apply str_int_not_blank.
  - now apply quote_not_blank.
  - apply bracket_not_blank; [reflexivity | reflexivity |].
    apply concat_not_blank. rewrite List.forallb_forall in H.
    rewrite List.Forall_forall in *. intros s Hs.
    apply List.in_map_iff in Hs as (x & <- & Hx). apply IH; [exact Hx | now apply H].
  - apply bracket_not_blank; [reflexivity | reflexivity |].
    apply concat_not_blank. rewrite List.forallb_forall in H.
    rewrite List.Forall_forall in *. intros s Hs.
    apply List.in_map_iff in Hs as (kv & <- & Hkv).
    specialize (H kv Hkv). apply andb_true_iff in H as [Hk Hv].
    rewrite !all_chars_app, (quote_not_blank _ Hk), (IH kv Hkv Hv). reflexivity.
Qed.

(** What is true of C5 on the code: the key is a function of the payload
    document and the salt alone, namely the SHA-256 of the compact JSON
    text of the payload followed by the salt, as 64 lower-case hex digits;
    the JSON text lists the items of an object in the order the document
    has them (keys are not sorted) with [","] and [":"] as only
    separators, adding no whitespace. Equal documents give equal keys; two
    payloads that are equal as mappings but list their keys in different
    orders need not. *)
Theorem C5_idempotency_key_derivation :
  (forall payload salt,
      _make_idempotency_key payload salt = Sha256.hexdigest (_json_dumps payload ++ salt)) /\
  (forall payload payload' salt salt',
      payload = payload' -> salt = salt' ->
      _make_idempotency_key payload salt = _make_idempotency_key payload' salt') /\
  (forall payload salt,
      String.length (_make_idempotency_key payload salt) = 64%nat /\
      all_chars is_lower_hex (_make_idempotency_key payload salt) = true) /\
  (forall items,
      _json_dumps (JObj items)
      = "{" ++ String.concat ","
                 (List.map (fun kv => Dumps.quote (fst kv) ++ ":" ++ _json_dumps (snd kv)) items)
            ++ "}") /\
  (forall xs,
      _json_dumps (JArr xs) = "[" ++ String.concat "," (List.map _json_dumps xs) ++ "]") /\
  (forall v, spaceless v = true -> all_chars not_blank (_json_dumps v) = true) /\
  Sha256.hexdigest "abc"
  = "ba7816bf8f01cfea414140de5dae2223b00361a396177a9cb410ff61f20015ad".
Proof.
  split; [reflexivity |].
  split; [intros; subst; reflexivity |].
  split; [intros; apply hexdigest_shape |].
  split; [reflexivity |].
  split; [reflexivity |].
  split; [exact dumps_not_blank |].
  vm_compute. reflexivity.
Qed.

Lemma C5_witness :
  spaceless Scenario.payload = true /\
  all_chars not_blank (_json_dumps Scenario.payload) = true.
Proof.
  split; [reflexivity |].
  apply (proj1 (proj2 (proj2 (proj2 (proj2 (proj2 C5_idempotency_key_derivation)))))
               Scenario.payload).
  reflexivity.
Defined.

(** C5 as stated fails in its last part: the same mapping written with its
    keys in two orders gets two different keys under the same salt. *)
Lemma C5_counterexample_key_order_matters :
  as_mapping [("region", JStr "eu"); ("env", JStr "prod")]
  = as_mapping [("env", JStr "prod"); ("region", JStr "eu")] /\
  Scenario.region_first = JObj [("region", JStr "eu"); ("env", JStr "prod")] /\
  Scenario.env_first = JObj [("env", JStr "prod"); ("region", JStr "eu")] /\
  _make_idempotency_key Scenario.region_first "4f2a|77|https://deploy-api.internal/"
  <> _make_idempotency_key Scenario.env_first "4f2a|77|https://deploy-api.internal/".
Proof.
  split; [| split; [reflexivity | split; [reflexivity |]]].
  - unfold as_mapping. cbn [list_to_map foldr]. apply insert_insert_ne. discriminate.
  - vm_compute. discriminate.
Qed.

Example keys_of_the_two_orders :
  _make_idempotency_key Scenario.region_first "4f2a|77|https://deploy-api.internal/"
  = "a5a77ba3f2f8cf297b592511b9caf60f3166c3a95535764aac0bf1e5b6c59c66" /\
  _make_idempotency_key Scenario.env_first "4f2a|77|https://deploy-api.internal/"
  = "9065390b4dea8a70916260ae7db7b2dee1032e03b4106ef86c6b25354788fc3b".
Proof. split; vm_compute; reflexivity. Qed.

(** ** What [_redact] shows of a key *)

Lemma _redact_long (s : list Z) :
  (8 < List.length s)%nat ->
  _redact s = (List.firstn 4 s ++ MASK ++ List.skipn (List.length s - 4) s)%list.
Proof.
  intros H. unfold _redact. destruct s as [| c s]; [cbn in H; lia |].
  destruct (Nat.leb_spec (List.length (c :: s)) 8); [lia | reflexivity].
Qed.

Lemma _redact_short (s : list Z) :
  s <> [] -> (List.length s <= 8)%nat -> _redact s = MASK.
Proof.
  intros Hne H. unfold _redact. destruct s as [| c s]; [congruence |].
  destruct (Nat.leb_spec (List.length (c :: s)) 8); [reflexivity | lia].
Qed.

(** X1. The redacted form of a key shows nothing of a key of at most eight
    characters, not even its length, and of a longer key only the first
    four and the last four characters; it is never longer than twelve
    characters, and only the empty key is redacted to the empty text. *)
Theorem X1_redact_shows_only_the_ends :
  (forall s t, s <> [] -> t <> [] -> (List.length s <= 8)%nat -> (List.length t <= 8)%nat ->
               _redact s = _redact t) /\
  (forall s t, (8 < List.length s)%nat -> (8 < List.length t)%nat ->
               List.firstn 4 s = List.firstn 4 t ->
               List.skipn (List.length s - 4) s = List.skipn (List.length t - 4) t ->
               _redact s = _redact t) /\
  (forall s, (8 < List.length s)%nat ->
             List.length (_redact s) = 12%nat /\
             List.firstn 4 (_redact s) = List.firstn 4 s /\
             List.skipn 8 (_redact s) = List.skipn (List.length s - 4) s) /\
  (forall s, (List.length (_redact s) <= 12)%nat) /\
  (forall s, _redact s = [] <-> s = []).
Proof.
  split; [| split; [| split; [| split]]].
  - intros s t Hs Ht Ls Lt. now rewrite !_redact_short.
  - intros s t Ls Lt H1 H2. rewrite !_redact_long by assumption. now rewrite H1, H2.
  - intros s Ls. rewrite _redact_long by assumption.
    assert (H4 : List.length (List.firstn 4 s) = 4%nat) by (rewrite List.length_firstn; lia).
    assert (H5 : List.length (List.skipn (List.length s - 4) s) = 4%nat)
      by (rewrite List.length_skipn; lia).
    split; [| split].
    + rewrite !List.length_app, H4, H5. reflexivity.
    + rewrite List.firstn_app, H4. cbn [Nat.sub List.firstn].
      rewrite List.app_nil_r. apply List.firstn_all2. lia.
    + rewrite List.skipn_app, H4. cbn [Nat.sub].
      rewrite List.skipn_all2 by lia. reflexivity.
  - intros s. destruct s as [| c s]; [cbn; lia |].
    destruct (Nat.leb_spec (List.length (c :: s)) 8) as [H | H].
    + rewrite _redact_short by (congruence || exact H). cbn. lia.
    + rewrite _redact_long by exact H.
      rewrite !List.length_app, List.length_firstn, List.length_skipn. cbn [List.length MASK]. lia.
  - intros s. split; [| intros ->; reflexivity].
    destruct s as [| c s]; [reflexivity |]. intros H. exfalso.
    destruct (Nat.leb_spec (List.length (c :: s)) 8) as [L | L].
    + rewrite _redact_short in H by (congruence || exact L). discriminate.
    + rewrite _redact_long in H by exact L.
      apply (f_equal (@List.length Z)) in H.
      rewrite !List.length_app in H. cbn in H. lia.
Qed.

(** Two keys that differ only in what lies between their ends. *)
Lemma X1_witness :
  _redact [107; 45; 49; 50; 51; 52; 53; 54; 55; 56; 57] (* k-123456789 *)
  = _redact [107; 45; 49; 50; 120; 121; 122; 122; 121; 54; 55; 56; 57] (* k-12xyzzy6789 *).
Proof.
  apply (proj1 (proj2 X1_redact_shows_only_the_ends)); cbn; solve [lia | reflexivity].
Defined.

(** ** More on [_request] *)

Lemma wire_app (l1 l2 : list Event) : wire (l1 ++ l2) = (wire l1 ++ wire l2)%list.
Proof.
  induction l1 as [| e l1 IH]; [reflexivity |].
  destruct e; cbn; rewrite IH; reflexivity.
Qed.

Lemma entered_app (l1 l2 : list Event) : entered (l1 ++ l2) = (entered l1 ++ entered l2)%list.
Proof.
  induction l1 as [| e l1 IH]; [reflexivity |].
  destruct e; cbn; rewrite IH; reflexivity.
Qed.

(** X2. With a negative retry count the loop body never runs: nothing is
    sent and the call fails with the error of line 74, which has no last
    error to show. *)
Theorem X2_request_negative_retries :
  forall env req max_retries (w : World),
    max_retries < 0 ->
    _request env req max_retries w
    = (Raise (RuntimeError_failed_after_retries None),
       mkWorld (now w) (calls w) (trace w ++ [EvCall (now w) req])).
Proof.
  intros env req mr w H. rewrite _request_unfold.
  apply _request_loop_exit. lia.
Qed.

Lemma X2_witness :
  _request (Scenario.world 1 Scenario.flaky []) Scenario.get_status (-1) Scenario.boot
  = (Raise (RuntimeError_failed_after_retries None),
     mkWorld 0 0 [EvCall 0 Scenario.get_status]).
Proof.
  apply (X2_request_negative_retries (Scenario.world 1 Scenario.flaky [])
           Scenario.get_status (-1) Scenario.boot).
  lia.
Defined.

Lemma length_zseq (n : nat) : forall a, List.length (zseq a n) = n.
Proof. induction n as [| n IH]; intros a; cbn; [| rewrite IH]; reflexivity. Qed.

Lemma backoff_bounds (attempt : Z) : 0 <= attempt -> 1 <= backoff attempt <= 60.
Proof.
  intros H. unfold backoff.
  assert (1 <= 2 ^ attempt) by (apply (Z.pow_le_mono_r 2 0 attempt); lia).
  lia.
Qed.

Lemma total_backoff (k : nat) : forall a,
  0 <= a ->
  Forall (fun s => 1 <= s <= 60) (List.map backoff (zseq a k)) /\
  total (List.map backoff (zseq a k)) <= 60 * Z.of_nat k /\
  total (List.map backoff (zseq a k)) <= 2 ^ (a + Z.of_nat k) - 2 ^ a.
Proof.
  induction k as [| k IH]; intros a Ha.
  - cbn. rewrite Z.add_0_r. repeat split; [constructor | lia | lia].
  - destruct (IH (a + 1)) as (IH1 & IH2 & IH3); [lia |].
    cbn [zseq List.map total List.fold_right]. fold (total (List.map backoff (zseq (a + 1) k))).
    pose proof (backoff_bounds a Ha) as Hb.
    assert (Hp : backoff a <= 2 ^ a) by (unfold backoff; lia).
    assert (Hs : 2 ^ (a + 1) = 2 * 2 ^ a) by (rewrite Z.pow_add_r by lia; lia).
    replace (a + Z.of_nat (S k)) with (a + 1 + Z.of_nat k) by lia.
    repeat split; [constructor; [lia | exact IH1] | lia | lia].
Qed.

(** X3. One call of [_request] sleeps at most [max_retries] times, each
    time between 1 and 60 seconds, and in all no more than
    [60 * max_retries] and no more than [2 ^ max_retries - 1] seconds: 63
    seconds with the default of 6 retries. *)
Theorem X3_request_total_backoff :
  forall env req max_retries (w : World) r w',
    0 <= max_retries ->
    _request env req max_retries w = (r, w') ->
    exists new : list Event,
      trace w' = (trace w ++ EvCall (now w) req :: new)%list /\
      Z.of_nat (List.length (sleeps new)) <= max_retries /\
      Forall (fun s => 1 <= s <= 60) (sleeps new) /\
      total (sleeps new) <= 60 * max_retries /\
      total (sleeps new) <= 2 ^ max_retries - 1.
Proof.
  intros env req mr w r w' Hmr Hrun.
  apply _request_run in Hrun.
  destruct Hrun as (n & new & Htr & _ & _ & Hs & Hle & Hge & _).
  specialize (Hge Hmr).
  destruct (total_backoff (Nat.pred n) 0) as (T1 & T2 & T3); [lia |].
  exists new. rewrite Hs.
  assert (Hk : Z.of_nat (Nat.pred n) <= mr) by lia.
  assert (Hpow : 2 ^ (0 + Z.of_nat (Nat.pred n)) <= 2 ^ mr)
    by (apply Z.pow_le_mono_r; lia).
  split; [exact Htr |].
  split; [rewrite List.length_map, length_zseq; exact Hk |].
  split; [exact T1 |].
  split; [lia |].
  change (2 ^ 0) with 1 in T3. lia.
Qed.

Lemma X3_witness :
  exists new : list Event,
    trace (snd (_request (Scenario.world 1 Scenario.flaky []) Scenario.get_status 2 Scenario.boot))
    = (trace Scenario.boot ++ EvCall (now Scenario.boot) Scenario.get_status :: new)%list /\
    Z.of_nat (List.length (sleeps new)) <= 2 /\
    Forall (fun s => 1 <= s <= 60) (sleeps new) /\
    total (sleeps new) <= 60 * 2 /\
    total (sleeps new) <= 2 ^ 2 - 1.
Proof.
  apply (X3_request_total_backoff (Scenario.world 1 Scenario.flaky []) Scenario.get_status 2
           Scenario.boot
           (fst (_request (Scenario.world 1 Scenario.flaky []) Scenario.get_status 2 Scenario.boot))).
  - lia.
  - apply surjective_pairing.
Defined.

(** X4. When every attempt ends in a retryable outcome, [_request] makes
    exactly [max_retries + 1] attempts, sleeps before each of them but the
    first, and then fails: with the HTTP error of the last attempt when
    that was a retryable status, with the error of line 74 and the last
    network error otherwise. It never returns a response. *)
Theorem X4_request_exhausts_retries :
  forall env req max_retries (w : World) r w',
    0 <= max_retries ->
    (forall i, (i <= Z.to_nat max_retries)%nat ->
               retryable (net env (calls w + i) req) = true) ->
    _request env req max_retries w = (r, w') ->
    exists new : list Event,
      trace w' = (trace w ++ EvCall (now w) req :: new)%list /\
      attempts new = S (Z.to_nat max_retries) /\
      sleeps new = List.map backoff (zseq 0 (Z.to_nat max_retries)) /\
      match net env (calls w + Z.to_nat max_retries) req with
      | HTTPError status payload => r = Raise (RuntimeError_HTTPError status payload)
      | URLError e => r = Raise (RuntimeError_failed_after_retries (Some e))
      | _ => False
      end.
Proof.
  intros env req mr w r w' Hmr Hall Hrun.
  apply _request_run in Hrun.
  destruct Hrun as (n & new & Htr & Hn & _ & Hs & Hle & Hge & _ & Hlast & Hres & _).
  specialize (Hge Hmr).
  destruct n as [| i]; [lia |].
  assert (Hi : i = Z.to_nat mr).
  { destruct (Z_lt_le_dec (Z.of_nat i) mr) as [Hlt | Hge'].
    - specialize (Hlast i eq_refl Hlt). rewrite Hall in Hlast by lia. discriminate.
    - lia. }
  subst i. exists new.
  split; [exact Htr |]. split; [exact Hn |]. split; [exact Hs |].
  specialize (Hres _ eq_refl).
  specialize (Hall (Z.to_nat mr) (Nat.le_refl _)).
  destruct (net env (calls w + Z.to_nat mr) req); cbn in *; try discriminate; exact Hres.
Qed.

Lemma X4_witness :
  exists new : list Event,
    trace (snd (_request (Scenario.world 1 (fun _ _ => URLError "unreachable") [])
                         Scenario.get_status 2 Scenario.boot))
    = (trace Scenario.boot ++ EvCall (now Scenario.boot) Scenario.get_status :: new)%list /\
    attempts new = 3%nat /\
    sleeps new = [1; 2] /\
    fst (_request (Scenario.world 1 (fun _ _ => URLError "unreachable") [])
                  Scenario.get_status 2 Scenario.boot)
    = Raise (RuntimeError_failed_after_retries (Some "unreachable")).
Proof.
  apply (X4_request_exhausts_retries (Scenario.world 1 (fun _ _ => URLError "unreachable") [])
           Scenario.get_status 2 Scenario.boot).
  - lia.
  - reflexivity.
  - apply surjective_pairing.
Defined.

Lemma _request_loop_wire env req mr : forall budget a le w r w',
  _request_loop env budget req mr a le w = (r, w') ->
  exists new : list Event,
    trace w' = (trace w ++ new)%list /\
    wire new = List.repeat req (attempts new) /\
    entered new = [].
Proof.
  induction budget as [| budget IH]; intros a le w r w' Hrun.
  - exists []. cbn [_request_loop] in Hrun.
    destruct (a <=? mr); inversion Hrun; subst; rewrite List.app_nil_r; auto.
  - destruct (a <=? mr) eqn:Ha.
    2:{ rewrite (_request_loop_exit _ _ _ _ _ _ _ Ha) in Hrun. inversion Hrun; subst.
        exists []. rewrite List.app_nil_r; auto. }
    rewrite (_request_loop_step _ _ _ _ _ _ _ Ha) in Hrun.
    set (out := net env (calls w) req) in *.
    destruct (retryable out && (a <? mr)).
    + unfold bind in Hrun. rewrite time_sleep_backoff in Hrun. cbn [now calls trace] in Hrun.
      apply IH in Hrun. destruct Hrun as (new & Htr & Hw & He).
      cbn [now calls trace] in Htr.
      exists (EvUrlopen (now w) req out
              :: EvSleep (now w + lag env (List.length (trace w))) (backoff a) :: new).
      split; [rewrite Htr, <- !List.app_assoc; reflexivity |].
      split; [| exact He].
      cbn [wire]. rewrite Hw. reflexivity.
    + inversion Hrun; subst. exists [EvUrlopen (now w) req out]. auto.
Qed.

Lemma _request_wire env req mr (w : World) r w' :
  _request env req mr w = (r, w') ->
  exists new : list Event,
    trace w' = (trace w ++ new)%list /\
    wire new = List.repeat req (attempts new) /\
    entered new = [req].
Proof.
  rewrite _request_unfold. intros Hrun.
  apply _request_loop_wire in Hrun. destruct Hrun as (new & Htr & Hw & He).
  cbn [now calls trace] in Htr.
  exists (EvCall (now w) req :: new).
  split; [rewrite Htr, <- List.app_assoc; reflexivity |].
  split; [exact Hw |].
  cbn [entered]. now rewrite He.
Qed.

(** X5. Every attempt of one call of [_request] hands the same request to
    [urlopen]: the method, the URL, the headers (the idempotency key of a
    submission among them), the body and the timeout it was called with.
    The call enters [_request] once. *)
Theorem X5_request_resends_the_same_request :
  forall env req max_retries (w : World) r w',
    _request env req max_retries w = (r, w') ->
    exists new : list Event,
      trace w' = (trace w ++ new)%list /\
      wire new = List.repeat req (attempts new) /\
      entered new = [req].
Proof.
  intros env req mr w r w'. apply _request_wire.
Qed.

Lemma X5_witness :
  exists new : list Event,
    trace (snd (_request (Scenario.world 1 Scenario.flaky []) Scenario.get_status 2 Scenario.boot))
    = (trace Scenario.boot ++ new)%list /\
    wire new = List.repeat Scenario.get_status (attempts new) /\
    entered new = [Scenario.get_status].
Proof.
  apply (X5_request_resends_the_same_request (Scenario.world 1 Scenario.flaky [])
           Scenario.get_status 2 Scenario.boot
           (fst (_request (Scenario.world 1 Scenario.flaky []) Scenario.get_status 2 Scenario.boot))).
  apply surjective_pairing.
Defined.

(** ** Responses that are not what [main] expects *)

Lemma main_after_submission env fuel args (w w1 : World) payload st b :
  base_url args <> EmptyString -> api_key args <> EmptyString ->
  payload_file args = Some payload ->
  _request env (submit_request args payload) (max_retries args) w = (Ok (st, b), w1) ->
  main env fuel args w
  = match _parse_json env b with
    | Raise e => (Raise e, w1)
    | Ok resp =>
        match job_id_of resp with
        | Raise e => (Raise e, w1)
        | Ok job_id =>
            if truthy job_id then
              match str_format env (status_path_template args) job_id with
              | None => (Raise FormatError, w1)
              | Some path =>
                  poll_loop env fuel args job_id payload resp
                            (headers (submit_request args payload))
                            (rstrip_slash (base_url args) ++ path) (now w1) w1
              end
            else (Ok (Some 3), w1)
        end
    end.
Proof.
  intros E1 E2 Hpay Hreq. unfold main.
  apply String.eqb_neq in E1, E2. rewrite E1, E2, Hpay.
  unfold bind at 1, lift at 1. cbv zeta. unfold bind at 1.
  fold (salt_of args). fold (submit_request args payload). rewrite Hreq.
  cbn [snd]. unfold bind at 1, lift at 1.
  destruct (_parse_json env b) as [resp | e]; [| reflexivity].
  unfold bind at 1, lift at 1.
  destruct (job_id_of resp) as [job_id | e]; [| reflexivity].
  destruct (truthy job_id); cbn [negb]; [| reflexivity].
  unfold bind at 1, lift at 1.
  destruct (str_format env (status_path_template args) job_id); reflexivity.
Qed.

Lemma poll_tick_after_request env fuel args job_id payload resp hdrs status_url start
      (w w1 : World) (st : Z) (b : string) :
  elapsed_seconds env (now w) start <= max_wait args ->
  _request env (mkRequest "GET" status_url (status_headers args hdrs) None (arg_timeout args))
           (max_retries args) w = (Ok (st, b), w1) ->
  poll_loop env (S fuel) args job_id payload resp hdrs status_url start w
  = match _parse_json env b with
    | Raise e => (Raise e, w1)
    | Ok s_resp =>
        match raw_state_of s_resp with
        | Raise e => (Raise e, w1)
        | Ok (JStr raw) =>
            match classify raw with
            | Succeeded =>
                (_write_artifacts env args job_id payload resp s_resp ;; ret (Some 0)) w1
            | Failed =>
                (_write_artifacts env args job_id payload resp s_resp ;; ret (Some 5)) w1
            | InProgress =>
                (time_sleep env (poll args) ;;
                 poll_loop env fuel args job_id payload resp hdrs status_url start) w1
            end
        | Ok _ => (Raise AttributeError, w1)
        end
    end.
Proof.
  intros Hel Hreq.
  assert (E : (elapsed_seconds env (now w) start >? max_wait args) = false) by lia.
  cbn [poll_loop]. unfold bind at 1. unfold time_time at 1.
  rewrite E. unfold bind at 1. rewrite Hreq.
  cbn [snd]. unfold bind at 1, lift at 1.
  destruct (_parse_json env b) as [s_resp | e]; [| reflexivity].
  unfold bind at 1, lift at 1.
  destruct (raw_state_of s_resp) as [rawv | e]; [| reflexivity].
  unfold bind at 1, lift at 1.
  destruct rawv; cbn [str_lower]; try reflexivity.
  unfold classify. destruct (normalize (lower s)); reflexivity.
Qed.

(** X6. An empty submission body is read as the empty object without
    consulting the JSON parser, so it carries no job id: the run returns 3
    in the state the submission left, whatever the HTTP status was. *)
Theorem X6_empty_submission_body :
  forall env fuel args (w w1 : World) payload st,
    base_url args <> EmptyString -> api_key args <> EmptyString ->
    payload_file args = Some payload ->
    _request env (submit_request args payload) (max_retries args) w
    = (Ok (st, EmptyString), w1) ->
    _parse_json env EmptyString = Ok (JObj []) /\
    main env fuel args w = (Ok (Some 3), w1).
Proof.
  intros env fuel args w w1 payload st E1 E2 Hpay Hreq.
  split; [reflexivity |].
  rewrite (main_after_submission _ _ _ _ _ _ _ _ E1 E2 Hpay Hreq). reflexivity.
Qed.

Lemma X6_witness :
  _parse_json (Scenario.world 1 (fun _ _ => Response 204 EmptyString) []) EmptyString
  = Ok (JObj []) /\
  main (Scenario.world 1 (fun _ _ => Response 204 EmptyString) []) 5 (Scenario.args 5 2)
       Scenario.boot
  = (Ok (Some 3),
     snd (_request (Scenario.world 1 (fun _ _ => Response 204 EmptyString) [])
                   (submit_request (Scenario.args 5 2) Scenario.payload) 2 Scenario.boot)).
Proof.
  apply (X6_empty_submission_body (Scenario.world 1 (fun _ _ => Response 204 EmptyString) [])
           5 (Scenario.args 5 2) Scenario.boot _ Scenario.payload 204).
  - discriminate.
  - discriminate.
  - reflexivity.
  - reflexivity.
Defined.

(** X7. A submission body that is not a JSON object ends the run with an
    uncaught exception, exit status 1, in the state the submission left (so
    without any status request or artifact): [JSONDecodeError] when it does
    not parse, [AttributeError] when it parses to an array, a string, a
    number, a boolean or null. *)
Theorem X7_submission_not_an_object :
  forall env fuel args (w w1 : World) payload st b,
    base_url args <> EmptyString -> api_key args <> EmptyString ->
    payload_file args = Some payload ->
    _request env (submit_request args payload) (max_retries args) w = (Ok (st, b), w1) ->
    b <> EmptyString ->
    (json_loads env b = None ->
     main env fuel args w = (Raise JSONDecodeError, w1)) /\
    (forall v, json_loads env b = Some v -> (forall items, v <> JObj items) ->
               main env fuel args w = (Raise AttributeError, w1)) /\
    (forall v, json_loads env b = Some v -> (forall items, v <> JObj items) ->
               exit_status (fst (main env fuel args w)) = Some 1).
Proof.
  intros env fuel args w w1 payload st b E1 E2 Hpay Hreq Hb.
  rewrite (main_after_submission _ _ _ _ _ _ _ _ E1 E2 Hpay Hreq).
  unfold _parse_json. apply String.eqb_neq in Hb. rewrite Hb.
  split; [intros ->; reflexivity |].
  assert (H : forall v, json_loads env b = Some v -> (forall items, v <> JObj items) ->
                        match job_id_of v with
                        | Ok job_id =>
                            if truthy job_id then
                              match str_format env (status_path_template args) job_id with
                              | Some path =>
                                  poll_loop env fuel args job_id payload v
                                            (headers (submit_request args payload))
                                            (rstrip_slash (base_url args) ++ path) (now w1) w1
                              | None => (Raise FormatError, w1)
                              end
                            else (Ok (Some 3), w1)
                        | Raise e => (Raise e, w1)
                        end = (Raise AttributeError, w1)).
  { intros v _ Hv. destruct v; try reflexivity. now destruct (Hv items). }
  split; intros v Hload Hv; rewrite Hload, (H v Hload Hv); reflexivity.
Qed.

Lemma X7_witness :
  main (Scenario.world 1 (fun _ _ => Response 200 "[]") [JArr []]) 5 (Scenario.args 5 2)
       Scenario.boot
  = (Raise AttributeError,
     snd (_request (Scenario.world 1 (fun _ _ => Response 200 "[]") [JArr []])
                   (submit_request (Scenario.args 5 2) Scenario.payload) 2 Scenario.boot)).
Proof.
  apply (proj1 (proj2 (X7_submission_not_an_object
                         (Scenario.world 1 (fun _ _ => Response 200 "[]") [JArr []])
                         5 (Scenario.args 5 2) Scenario.boot _ Scenario.payload 200 "[]"
                         ltac:(discriminate) ltac:(discriminate) eq_refl eq_refl
                         ltac:(discriminate))) (JArr [])).
  - reflexivity.
  - discriminate.
Defined.

(** X8. A poll whose answer cannot be read ends the run with an uncaught
    exception, in the state the request left and so with no artifact: a
    body that does not parse, a body that is not an object, and an object
    whose state (the first truthy one of [status] and [state]) is not a
    string, such as [{"status": 200}]. *)
Theorem X8_unreadable_status :
  forall env fuel args job_id payload resp hdrs status_url start (w w1 : World) st b,
    elapsed_seconds env (now w) start <= max_wait args ->
    _request env (mkRequest "GET" status_url (status_headers args hdrs) None (arg_timeout args))
             (max_retries args) w = (Ok (st, b), w1) ->
    (_parse_json env b = Raise JSONDecodeError ->
     poll_loop env (S fuel) args job_id payload resp hdrs status_url start w
     = (Raise JSONDecodeError, w1)) /\
    (forall doc, _parse_json env b = Ok doc -> (forall items, doc <> JObj items) ->
                 poll_loop env (S fuel) args job_id payload resp hdrs status_url start w
                 = (Raise AttributeError, w1)) /\
    (forall items v,
        _parse_json env b = Ok (JObj items) ->
        (dict_get items "status" = v \/
         (truthy (dict_get items "status") = false /\ dict_get items "state" = v)) ->
        truthy v = true -> (forall s, v <> JStr s) ->
        poll_loop env (S fuel) args job_id payload resp hdrs status_url start w
        = (Raise AttributeError, w1)).
Proof.
  intros env fuel args job_id payload resp hdrs status_url start w w1 st b Hel Hreq.
  rewrite (poll_tick_after_request _ _ _ _ _ _ _ _ _ _ _ _ _ Hel Hreq).
  split; [intros ->; reflexivity |].
  split.
  - intros doc -> Hdoc. destruct doc; try reflexivity. now destruct (Hdoc items).
  - intros items v -> Hv Htruthy Hstr.
    assert (Hraw : raw_state_of (JObj items) = Ok v).
    { cbn [raw_state_of]. unfold py_or. destruct Hv as [<- | [Hfalsy <-]].
      - now rewrite Htruthy.
      - now rewrite Hfalsy, Htruthy. }
    rewrite Hraw. destruct v; try reflexivity. now destruct (Hstr s).
Qed.

Lemma X8_witness :
  poll_loop (Scenario.world 1 (Scenario.always 200 (JObj [("status", JInt 200)]))
                            [JObj [("status", JInt 200)]])
            3 (Scenario.args 5 2) (JStr "abc") Scenario.payload Scenario.accepted ∅
            "https://deploy-api.internal/deployments/abc" 0 Scenario.boot
  = (Raise AttributeError,
     snd (_request (Scenario.world 1 (Scenario.always 200 (JObj [("status", JInt 200)]))
                                   [JObj [("status", JInt 200)]])
                   (mkRequest "GET" "https://deploy-api.internal/deployments/abc"
                              (status_headers (Scenario.args 5 2) ∅) None 30)
                   2 Scenario.boot)).
Proof.
  apply (proj2 (proj2 (X8_unreadable_status
                         (Scenario.world 1 (Scenario.always 200 (JObj [("status", JInt 200)]))
                                         [JObj [("status", JInt 200)]])
                         2 (Scenario.args 5 2) (JStr "abc") Scenario.payload Scenario.accepted ∅
                         "https://deploy-api.internal/deployments/abc" 0 Scenario.boot _ 200
                         (_json_dumps (JObj [("status", JInt 200)]))
                         ltac:(vm_compute; discriminate) eq_refl))
           [("status", JInt 200)] (JInt 200)).
  - reflexivity.
  - left. reflexivity.
  - reflexivity.
  - discriminate.
Defined.

(** X9. The poller reads [status] first and [state] only when [status] is
    missing or falsy; when neither holds a truthy value (an empty body, an
    empty object, values such as [0], [null] or the empty string) the state
    is the empty string, which is in progress: the poller sleeps for the
    poll interval and polls again. *)
Theorem X9_status_before_state :
  (forall items s, dict_get items "status" = JStr s -> s <> EmptyString ->
                   raw_state_of (JObj items) = Ok (JStr s)) /\
  (forall items v, truthy (dict_get items "status") = false ->
                   dict_get items "state" = v -> truthy v = true ->
                   raw_state_of (JObj items) = Ok v) /\
  (forall items, truthy (dict_get items "status") = false ->
                 truthy (dict_get items "state") = false ->
                 raw_state_of (JObj items) = Ok (JStr EmptyString)) /\
  (forall env fuel args job_id payload resp hdrs status_url start (w w1 : World) st b,
      elapsed_seconds env (now w) start <= max_wait args ->
      _request env (mkRequest "GET" status_url (status_headers args hdrs) None (arg_timeout args))
               (max_retries args) w = (Ok (st, b), w1) ->
      (b = EmptyString \/
       exists items, _parse_json env b = Ok (JObj items) /\
                     truthy (dict_get items "status") = false /\
                     truthy (dict_get items "state") = false) ->
      poll_loop env (S fuel) args job_id payload resp hdrs status_url start w
      = (time_sleep env (poll args) ;;
         poll_loop env fuel args job_id payload resp hdrs status_url start) w1).
Proof.
  split; [| split; [| split]].
  - intros items s Hs Hne. cbn [raw_state_of]. unfold py_or. rewrite Hs. cbn [truthy].
    apply String.eqb_neq in Hne. now rewrite Hne.
  - intros items v Hst <- Hv. cbn [raw_state_of]. unfold py_or. now rewrite Hst, Hv.
  - intros items Hst Hs. cbn [raw_state_of]. unfold py_or. now rewrite Hst, Hs.
  - intros env fuel args job_id payload resp hdrs status_url start w w1 st b Hel Hreq Hb.
    rewrite (poll_tick_after_request _ _ _ _ _ _ _ _ _ _ _ _ _ Hel Hreq).
    destruct Hb as [-> | (items & -> & Hst & Hs)].
    + reflexivity.
    + cbn [raw_state_of]. unfold py_or. rewrite Hst, Hs. reflexivity.
Qed.

Lemma X9_witness :
  raw_state_of (JObj [("status", JStr "running"); ("state", JStr "failed")])
  = Ok (JStr "running").
Proof.
  apply (proj1 X9_status_before_state
           [("status", JStr "running"); ("state", JStr "failed")] "running").
  - reflexivity.
  - discriminate.
Defined.

(** X10. With a negative poll interval the first answer that is in progress
    ends the run with the [ValueError] of [time.sleep]; nothing is slept
    and nothing more is requested. *)
Theorem X10_negative_poll_interval :
  forall env fuel args job_id payload resp hdrs status_url start (w w1 : World) st b doc raw,
    elapsed_seconds env (now w) start <= max_wait args ->
    _request env (mkRequest "GET" status_url (status_headers args hdrs) None (arg_timeout args))
             (max_retries args) w = (Ok (st, b), w1) ->
    _parse_json env b = Ok doc ->
    raw_state_of doc = Ok (JStr raw) ->
    classify raw = InProgress ->
    poll args < 0 ->
    poll_loop env (S fuel) args job_id payload resp hdrs status_url start w
    = (Raise ValueError, w1).
Proof.
  intros env fuel args job_id payload resp hdrs status_url start w w1 st b doc raw
         Hel Hreq Hparse Hraw Hcl Hpoll.
  rewrite (poll_tick_after_request _ _ _ _ _ _ _ _ _ _ _ _ _ Hel Hreq), Hparse, Hraw, Hcl.
  unfold bind, time_sleep.
  assert (E : (poll args <? 0) = true) by lia.
  now rewrite E.
Qed.

Lemma X10_witness :
  poll_loop (Scenario.world 1 (Scenario.always 200 Scenario.running) Scenario.docs)
            3 (Scenario.args 5 (-1)) (JStr "abc") Scenario.payload Scenario.accepted ∅
            "https://deploy-api.internal/deployments/abc" 0 Scenario.boot
  = (Raise ValueError,
     snd (_request (Scenario.world 1 (Scenario.always 200 Scenario.running) Scenario.docs)
                   (mkRequest "GET" "https://deploy-api.internal/deployments/abc"
                              (status_headers (Scenario.args 5 (-1)) ∅) None 30)
                   2 Scenario.boot)).
Proof.
  apply (X10_negative_poll_interval
           (Scenario.world 1 (Scenario.always 200 Scenario.running) Scenario.docs)
           2 (Scenario.args 5 (-1)) (JStr "abc") Scenario.payload Scenario.accepted ∅
           "https://deploy-api.internal/deployments/abc" 0 Scenario.boot _ 200
           (_json_dumps Scenario.running) Scenario.running "running").
  - vm_compute. discriminate.
  - reflexivity.
  - reflexivity.
  - reflexivity.
  - reflexivity.
  - reflexivity.
Defined.

(** ** More on the poller *)

Lemma elapsed_at_start env (t : Z) : elapsed_seconds env t t = 0.
Proof. unfold elapsed_seconds. rewrite Z.sub_diag. now destruct (hz env). Qed.

(** X11. Whether a status request is made at all depends on the sign of
    the wait budget alone: with a negative [max_wait] an accepted
    submission is followed by the timeout at once, exit code 4 in the state
    the submission left; with any other budget the first status request is
    always made, at the time the submission returned. *)
Theorem X11_first_poll :
  forall env fuel args (w w1 : World) payload st b resp job_id path,
    base_url args <> EmptyString -> api_key args <> EmptyString ->
    payload_file args = Some payload ->
    _request env (submit_request args payload) (max_retries args) w = (Ok (st, b), w1) ->
    _parse_json env b = Ok resp ->
    job_id_of resp = Ok job_id ->
    truthy job_id = true ->
    str_format env (status_path_template args) job_id = Some path ->
    (max_wait args < 0 -> main env (S fuel) args w = (Ok (Some 4), w1)) /\
    (0 <= max_wait args -> sane env ->
     forall r w', main env (S fuel) args w = (r, w') ->
       exists rest,
         trace w' = (trace w1
                     ++ EvCall (now w1)
                          (status_request args payload (rstrip_slash (base_url args) ++ path))
                        :: rest)%list).
Proof.
  intros env fuel args w w1 payload st b resp job_id path E1 E2 Hpay Hreq Hparse Hjob Htr Hfmt.
  rewrite (main_polls _ _ _ _ _ _ _ _ _ _ _ E1 E2 Hpay Hreq Hparse Hjob Htr Hfmt).
  split.
  - intros Hneg. apply poll_loop_timeout. rewrite elapsed_at_start. exact Hneg.
  - intros Hwait Hsane r w' Hrun.
    apply poll_loop_step in Hrun.
    destruct Hrun as [(Hel & _) | (_ & r1 & w2 & Hreq2 & Hrest)].
    { rewrite elapsed_at_start in Hel. lia. }
    fold (status_request args payload (rstrip_slash (base_url args) ++ path)) in Hreq2.
    destruct (_request_frame _ _ _ _ _ _ Hsane Hreq2) as (new1 & Htr1 & _).
    destruct Hrest as [(e & -> & ->) | (st2 & b2 & s_resp & raw & -> & _ & _ & Hcases)].
    { exists new1. exact Htr1. }
    cbv zeta in Hcases.
    destruct Hcases as [(_ & _ & ->) | [(_ & _ & ->) | (_ & _ & Hrun)]].
    + eexists. cbn [trace]. rewrite Htr1, <- List.app_assoc. reflexivity.
    + eexists. cbn [trace]. rewrite Htr1, <- List.app_assoc. reflexivity.
    + apply (poll_loop_run _ _ _ _ _ _ _ _ Hsane) in Hrun.
      destruct Hrun as (new2 & Htr2 & _). cbn [trace] in Htr2.
      eexists. rewrite Htr2, Htr1, <- !List.app_assoc. reflexivity.
Qed.

Lemma X11_witness :
  main (Scenario.world 1 (Scenario.api Scenario.accepted Scenario.running) Scenario.docs)
       1 (Scenario.args (-1) 2) Scenario.boot
  = (Ok (Some 4),
     snd (_request
            (Scenario.world 1 (Scenario.api Scenario.accepted Scenario.running) Scenario.docs)
            (submit_request (Scenario.args (-1) 2) Scenario.payload) 2 Scenario.boot)).
Proof.
  apply (proj1 (X11_first_poll
                  (Scenario.world 1 (Scenario.api Scenario.accepted Scenario.running) Scenario.docs)
                  0 (Scenario.args (-1) 2) Scenario.boot _ Scenario.payload 200
                  (_json_dumps Scenario.accepted) Scenario.accepted (JStr "abc")
                  "/deployments/abc"
                  ltac:(discriminate) ltac:(discriminate) eq_refl eq_refl eq_refl eq_refl
                  eq_refl eq_refl)).
  reflexivity.
Defined.

Lemma Forall_eq_repeat {A} (x : A) (l : list A) :
  Forall (fun y => y = x) l -> l = List.repeat x (List.length l).
Proof. induction 1 as [| y l -> _ IH]; cbn; [| rewrite <- IH]; reflexivity. Qed.

Lemma Forall_repeat_eq {A} (x : A) (n : nat) : Forall (fun y => y = x) (List.repeat x n).
Proof. induction n; cbn; constructor; auto. Qed.

Lemma poll_loop_wire env args job_id payload resp hdrs status_url start :
  forall fuel w r w',
    poll_loop env fuel args job_id payload resp hdrs status_url start w = (r, w') ->
    exists new : list Event,
      trace w' = (trace w ++ new)%list /\
      Forall (fun q => q = mkRequest "GET" status_url (status_headers args hdrs) None
                                     (arg_timeout args)) (entered new) /\
      Forall (fun q => q = mkRequest "GET" status_url (status_headers args hdrs) None
                                     (arg_timeout args)) (wire new).
Proof.
  set (req := mkRequest "GET" status_url (status_headers args hdrs) None (arg_timeout args)).
  induction fuel as [| fuel IH]; intros w r w' Hrun.
  - cbn in Hrun. inversion Hrun; subst. exists []. rewrite List.app_nil_r. cbn. auto.
  - apply poll_loop_step in Hrun.
    destruct Hrun as [(_ & _ & ->) | (_ & r1 & w1 & Hreq & Hrest)].
    { exists []. rewrite List.app_nil_r. cbn. auto. }
    fold req in Hreq.
    destruct (_request_wire _ _ _ _ _ _ Hreq) as (new1 & Htr1 & Hw1 & He1).
    assert (HE : Forall (fun q => q = req) (entered new1))
      by (rewrite He1; constructor; [reflexivity | constructor]).
    assert (HW : Forall (fun q => q = req) (wire new1))
      by (rewrite Hw1; apply Forall_repeat_eq).
    destruct Hrest as [(e & -> & ->) | (st & b & s_resp & raw & -> & _ & _ & Hcases)].
    { exists new1. auto. }
    cbv zeta in Hcases.
    destruct Hcases as [(_ & _ & ->) | [(_ & _ & ->) | (_ & _ & Hrun)]].
    + eexists (new1 ++ [EvArtifact (now w1) _])%list. cbn [trace].
      split; [rewrite Htr1, <- List.app_assoc; reflexivity |].
      rewrite entered_app, wire_app. cbn [entered wire]. rewrite !List.app_nil_r. auto.
    + eexists (new1 ++ [EvArtifact (now w1) _])%list. cbn [trace].
      split; [rewrite Htr1, <- List.app_assoc; reflexivity |].
      rewrite entered_app, wire_app. cbn [entered wire]. rewrite !List.app_nil_r. auto.
    + apply IH in Hrun. destruct Hrun as (new2 & Htr2 & HE2 & HW2). cbn [trace] in Htr2.
      exists (new1 ++ EvSleep (now w1) (poll args) :: new2)%list.
      split; [rewrite Htr2, Htr1, <- !List.app_assoc; reflexivity |].
      rewrite entered_app, wire_app. cbn [entered wire].
      split; apply Forall_app; auto.
Qed.

(** X12. A run submits once: [_request] is entered a first time with the
    submission, and every later entry is the status request, a [GET] of
    one URL with one set of headers and no body. What reaches [urlopen] is
    the submission, as often as it is attempted, and after it only that
    status request. *)
Theorem X12_one_submission_then_status_requests :
  forall env fuel args (w : World) r w',
    main env fuel args w = (r, w') ->
    exists new : list Event,
      trace w' = (trace w ++ new)%list /\
      (new = [] \/
       exists payload status_url polls tries retries,
         payload_file args = Some payload /\
         entered new
         = submit_request args payload
           :: List.repeat (status_request args payload status_url) polls /\
         wire new
         = (List.repeat (submit_request args payload) tries
            ++ List.repeat (status_request args payload status_url) retries)%list).
Proof.
  intros env fuel args w r w' Hrun.
  apply main_cases in Hrun.
  destruct Hrun as [(_ & _ & ->) | (_ & _ & [(_ & _ & ->) | Hsub])];
    try (exists []; rewrite List.app_nil_r; auto; fail).
  destruct Hsub as (payload & r1 & w1 & Hpay & Hreq & Hrest).
  destruct (_request_wire _ _ _ _ _ _ Hreq) as (new1 & Htr1 & Hw1 & He1).
  assert (Hstop : w' = w1 ->
            exists new : list Event,
              trace w' = (trace w ++ new)%list /\
              (new = [] \/
               exists payload status_url polls tries retries,
                 payload_file args = Some payload /\
                 entered new
                 = submit_request args payload
                   :: List.repeat (status_request args payload status_url) polls /\
                 wire new
                 = (List.repeat (submit_request args payload) tries
                    ++ List.repeat (status_request args payload status_url) retries)%list)).
  { intros ->. exists new1. split; [exact Htr1 |]. right.
    exists payload, EmptyString, 0%nat, (attempts new1), 0%nat.
    cbn [List.repeat]. rewrite List.app_nil_r. auto. }
  destruct Hrest as [(e & _ & Hw) | (st & b & resp & job_id & _ & _ & _ & Hcases)];
    [exact (Hstop Hw) |].
  destruct Hcases as [(_ & _ & Hw) | (_ & path & _ & Hpoll)]; [exact (Hstop Hw) |].
  apply poll_loop_wire in Hpoll. destruct Hpoll as (new2 & Htr2 & HE2 & HW2).
  fold (status_request args payload (rstrip_slash (base_url args) ++ path)) in HE2, HW2.
  exists (new1 ++ new2)%list.
  split; [rewrite Htr2, Htr1, <- List.app_assoc; reflexivity |]. right.
  exists payload, (rstrip_slash (base_url args) ++ path),
         (List.length (entered new2)), (attempts new1), (List.length (wire new2)).
  split; [exact Hpay |].
  rewrite entered_app, wire_app, He1, Hw1.
  rewrite <- (Forall_eq_repeat _ _ HE2), <- (Forall_eq_repeat _ _ HW2). auto.
Qed.

Lemma X12_witness :
  exists new : list Event,
    trace (snd (main (Scenario.world 1 (Scenario.api Scenario.accepted Scenario.running)
                                     Scenario.docs)
                     10 (Scenario.args 5 2) Scenario.boot))
    = (trace Scenario.boot ++ new)%list /\
    (new = [] \/
     exists payload status_url polls tries retries,
       payload_file (Scenario.args 5 2) = Some payload /\
       entered new
       = submit_request (Scenario.args 5 2) payload
         :: List.repeat (status_request (Scenario.args 5 2) payload status_url) polls /\
       wire new
       = (List.repeat (submit_request (Scenario.args 5 2) payload) tries
          ++ List.repeat (status_request (Scenario.args 5 2) payload status_url) retries)%list).
Proof.
  apply (X12_one_submission_then_status_requests
           (Scenario.world 1 (Scenario.api Scenario.accepted Scenario.running) Scenario.docs)
           10 (Scenario.args 5 2) Scenario.boot
           (fst (main (Scenario.world 1 (Scenario.api Scenario.accepted Scenario.running)
                                      Scenario.docs)
                      10 (Scenario.args 5 2) Scenario.boot))).
  apply surjective_pairing.
Defined.

Lemma spaced_cons (gap t : Z) (times : list Z) :
  (forall t', In t' times -> t + gap <= t') -> spaced gap times -> spaced gap (t :: times).
Proof.
  intros Hall Hs. destruct times as [| t2 rest]; [exact I |].
  split; [apply Hall; now left | exact Hs].
Qed.

Lemma poll_loop_spaced env args job_id payload resp hdrs status_url start :
  sane env ->
  forall fuel w r w',
    poll_loop env fuel args job_id payload resp hdrs status_url start w = (r, w') ->
    exists new : list Event,
      trace w' = (trace w ++ new)%list /\
      chrono (now w) new (now w') /\
      spaced (poll args * hz env) (status_requests new).
Proof.
  intros Hsane. pose proof Hsane as [Hhz Hlag].
  induction fuel as [| fuel IH]; intros w r w' Hrun.
  - cbn in Hrun. inversion Hrun; subst. exists []. rewrite List.app_nil_r. cbn.
    repeat split; lia.
  - apply poll_loop_step in Hrun.
    destruct Hrun as [(_ & _ & ->) | (_ & r1 & w1 & Hreq & Hrest)].
    { exists []. rewrite List.app_nil_r. cbn. repeat split; lia. }
    destruct (_request_frame _ _ _ _ _ _ Hsane Hreq) as (new1 & Htr1 & Hch1 & _ & Hst1).
    set (req := mkRequest "GET" status_url (status_headers args hdrs) None (arg_timeout args)) in *.
    assert (Hstat : forall tail,
               status_requests (EvCall (now w) req :: new1 ++ tail)
               = now w :: status_requests tail).
    { intros tail. cbn. now rewrite status_requests_app, Hst1. }
    pose proof (chrono_le _ _ _ Hch1) as Hle1.
    destruct Hrest as [(e & -> & ->) | (st & b & s_resp & raw & -> & _ & _ & Hcases)].
    { exists (EvCall (now w) req :: new1 ++ []).
      rewrite Hstat, List.app_nil_r. cbn.
      split; [rewrite Htr1; reflexivity |].
      split; [split; [lia | exact Hch1] | exact I]. }
    cbv zeta in Hcases.
    destruct Hcases as [(_ & _ & ->) | [(_ & _ & ->) | (_ & Hpoll & Hrun)]].
    + eexists (EvCall (now w) req :: new1 ++ [EvArtifact (now w1) _]).
      rewrite Hstat. cbn [now calls trace].
      split; [rewrite Htr1, <- List.app_assoc; reflexivity |].
      split; [cbn; split; [lia |]; eapply chrono_snoc; [exact Hch1 | cbn; lia | cbn; lia] |].
      exact I.
    + eexists (EvCall (now w) req :: new1 ++ [EvArtifact (now w1) _]).
      rewrite Hstat. cbn [now calls trace].
      split; [rewrite Htr1, <- List.app_assoc; reflexivity |].
      split; [cbn; split; [lia |]; eapply chrono_snoc; [exact Hch1 | cbn; lia | cbn; lia] |].
      exact I.
    + apply IH in Hrun. destruct Hrun as (new2 & Htr2 & Hch2 & Hsp2).
      cbn [now calls trace] in *.
      pose proof (Hlag (List.length (trace w1))) as Hl.
      assert (Hgap : 0 <= poll args * hz env) by (apply Z.mul_nonneg_nonneg; lia).
      exists (EvCall (now w) req :: new1 ++ EvSleep (now w1) (poll args) :: new2).
      rewrite Hstat.
      split; [rewrite Htr2, Htr1, <- !List.app_assoc; reflexivity |].
      split.
      { cbn. split; [lia |]. eapply chrono_app; [exact Hch1 |].
        cbn. split; [lia |]. eapply chrono_weaken; [| exact Hch2]. lia. }
      cbn [status_requests]. apply spaced_cons; [| exact Hsp2].
      intros t' Hin. apply status_requests_In in Hin. destruct Hin as (e & He & <-).
      pose proof (chrono_lower _ _ _ _ Hch2 He). lia.
Qed.

(** X13. The poller never asks more often than the poll interval allows:
    two consecutive status requests are at least [poll] seconds apart on
    the clock, whatever the server answers and however long the requests
    take. *)
Theorem X13_status_requests_are_spaced :
  forall env args job_id payload resp hdrs status_url start fuel (w : World) r w',
    sane env ->
    poll_loop env fuel args job_id payload resp hdrs status_url start w = (r, w') ->
    exists new : list Event,
      trace w' = (trace w ++ new)%list /\
      spaced (poll args * hz env) (status_requests new).
Proof.
  intros env args job_id payload resp hdrs status_url start fuel w r w' Hsane Hrun.
  destruct (poll_loop_spaced _ _ _ _ _ _ _ _ Hsane _ _ _ _ Hrun) as (new & Htr & _ & Hsp).
  exists new. auto.
Qed.

Lemma X13_witness :
  exists new : list Event,
    trace (snd (poll_loop (Scenario.world 1000 (Scenario.always 200 Scenario.running) Scenario.docs)
                          4 (Scenario.args 5 2) (JStr "abc") Scenario.payload Scenario.accepted ∅
                          "https://deploy-api.internal/deployments/abc" 0 Scenario.boot))
    = (trace Scenario.boot ++ new)%list /\
    spaced (2 * 1000) (status_requests new).
Proof.
  apply (X13_status_requests_are_spaced
           (Scenario.world 1000 (Scenario.always 200 Scenario.running) Scenario.docs)
           (Scenario.args 5 2) (JStr "abc") Scenario.payload Scenario.accepted ∅
           "https://deploy-api.internal/deployments/abc" 0 4 Scenario.boot
           (fst (poll_loop (Scenario.world 1000 (Scenario.always 200 Scenario.running)
                                            Scenario.docs)
                           4 (Scenario.args 5 2) (JStr "abc") Scenario.payload Scenario.accepted
                           ∅ "https://deploy-api.internal/deployments/abc" 0 Scenario.boot))).
  - apply sane_scenario. lia.
  - apply surjective_pairing.
Defined.

Lemma poll_loop_ends env args job_id payload resp hdrs status_url start :
  sane env -> 1 <= poll args ->
  forall fuel w d,
    0 <= d -> d * hz env <= now w - start ->
    Z.max 0 (max_wait args - d + poll args) < Z.of_nat fuel * poll args ->
    fst (poll_loop env fuel args job_id payload resp hdrs status_url start w) <> Ok None.
Proof.
  intros Hsane Hpoll. pose proof Hsane as [Hhz Hlag].
  induction fuel as [| fuel IH]; intros w d Hd Hnow Hfuel; [lia |].
  destruct (poll_loop env (S fuel) args job_id payload resp hdrs status_url start w)
    as [r w'] eqn:Hrun.
  cbn [fst]. apply poll_loop_step in Hrun.
  destruct Hrun as [(_ & -> & _) | (Hel & r1 & w1 & Hreq & Hrest)]; [discriminate |].
  destruct Hrest as [(e & -> & _) | (st & b & s_resp & raw & -> & _ & _ & Hcases)];
    [discriminate |].
  cbv zeta in Hcases.
  destruct Hcases as [(_ & -> & _) | [(_ & -> & _) | (_ & _ & Hrun)]]; try discriminate.
  pose proof (elapsed_lower env _ _ _ Hhz Hd Hnow) as Hlow.
  destruct (_request_frame _ _ _ _ _ _ Hsane Hreq) as (new1 & _ & Hch1 & _).
  pose proof (chrono_le _ _ _ Hch1) as Hle1.
  pose proof (Hlag (List.length (trace w1))) as Hl.
  specialize (IH (mkWorld (now w1 + (poll args * hz env + lag env (List.length (trace w1))))
                          (calls w1) (trace w1 ++ [EvSleep (now w1) (poll args)]))
                 (d + poll args)).
  rewrite Hrun in IH. cbn [fst now] in IH. apply IH; [lia | nia | nia].
Qed.

(** X14. With a poll interval of at least one second the polling loop
    always comes to an end, whatever the server does: once the iterations
    outnumber [max_wait / poll + 1] the run has returned an exit code or
    raised: the process ends with an exit status. *)
Theorem X14_run_terminates :
  forall env args fuel (w : World),
    sane env -> 1 <= poll args ->
    Z.max 0 (max_wait args + poll args) < Z.of_nat fuel * poll args ->
    exists code, exit_status (fst (main env fuel args w)) = Some code.
Proof.
  intros env args fuel w Hsane Hpoll Hfuel.
  assert (Hend : fst (main env fuel args w) <> Ok None).
  { destruct (main env fuel args w) as [r w'] eqn:Hrun. cbn [fst].
    apply main_cases in Hrun.
    destruct Hrun as [(_ & -> & _) | (_ & _ & [(_ & -> & _) | Hsub])]; try discriminate.
    destruct Hsub as (payload & r1 & w1 & _ & _ & Hrest).
    destruct Hrest as [(e & -> & _) | (st & b & resp & job_id & _ & _ & _ & Hcases)];
      [discriminate |].
    destruct Hcases as [(_ & -> & _) | (_ & path & _ & Hpoll')]; [discriminate |].
    pose proof (poll_loop_ends env args job_id payload resp (headers (submit_request args payload))
                  (rstrip_slash (base_url args) ++ path) (now w1) Hsane Hpoll fuel w1 0) as H.
    rewrite Hpoll' in H. cbn [fst] in H. apply H; [lia | lia |].
    replace (max_wait args - 0 + poll args) with (max_wait args + poll args) by lia.
    exact Hfuel. }
  destruct (fst (main env fuel args w)) as [[c |] | e]; cbn [exit_status]; eauto.
  now destruct Hend.
Qed.

Lemma X14_witness :
  exists code,
    exit_status
      (fst (main (Scenario.world 1 (Scenario.api Scenario.accepted Scenario.running) Scenario.docs)
                 4 (Scenario.args 5 2) Scenario.boot))
    = Some code.
Proof.
  apply (X14_run_terminates
           (Scenario.world 1 (Scenario.api Scenario.accepted Scenario.running) Scenario.docs)
           (Scenario.args 5 2) 4 Scenario.boot).
  - apply sane_scenario. lia.
  - cbn. lia.
  - cbn. lia.
Defined.

(** ** The headers of the two requests *)

(** X15. Both requests carry the API key and accept JSON. Only the
    submission carries the idempotency key and a content type. The
    correlation id is on the submission only when one is configured, while
    every status request has the header, empty when none is configured. A
    status request has these three headers and no other. *)
Theorem X15_request_headers :
  forall args payload status_url,
    headers (submit_request args payload) !! "X-API-Key" = Some (api_key args) /\
    headers (status_request args payload status_url) !! "X-API-Key" = Some (api_key args) /\
    headers (submit_request args payload) !! "Accept" = Some "application/json" /\
    headers (status_request args payload status_url) !! "Accept" = Some "application/json" /\
    headers (submit_request args payload) !! "Content-Type" = Some "application/json" /\
    headers (submit_request args payload) !! "Idempotency-Key"
    = Some (_make_idempotency_key payload (salt_of args)) /\
    headers (submit_request args payload) !! "X-Correlation-Id"
    = (if String.eqb (correlation_id args) EmptyString then None
       else Some (correlation_id args)) /\
    headers (status_request args payload status_url) !! "X-Correlation-Id"
    = Some (correlation_id args) /\
    dom (headers (status_request args payload status_url))
    = ({[ "Accept"; "X-API-Key"; "X-Correlation-Id" ]} : gset string) /\
    method (status_request args payload status_url) = "GET" /\
    data (status_request args payload status_url) = None /\
    method (submit_request args payload) = "POST" /\
    data (submit_request args payload) = Some (_json_dumps payload).
Proof.
  intros args payload status_url.
  cbn [headers status_request submit_request method data].
  unfold status_headers, submit_headers.
  destruct (String.eqb (correlation_id args) EmptyString) eqn:E.
  - apply String.eqb_eq in E. rewrite E.
    repeat split; try reflexivity; simplify_map_eq; reflexivity.
  - repeat split; try reflexivity; simplify_map_eq; reflexivity.
Qed.

(** ** The base URL *)

Lemma rstrip_slash_split (s : string) :
  exists k, s = rstrip_slash s ++ slashes k /\
            (rstrip_slash s = EmptyString -> s = slashes k).
Proof.
  induction s as [| c s (k & IH & IHe)].
  - exists 0%nat. split; [reflexivity | auto].
  - cbn [rstrip_slash]. destruct (rstrip_slash s) as [| c' r'] eqn:E.
    + destruct (Ascii.eqb_spec c "/"%char) as [-> | Hne].
      * exists (S k). rewrite (IHe eq_refl). split; [reflexivity | auto].
      * exists k. rewrite (IHe eq_refl). split; [reflexivity | discriminate].
    + exists k. split; [| discriminate]. rewrite append_cons. now rewrite <- IH.
Qed.

Lemma rstrip_slash_last (s : string) : last_char (rstrip_slash s) <> Some "/"%char.
Proof.
  induction s as [| c s IH]; [discriminate |].
  cbn [rstrip_slash]. destruct (rstrip_slash s) as [| c' r'] eqn:E.
  - destruct (Ascii.eqb_spec c "/"%char) as [-> | Hne]; [discriminate |].
    cbn. congruence.
  - exact IH.
Qed.

Lemma rstrip_slash_app_slash (s : string) : rstrip_slash (s ++ "/") = rstrip_slash s.
Proof.
  induction s as [| c s IH]; [reflexivity |].
  rewrite append_cons. cbn [rstrip_slash]. now rewrite IH.
Qed.

(** X16. The base URL is used without its trailing slashes: what is put
    before the submit path and the status path is the base URL with every
    slash at its end removed and nothing else changed, so a base URL given
    with or without a final slash leads to the same submission URL. *)
Theorem X16_base_url_trailing_slashes :
  (forall s, exists k, s = rstrip_slash s ++ slashes k) /\
  (forall s, last_char (rstrip_slash s) = Some "/"%char -> False) /\
  (forall s, rstrip_slash (s ++ "/") = rstrip_slash s) /\
  (forall args args' payload,
      base_url args' = base_url args ++ "/" ->
      submit_path args' = submit_path args ->
      url (submit_request args' payload) = url (submit_request args payload)).
Proof.
  split; [| split; [| split]].
  - intros s. destruct (rstrip_slash_split s) as (k & H & _). eauto.
  - intros s. apply rstrip_slash_last.
  - apply rstrip_slash_app_slash.
  - intros args args' payload Hb Hp. cbn [url submit_request].
    now rewrite Hb, Hp, rstrip_slash_app_slash.
Qed.

Lemma X16_witness :
  url (submit_request (Scenario.args 5 2) Scenario.payload)
  = url (submit_request
           (mkArgs "https://deploy-api.internal" "k-123456789" 30 2 5 2
                   "/deployments" "/deployments/{jobId}" EmptyString
                   (Some Scenario.payload) "4f2a" "77" None)
           Scenario.payload).
Proof.
  apply (proj2 (proj2 (proj2 X16_base_url_trailing_slashes))); reflexivity.
Defined.

(** ** More on the order of the report *)

Lemma ascii_compare_refl (a : ascii) : Ascii.compare a a = Eq.
Proof. unfold Ascii.compare. apply N.compare_refl. Qed.

Lemma ascii_compare_lt_trans (a b c : ascii) :
  Ascii.compare a b = Lt -> Ascii.compare b c = Lt -> Ascii.compare a c = Lt.
Proof. unfold Ascii.compare. rewrite !N.compare_lt_iff. lia. Qed.

Lemma string_compare_lt_trans (s : string) : forall t u,
  String.compare s t = Lt -> String.compare t u = Lt -> String.compare s u = Lt.
Proof.
  induction s as [| a s IH]; intros [| b t] [| c u]; cbn; try congruence.
  destruct (Ascii.compare a b) eqn:Eab; try discriminate;
    destruct (Ascii.compare b c) eqn:Ebc; try discriminate; intros H1 H2.
  - apply Ascii.compare_eq_iff in Eab, Ebc. subst. rewrite ascii_compare_refl. eauto.
  - apply Ascii.compare_eq_iff in Eab. subst. now rewrite Ebc.
  - apply Ascii.compare_eq_iff in Ebc. subst. now rewrite Eab.
  - now rewrite (ascii_compare_lt_trans _ _ _ Eab Ebc).
Qed.

Lemma string_ltb_trans (s t u : string) :
  String.ltb s t = true -> String.ltb t u = true -> String.ltb s u = true.
Proof.
  unfold String.ltb. intros H1 H2.
  destruct (String.compare s t) eqn:E1; try discriminate.
  destruct (String.compare t u) eqn:E2; try discriminate.
  now rewrite (string_compare_lt_trans _ _ _ E1 E2).
Qed.

Lemma string_ltb_total (s t : string) :
  String.ltb s t = false -> String.ltb t s = false -> s = t.
Proof.
  unfold String.ltb. rewrite (String.compare_antisym t s).
  destruct (String.compare s t) eqn:E; cbn; try discriminate.
  intros _ _. now apply String.compare_eq_iff.
Qed.

Lemma seg_eqb_eq (a b : Validate.Seg) : Validate.seg_eqb a b = true <-> a = b.
Proof.
  destruct a as [s | i], b as [t | j]; cbn; split; try congruence.
  - intros H. apply String.eqb_eq in H. now subst.
  - intros [= ->]. apply String.eqb_refl.
  - intros H. apply Z.eqb_eq in H. now subst.
  - intros [= ->]. apply Z.eqb_refl.
Qed.

Lemma seg_lt_trans (a b c : Validate.Seg) :
  Validate.seg_lt a b = Some true -> Validate.seg_lt b c = Some true ->
  Validate.seg_lt a c = Some true.
Proof.
  destruct a, b, c; cbn; try discriminate; intros [= H1] [= H2]; f_equal.
  - eapply string_ltb_trans; eassumption.
  - lia.
Qed.

Lemma seg_lt_irrefl (a : Validate.Seg) : Validate.seg_lt a a <> Some true.
Proof.
  intros H. pose proof (seg_lt_asym _ _ H). congruence.
Qed.

Lemma seg_lt_total (a b : Validate.Seg) :
  Validate.seg_lt a b = Some false -> Validate.seg_lt b a = Some false -> a = b.
Proof.
  destruct a, b; cbn; try discriminate; intros [= H1] [= H2]; f_equal.
  - now apply string_ltb_total.
  - lia.
Qed.

Lemma path_lt_trans (p : list Validate.Seg) : forall q r,
  Validate.path_lt p q = Some true -> Validate.path_lt q r = Some true ->
  Validate.path_lt p r = Some true.
Proof.
  induction p as [| a p IH]; intros [| b q] [| c r]; cbn; try congruence.
  destruct (Validate.seg_eqb a b) eqn:Eab, (Validate.seg_eqb b c) eqn:Ebc; intros H1 H2.
  - apply seg_eqb_eq in Eab, Ebc. subst.
    rewrite (proj2 (seg_eqb_eq c c) eq_refl). eauto.
  - apply seg_eqb_eq in Eab. subst. now rewrite Ebc.
  - apply seg_eqb_eq in Ebc. subst. now rewrite Eab.
  - destruct (Validate.seg_eqb a c) eqn:Eac.
    + apply seg_eqb_eq in Eac. subst.
      pose proof (seg_lt_asym _ _ H1). congruence.
    + eapply seg_lt_trans; eassumption.
Qed.

Lemma path_lt_refl (p : list Validate.Seg) : Validate.path_lt p p = Some false.
Proof.
  induction p as [| a p IH]; [reflexivity |].
  cbn. now rewrite (proj2 (seg_eqb_eq a a) eq_refl).
Qed.

Lemma path_ltb_irrefl (p : list Validate.Seg) : Validate.path_ltb p p = false.
Proof. unfold Validate.path_ltb. now rewrite path_lt_refl. Qed.

Lemma path_ltb_trans (p q r : list Validate.Seg) :
  Validate.path_ltb p q = true -> Validate.path_ltb q r = true ->
  Validate.path_ltb p r = true.
Proof.
  unfold Validate.path_ltb. intros H1 H2.
  destruct (Validate.path_lt p q) as [[|] |] eqn:E1; try discriminate.
  destruct (Validate.path_lt q r) as [[|] |] eqn:E2; try discriminate.
  now rewrite (path_lt_trans _ _ _ E1 E2).
Qed.

Lemma comparable_sym (p q : list Validate.Seg) :
  Validate.comparable p q = Validate.comparable q p.
Proof.
  unfold Validate.comparable.
  destruct (Validate.path_lt p q), (Validate.path_lt q p); reflexivity.
Qed.

Lemma path_lt_total (p : list Validate.Seg) : forall q,
  Validate.path_lt p q = Some false -> Validate.path_lt q p = Some false -> p = q.
Proof.
  induction p as [| a p IH]; intros [| b q]; cbn; try congruence.
  rewrite (seg_eqb_sym b a).
  destruct (Validate.seg_eqb a b) eqn:Eab.
  - apply seg_eqb_eq in Eab. subst. intros H1 H2. f_equal. now apply IH.
  - intros H1 H2. rewrite (seg_lt_total _ _ H1 H2) in Eab.
    rewrite (proj2 (seg_eqb_eq b b) eq_refl) in Eab. discriminate.
Qed.

(** Comparable paths are equal or one is before the other. *)
Lemma path_trichotomy (p q : list Validate.Seg) :
  Validate.comparable p q = true ->
  Validate.path_ltb q p = false ->
  p = q \/ Validate.path_ltb p q = true.
Proof.
  unfold Validate.comparable, Validate.path_ltb.
  destruct (Validate.path_lt p q) as [[|] |] eqn:E1; try discriminate; [auto |].
  destruct (Validate.path_lt q p) as [[|] |] eqn:E2; try discriminate.
  intros _ _. left. now apply path_lt_total.
Qed.

Lemma path_le_trans (a b c : Validate.ValidationError) :
  Validate.comparable (Validate.path a) (Validate.path b) = true ->
  Validate.comparable (Validate.path b) (Validate.path c) = true ->
  path_le a b -> path_le b c -> path_le a c.
Proof.
  unfold path_le. intros Cab Cbc Hab Hbc.
  destruct (path_trichotomy _ _ Cab Hab) as [Eab | Lab]; [now rewrite Eab |].
  destruct (path_trichotomy _ _ Cbc Hbc) as [Ebc | Lbc]; [now rewrite <- Ebc |].
  apply path_ltb_asym. eapply path_ltb_trans; eassumption.
Qed.

Lemma all_comparable_pairwise (errs : list Validate.ValidationError) :
  Validate.all_comparable errs = true ->
  forall a b, In a errs -> In b errs ->
              Validate.comparable (Validate.path a) (Validate.path b) = true.
Proof.
  assert (Hrefl : forall a, Validate.comparable (Validate.path a) (Validate.path a) = true).
  { intros a. unfold Validate.comparable. now rewrite path_lt_refl. }
  induction errs as [| e rest IH]; [intros _ a b [] |].
  cbn [Validate.all_comparable]. intros H. apply andb_true_iff in H as [He Hrest].
  rewrite List.forallb_forall in He.
  intros a b [<- | Ha] [<- | Hb]; auto.
  rewrite comparable_sym. auto.
Qed.

Lemma insert_error_In (e x : Validate.ValidationError) (l : list Validate.ValidationError) :
  In x (Validate.insert_error e l) -> x = e \/ In x l.
Proof.
  intros H. apply (Permutation.Permutation_in x (Permutation.Permutation_sym (insert_error_perm e l))) in H.
  destruct H; auto.
Qed.

Lemma insert_error_strongly_sorted (e : Validate.ValidationError)
      (l : list Validate.ValidationError) :
  (forall a b, In a (e :: l) -> In b (e :: l) ->
               Validate.comparable (Validate.path a) (Validate.path b) = true) ->
  Sorted.StronglySorted path_le l ->
  Sorted.StronglySorted path_le (Validate.insert_error e l).
Proof.
  intros Hcmp Hs. induction Hs as [| x l Hs IH Hx].
  - cbn. constructor; constructor.
  - cbn [Validate.insert_error].
    destruct (Validate.path_ltb (Validate.path x) (Validate.path e)) eqn:E.
    + constructor.
      * apply IH. intros a b Ha Hb. apply Hcmp; cbn in *; tauto.
      * apply List.Forall_forall. intros y Hy. apply insert_error_In in Hy.
        destruct Hy as [-> | Hy].
        -- unfold path_le. now apply path_ltb_asym.
        -- rewrite List.Forall_forall in Hx. now apply Hx.
    + constructor; [constructor; assumption |].
      constructor; [exact E |].
      apply List.Forall_forall. intros y Hy.
      rewrite List.Forall_forall in Hx.
      apply (path_le_trans e x y); [apply Hcmp | apply Hcmp | exact E | now apply Hx];
        cbn; auto.
Qed.

Lemma stable_sort_strongly_sorted (errs : list Validate.ValidationError) :
  Validate.all_comparable errs = true ->
  Sorted.StronglySorted path_le (Validate.stable_sort errs).
Proof.
  intros H. pose proof (all_comparable_pairwise _ H) as Hcmp. clear H.
  induction errs as [| e rest IH]; [constructor |].
  cbn [Validate.stable_sort]. apply insert_error_strongly_sorted.
  - intros a b Ha Hb. apply Hcmp.
    + destruct Ha as [<- | Ha]; [now left | right].
      eapply Permutation.Permutation_in;
        [apply Permutation.Permutation_sym, stable_sort_perm | exact Ha].
    + destruct Hb as [<- | Hb]; [now left | right].
      eapply Permutation.Permutation_in;
        [apply Permutation.Permutation_sym, stable_sort_perm | exact Hb].
  - apply IH. intros a b Ha Hb. apply Hcmp; now right.
Qed.

Lemma stable_sort_fixed (errs : list Validate.ValidationError) :
  Sorted.StronglySorted path_le errs -> Validate.stable_sort errs = errs.
Proof.
  induction 1 as [| e rest Hs IH He]; [reflexivity |].
  cbn [Validate.stable_sort]. rewrite IH. apply insert_error_first.
  rewrite List.Forall_forall in He. exact He.
Qed.

(** X17. The report is in the order of the paths throughout, not only
    between neighbours: no violation is printed after one whose path is
    greater. A list of violations that is already in that order is printed
    as it is, so sorting a sorted report changes nothing. *)
Theorem X17_report_is_totally_ordered :
  forall errs sorted,
    Validate.sorted_by_path errs = Some sorted ->
    Sorted.StronglySorted path_le sorted /\
    (Sorted.StronglySorted path_le errs -> sorted = errs) /\
    Validate.sorted_by_path sorted = Some sorted.
Proof.
  intros errs sorted. unfold Validate.sorted_by_path.
  destruct (Validate.all_comparable errs) eqn:Hcmp; [| discriminate].
  intros [= <-].
  pose proof (stable_sort_strongly_sorted _ Hcmp) as Hs.
  split; [exact Hs |]. split; [apply stable_sort_fixed |].
  assert (Hc : Validate.all_comparable (Validate.stable_sort errs) = true).
  { pose proof (all_comparable_pairwise _ Hcmp) as Hp.
    assert (Hp' : forall a b, In a (Validate.stable_sort errs) -> In b (Validate.stable_sort errs) ->
                              Validate.comparable (Validate.path a) (Validate.path b) = true).
    { intros a b Ha Hb.
      apply Hp; eapply Permutation.Permutation_in;
        try (apply Permutation.Permutation_sym, stable_sort_perm); assumption. }
    clear Hs Hp Hcmp. induction (Validate.stable_sort errs) as [| x l IH]; [reflexivity |].
    cbn [Validate.all_comparable]. apply andb_true_iff. split.
    - apply List.forallb_forall. intros y Hy. apply Hp'; cbn; auto.
    - apply IH. intros a b Ha Hb. apply Hp'; cbn; auto. }
  rewrite Hc. f_equal. now apply stable_sort_fixed.
Qed.

Lemma X17_witness :
  Sorted.StronglySorted path_le
    [Validate.mkError [] "'env' is a required property";
     Validate.mkError [Validate.Key "replicas"] "-1 is less than the minimum of 0";
     Validate.mkError [Validate.Key "targets"; Validate.Index 2; Validate.Key "region"]
                      "'moon' is not one of ['eu', 'us']";
     Validate.mkError [Validate.Key "targets"; Validate.Index 10] "'x' is not of type 'object'"].
Proof.
  apply (X17_report_is_totally_ordered Scenario.violations). reflexivity.
Defined.

Lemma errors_at_insert (p : list Validate.Seg) (e : Validate.ValidationError)
      (l : list Validate.ValidationError) :
  errors_at p (Validate.insert_error e l) = errors_at p (e :: l).
Proof.
  unfold errors_at. induction l as [| x l IH]; [reflexivity |].
  cbn [Validate.insert_error].
  destruct (Validate.path_ltb (Validate.path x) (Validate.path e)) eqn:E; [| reflexivity].
  rewrite (filter_cons _ x), IH, !(filter_cons _ e), (filter_cons _ x).
  destruct (decide (Validate.path x = p)) as [Hx | Hx]; [| reflexivity].
  destruct (decide (Validate.path e = p)) as [He | He]; [| reflexivity].
  rewrite Hx, He, path_ltb_irrefl in E. discriminate.
Qed.

(** X18. The sort is stable: violations at the same path are printed in
    the order in which the schema library reported them. *)
Theorem X18_report_keeps_order_within_a_path :
  forall errs sorted p,
    Validate.sorted_by_path errs = Some sorted ->
    errors_at p sorted = errors_at p errs.
Proof.
  intros errs sorted p. unfold Validate.sorted_by_path.
  destruct (Validate.all_comparable errs); [| discriminate].
  intros [= <-]. induction errs as [| e rest IH]; [reflexivity |].
  cbn [Validate.stable_sort]. rewrite errors_at_insert.
  unfold errors_at in *. rewrite !(filter_cons _ e), IH. reflexivity.
Qed.

Lemma X18_witness :
  errors_at [Validate.Key "env"]
    [Validate.mkError [] "'region' is a required property";
     Validate.mkError [Validate.Key "env"] "'qa' is not one of ['dev', 'prod']";
     Validate.mkError [Validate.Key "env"] "'qa' is too short"]
  = errors_at [Validate.Key "env"]
      [Validate.mkError [Validate.Key "env"] "'qa' is not one of ['dev', 'prod']";
       Validate.mkError [] "'region' is a required property";
       Validate.mkError [Validate.Key "env"] "'qa' is too short"].
Proof.
  apply (X18_report_keeps_order_within_a_path
           [Validate.mkError [Validate.Key "env"] "'qa' is not one of ['dev', 'prod']";
            Validate.mkError [] "'region' is a required property";
            Validate.mkError [Validate.Key "env"] "'qa' is too short"]).
  reflexivity.
Defined.

(** ** More on the JSON text *)

Lemma concat_all_chars (P : ascii -> bool) (sep : string) (l : list string) :
  all_chars P sep = true ->
  List.Forall (fun s => all_chars P s = true) l ->
  all_chars P (String.concat sep l) = true.
Proof.
  intros Hsep. induction 1 as [| s l Hs Hl IH]; [reflexivity |].
  destruct l as [| t l]; [exact Hs |].
  change (String.concat sep (s :: t :: l)) with (s ++ sep ++ String.concat sep (t :: l)).
  rewrite !all_chars_app, Hs, Hsep, IH. reflexivity.
Qed.

Lemma uint_visible (d : Decimal.uint) :
  all_chars visible (NilEmpty.string_of_uint d) = true.
Proof. induction d; cbn [NilEmpty.string_of_uint all_chars]; rewrite ?IHd; reflexivity. Qed.

Lemma str_int_visible (n : Z) : all_chars visible (str_int n) = true.
Proof.
  unfold str_int, NilZero.string_of_int, NilZero.string_of_uint.
  destruct (Z.to_int n) as [d | d]; destruct d eqn:E; try reflexivity;
    rewrite <- E; cbn [all_chars]; rewrite ?uint_visible; reflexivity.
Qed.

Lemma escape_char_visible (c : ascii) : all_chars visible (Dumps.escape_char c) = true.
Proof. destruct c as [[|] [|] [|] [|] [|] [|] [|] [|]]; reflexivity. Qed.

Lemma escape_visible (s : string) : all_chars visible (Dumps.escape s) = true.
Proof.
  induction s as [| c s IH]; cbn [Dumps.escape]; [reflexivity |].
  now rewrite all_chars_app, escape_char_visible, IH.
Qed.

Lemma quote_visible (s : string) : all_chars visible (Dumps.quote s) = true.
Proof.
  unfold Dumps.quote. cbn [all_chars]. now rewrite all_chars_app, escape_visible.
Qed.

Lemma dumps_visible (v : json) : all_chars visible (Dumps.dumps v) = true.
Proof.
  induction v as [| b | n | s | xs IH | items IH] using json_rect_nested; cbn [Dumps.dumps].
  - reflexivity.
  - destruct b; reflexivity.
  - apply str_int_visible.
  - apply quote_visible.
  - rewrite !all_chars_app, concat_all_chars; [reflexivity | reflexivity |].
    rewrite List.Forall_forall in *. intros s Hs.
    apply List.in_map_iff in Hs as (x & <- & Hx). now apply IH.
  - rewrite !all_chars_app, concat_all_chars; [reflexivity | reflexivity |].
    rewrite List.Forall_forall in *. intros s Hs.
    apply List.in_map_iff in Hs as (kv & <- & Hkv).
    now rewrite !all_chars_app, quote_visible, (IH kv Hkv).
Qed.

Lemma str_int_nonempty (n : Z) : (0 < String.length (str_int n))%nat.
Proof.
  unfold str_int, NilZero.string_of_int, NilZero.string_of_uint.
  destruct (Z.to_int n) as [d | d]; destruct d;
    cbn [NilEmpty.string_of_uint String.length]; lia.
Qed.

(** X19. The JSON text of the request body is one line of visible
    characters: whatever the document holds, the text contains no control
    character (no line break, no tab: those inside strings are escaped),
    and it is never empty. *)
Theorem X19_json_text_is_one_line :
  forall data,
    all_chars visible (_json_dumps data) = true /\
    (0 < String.length (_json_dumps data))%nat.
Proof.
  intros data. split; [apply dumps_visible |].
  unfold _json_dumps. destruct data as [| [|] | n | s | xs | items]; cbn [Dumps.dumps];
    try (cbn; lia).
  - apply str_int_nonempty.
  - rewrite append_cons. cbn [String.length]. lia.
  - rewrite append_cons. cbn [String.length]. lia.
Qed.

(** ** The JSON text determines the document *)

Lemma string_app_assoc (a b c : string) : (a ++ b) ++ c = a ++ (b ++ c).
Proof.
  induction a as [| x a IH]; [reflexivity |].
  rewrite !append_cons. now rewrite IH.
Qed.

Lemma string_app_inv_head (a r r' : string) : a ++ r = a ++ r' -> r = r'.
Proof.
  induction a as [| x a IH]; [auto |].
  rewrite !append_cons. intros [= H]. auto.
Qed.

Lemma unescape_head_escape_char (c : ascii) (rest : string) :
  unescape_head (Dumps.escape_char c ++ rest) = Some (c, rest).
Proof. destruct c as [[|] [|] [|] [|] [|] [|] [|] [|]]; reflexivity. Qed.

Lemma escape_char_head (c : ascii) (rest : string) :
  kind_of_head (Dumps.escape_char c ++ rest) <> KString.
Proof. destruct c as [[|] [|] [|] [|] [|] [|] [|] [|]]; discriminate. Qed.

Lemma escape_inj (s : string) : forall s' r r',
  Dumps.escape s ++ String Dumps.dquote r = Dumps.escape s' ++ String Dumps.dquote r' ->
  s = s' /\ r = r'.
Proof.
  induction s as [| c s IH]; intros [| c' s'] r r'; cbn [Dumps.escape].
  - rewrite !append_nil. intros [= ->]. auto.
  - rewrite append_nil, string_app_assoc. intros H.
    apply (f_equal kind_of_head) in H. symmetry in H. now apply escape_char_head in H.
  - rewrite append_nil, string_app_assoc. intros H.
    apply (f_equal kind_of_head) in H. now apply escape_char_head in H.
  - rewrite !string_app_assoc. intros H.
    apply (f_equal unescape_head) in H. rewrite !unescape_head_escape_char in H.
    injection H as -> H. apply IH in H as [-> ->]. auto.
Qed.

Lemma quote_inj (s s' r r' : string) :
  Dumps.quote s ++ r = Dumps.quote s' ++ r' -> s = s' /\ r = r'.
Proof.
  unfold Dumps.quote. rewrite !append_cons, !string_app_assoc, !append_cons, !append_nil.
  intros [= H]. now apply escape_inj.
Qed.

Lemma uint_inj (d : Decimal.uint) : forall d' r r',
  stops r = true -> stops r' = true ->
  NilEmpty.string_of_uint d ++ r = NilEmpty.string_of_uint d' ++ r' ->
  d = d' /\ r = r'.
Proof.
  induction d as [| d IH | d IH | d IH | d IH | d IH | d IH | d IH | d IH | d IH | d IH];
    intros d' r r' Hr Hr'; destruct d'; cbn [NilEmpty.string_of_uint];
    rewrite ?append_nil, ?append_cons; intros H;
    try (injection H as H; apply IH in H as [-> ->]; auto; fail);
    try (subst; discriminate);
    try discriminate.
  auto.
Qed.

Lemma uint_nonnil_text (d : Decimal.uint) :
  d <> Decimal.Nil ->
  NilZero.string_of_uint d = NilEmpty.string_of_uint d /\
  exists c t, NilEmpty.string_of_uint d = String c t /\ is_digit c = true.
Proof.
  intros Hd. destruct d; try congruence; (split; [reflexivity |]);
    cbn [NilEmpty.string_of_uint]; eexists _, _; split; reflexivity.
Qed.

Lemma to_int_nonnil (m : Z) :
  match Z.to_int m with Decimal.Pos d | Decimal.Neg d => d <> Decimal.Nil end.
Proof.
  destruct m as [| p | p]; cbn; try discriminate; apply DecimalPos.Unsigned.to_uint_nonnil.
Qed.

Lemma str_int_inj (n n' : Z) (r r' : string) :
  stops r = true -> stops r' = true ->
  str_int n ++ r = str_int n' ++ r' -> n = n' /\ r = r'.
Proof.
  intros Hr Hr' H.
  assert (Hint : Z.to_int n = Z.to_int n' /\ r = r').
  { unfold str_int, NilZero.string_of_int in H.
    pose proof (to_int_nonnil n) as Hn. pose proof (to_int_nonnil n') as Hn'.
    destruct (Z.to_int n) as [d | d], (Z.to_int n') as [d' | d'];
      destruct (uint_nonnil_text d Hn) as (Ed & c & t & Hc & Hdig);
      destruct (uint_nonnil_text d' Hn') as (Ed' & c' & t' & Hc' & Hdig');
      rewrite Ed, Ed' in H.
    - apply uint_inj in H as [-> ->]; auto.
    - rewrite Hc, !append_cons in H. injection H as -> _. discriminate.
    - rewrite Hc', !append_cons in H. injection H as <- _. discriminate.
    - rewrite !append_cons in H. injection H as H.
      apply uint_inj in H as [-> ->]; auto. }
  destruct Hint as [Hint ->]. split; [| reflexivity].
  rewrite <- (DecimalZ.of_to n), <- (DecimalZ.of_to n'). now rewrite Hint.
Qed.

Lemma kind_of_dumps (v : json) (r : string) :
  kind_of_head (Dumps.dumps v ++ r) = kind v.
Proof.
  destruct v as [| [|] | n | s | xs | items]; try reflexivity.
  cbn [Dumps.dumps kind]. unfold str_int, NilZero.string_of_int.
  pose proof (to_int_nonnil n) as Hn.
  destruct (Z.to_int n) as [d | d]; [| reflexivity].
  destruct (uint_nonnil_text d Hn) as (-> & c & t & -> & Hdig).
  rewrite append_cons. cbn [kind_of_head]. rewrite Hdig.
  destruct (Ascii.eqb_spec c "n") as [-> | _]; [discriminate |].
  destruct (Ascii.eqb_spec c "t") as [-> | _]; [discriminate |].
  destruct (Ascii.eqb_spec c "f") as [-> | _]; [discriminate |].
  reflexivity.
Qed.

Lemma concat_joined (close r : string) (l : list string) : forall s,
  String.concat "," (s :: l) ++ close ++ r = s ++ joined l close r.
Proof.
  induction l as [| t l IH]; intros s; [reflexivity |].
  change (String.concat "," (s :: t :: l)) with (s ++ "," ++ String.concat "," (t :: l)).
  rewrite !string_app_assoc, IH. reflexivity.
Qed.

Lemma framed (o close r : string) (l : list string) :
  (o ++ String.concat "," l ++ close) ++ r
  = o ++ match l with
         | [] => close ++ r
         | s :: rest => s ++ joined rest close r
         end.
Proof.
  rewrite !string_app_assoc. f_equal.
  destruct l as [| s l]; [reflexivity | apply concat_joined].
Qed.

Lemma stops_joined (l : list string) (c : ascii) (r : string) :
  is_digit c = false -> stops (joined l (String c EmptyString) r) = true.
Proof. intros Hc. destruct l; cbn [joined]; rewrite append_cons; cbn; [now rewrite Hc | reflexivity]. Qed.

(** What makes a list of items readable back: each item can be told from
    what follows it. *)
Lemma joined_inj {A} (f : A -> string) (c : ascii) (xs : list A) :
  is_digit c = false -> c <> ","%char ->
  List.Forall (fun x => forall x' t t', stops t = true -> stops t' = true ->
                                        f x ++ t = f x' ++ t' -> x = x' /\ t = t') xs ->
  forall xs' r r',
    joined (List.map f xs) (String c EmptyString) r
    = joined (List.map f xs') (String c EmptyString) r' ->
    xs = xs' /\ r = r'.
Proof.
  intros Hc Hcomma. induction 1 as [| x xs Hx _ IH]; intros [| x' xs'] r r';
    cbn [List.map joined]; rewrite !append_cons, !append_nil.
  - intros [= ->]. auto.
  - intros [= E _]. congruence.
  - intros [= E _]. congruence.
  - intros [= H]. apply Hx in H; try (apply stops_joined; exact Hc).
    destruct H as [-> H]. apply IH in H as [-> ->]. auto.
Qed.

Lemma dumps_delimited (v : json) : forall v' r r',
  (forall n, v = JInt n -> stops r = true /\ stops r' = true) ->
  Dumps.dumps v ++ r = Dumps.dumps v' ++ r' ->
  v = v' /\ r = r'.
Proof.
  induction v as [| b | n | s | xs IH | items IH] using json_rect_nested;
    intros v' r r' Hstop Heq;
    pose proof (f_equal kind_of_head Heq) as Hk; rewrite !kind_of_dumps in Hk.
  - destruct v' as [| [|] | | | |]; try discriminate Hk.
    apply string_app_inv_head in Heq. auto.
  - destruct b, v' as [| [|] | | | |]; try discriminate Hk;
      apply string_app_inv_head in Heq; auto.
  - destruct v' as [| [|] | n' | | |]; try discriminate Hk.
    destruct (Hstop n eq_refl) as [Hr Hr'].
    cbn [Dumps.dumps] in Heq. apply str_int_inj in Heq as [-> ->]; auto.
  - destruct v' as [| [|] | | s' | |]; try discriminate Hk.
    cbn [Dumps.dumps] in Heq. apply quote_inj in Heq as [-> ->]. auto.
  - destruct v' as [| [|] | | | xs' |]; try discriminate Hk.
    cbn [Dumps.dumps] in Heq. rewrite !framed, !append_cons, !append_nil in Heq.
    injection Heq as Heq.
    destruct xs as [| x xs], xs' as [| x' xs']; cbn [List.map] in Heq.
    + injection Heq as ->. auto.
    + apply (f_equal kind_of_head) in Heq. rewrite kind_of_dumps in Heq.
      destruct x' as [| [|] | | | |]; discriminate Heq.
    + apply (f_equal kind_of_head) in Heq. rewrite kind_of_dumps in Heq.
      destruct x as [| [|] | | | |]; discriminate Heq.
    + inversion IH as [| ? ? Hx Hxs]; subst.
      apply Hx in Heq; [| intros _ _; split; apply stops_joined; reflexivity].
      destruct Heq as [-> Heq].
      apply (joined_inj Dumps.dumps "]"%char xs) in Heq; [| reflexivity | discriminate |].
      * destruct Heq as [-> ->]. auto.
      * eapply List.Forall_impl; [| exact Hxs]. cbn. intros a Ha a' t t' Ht Ht'. apply Ha.
        intros m _. auto.
  - destruct v' as [| [|] | | | | items']; try discriminate Hk.
    cbn [Dumps.dumps] in Heq. rewrite !framed, !append_cons, !append_nil in Heq.
    injection Heq as Heq.
    assert (Hitem : List.Forall
                      (fun kv : string * json =>
                         forall kv' t t', stops t = true -> stops t' = true ->
                           (Dumps.quote (fst kv) ++ ":" ++ Dumps.dumps (snd kv)) ++ t
                           = (Dumps.quote (fst kv') ++ ":" ++ Dumps.dumps (snd kv')) ++ t' ->
                           kv = kv' /\ t = t') items).
    { eapply List.Forall_impl; [| exact IH]. cbn.
      intros [k v] Hv [k' v'] t t' Ht Ht'. cbn [fst snd].
      rewrite !string_app_assoc. intros H.
      apply quote_inj in H as [-> H]. rewrite !append_cons, !append_nil in H.
      injection H as H. apply Hv in H; [| intros m _; auto].
      cbn [snd] in H. destruct H as [-> ->]. auto. }
    destruct items as [| kv items], items' as [| kv' items']; cbn [List.map] in Heq.
    + injection Heq as ->. auto.
    + exfalso. unfold Dumps.quote in Heq. rewrite !append_cons in Heq. discriminate.
    + exfalso. unfold Dumps.quote in Heq. rewrite !append_cons in Heq. discriminate.
    + inversion Hitem as [| ? ? Hx Hxs]; subst.
      apply Hx in Heq; try (apply stops_joined; reflexivity).
      destruct Heq as [-> Heq].
      apply (joined_inj (fun kv => Dumps.quote (fst kv) ++ ":" ++ Dumps.dumps (snd kv))
                        "}"%char items) in Heq; [| reflexivity | discriminate | exact Hxs].
      destruct Heq as [-> ->]. auto.
Qed.

(** X20. The JSON text determines the document: two documents with the
    same text are the same document, the order of the keys included. For
    an object payload the text hashed into the idempotency key, the JSON
    text followed by the salt, determines both the payload and the salt. *)
Theorem X20_json_text_determines_the_document :
  (forall data data', _json_dumps data = _json_dumps data' -> data = data') /\
  (forall items data' salt salt',
      _json_dumps (JObj items) ++ salt = _json_dumps data' ++ salt' ->
      JObj items = data' /\ salt = salt').
Proof.
  unfold _json_dumps. split.
  - intros data data' H.
    apply (dumps_delimited data data' EmptyString EmptyString).
    + intros n _. auto.
    + now rewrite H.
  - intros items data' salt salt' H. apply dumps_delimited in H; [exact H |].
    intros n Hn. discriminate Hn.
Qed.

Lemma X20_witness :
  JObj [("env", JStr "prod")] = Scenario.payload /\ "4f2a|77|" = "4f2a|77|".
Proof.
  apply (proj2 X20_json_text_determines_the_document). reflexivity.
Defined.

(** ** What goes into the idempotency key *)

Lemma bar_split (s : string) : forall s' t t',
  no_bar s = true -> no_bar s' = true ->
  s ++ "|" ++ t = s' ++ "|" ++ t' -> s = s' /\ t = t'.
Proof.
  unfold no_bar.
  induction s as [| c s IH]; intros [| c' s'] t t'; cbn [all_chars];
    rewrite ?append_nil, ?append_cons, ?append_nil; intros Hs Hs' H.
  - injection H as ->. auto.
  - injection H as <- _. discriminate.
  - injection H as -> _. discriminate.
  - apply andb_true_iff in Hs as [_ Hs]. apply andb_true_iff in Hs' as [_ Hs'].
    injection H as -> H. apply IH in H; auto. destruct H as [-> ->]. auto.
Qed.

(** X21. The text that is hashed into the idempotency key of a run
    determines what it was made of: for an object payload, and a commit id
    and a build id without a vertical bar, two runs hash the same text
    only if they have the same payload document, the same commit id, the
    same build id and the same base URL as given (trailing slashes
    included). *)
Theorem X21_idempotency_key_input :
  forall args args' items payload',
    no_bar (BUILD_SOURCEVERSION args) = true ->
    no_bar (BUILD_SOURCEVERSION args') = true ->
    no_bar (BUILD_BUILDID args) = true ->
    no_bar (BUILD_BUILDID args') = true ->
    _json_dumps (JObj items) ++ salt_of args = _json_dumps payload' ++ salt_of args' ->
    JObj items = payload' /\
    BUILD_SOURCEVERSION args = BUILD_SOURCEVERSION args' /\
    BUILD_BUILDID args = BUILD_BUILDID args' /\
    base_url args = base_url args'.
Proof.
  intros args args' items payload' H1 H1' H2 H2' H.
  unfold _json_dumps in H. apply dumps_delimited in H; [| intros n Hn; discriminate Hn].
  destruct H as [Hp H]. split; [exact Hp |].
  unfold salt_of in H.
  destruct (bar_split _ _ _ _ H1 H1' H) as [Hsv Hrest].
  destruct (bar_split _ _ _ _ H2 H2' Hrest) as [Hbid Hbase].
  auto.
Qed.

Lemma X21_witness :
  JObj [("env", JStr "prod")] = Scenario.payload /\
  BUILD_SOURCEVERSION (Scenario.args 5 2) = BUILD_SOURCEVERSION (Scenario.args 60 10) /\
  BUILD_BUILDID (Scenario.args 5 2) = BUILD_BUILDID (Scenario.args 60 10) /\
  base_url (Scenario.args 5 2) = base_url (Scenario.args 60 10).
Proof.
  apply (X21_idempotency_key_input (Scenario.args 5 2) (Scenario.args 60 10)); reflexivity.
Defined.

(** ** The command line *)

(** X22. The numeric environment variables are converted while the
    parser is being set up: a value that is not a number ends the program
    with [ValueError] before the command line is looked at, so even when
    the command line gives that option, or is itself in error. *)
Theorem X22_numeric_environment_is_read_first :
  forall environ py_int py_strip read_json cli name s,
    In name NUMERIC_VARIABLES ->
    environ !! name = Some s ->
    py_int s = None ->
    parse_args environ py_int py_strip read_json cli = EnvValueError.
Proof.
  intros environ py_int py_strip read_json cli name s Hin Hs Hbad.
  unfold parse_args, getenv_int.
  cbn in Hin. destruct Hin as [<- | [<- | [<- | [<- | []]]]]; rewrite Hs, Hbad;
    repeat match goal with
           | |- context [match ?e with Some _ => _ | None => _ end] => destruct e
           end;
    reflexivity.
Qed.

Lemma X22_witness :
  parse_args {[ "DEPLOY_API_POLL_SECONDS" := "soon" ]} int_of_text (fun s => s)
             (fun _ => None)
             (mkCli (Some "payload.json") (Some "https://deploy-api.internal") (Some "k")
                    None (Some "5") None None None None None)
  = EnvValueError.
Proof.
  apply (X22_numeric_environment_is_read_first _ _ _ _ _ "DEPLOY_API_POLL_SECONDS" "soon").
  - cbn. auto.
  - reflexivity.
  - reflexivity.
Defined.

Lemma parse_args_started environ py_int py_strip read_json cli args :
  parse_args environ py_int py_strip read_json cli = Started args ->
  base_url args
  = default (py_strip (getenv environ "DEPLOY_API_BASE_URL" EmptyString)) (opt_base_url cli) /\
  api_key args
  = default (py_strip (getenv environ "DEPLOY_API_KEY" EmptyString)) (opt_api_key cli) /\
  correlation_id args
  = default (str_or (getenv environ "BUILD_BUILDID" EmptyString)
                    (str_or (getenv environ "SYSTEM_JOBID" EmptyString) EmptyString))
            (opt_correlation_id cli) /\
  BUILD_SOURCEVERSION args = getenv environ "BUILD_SOURCEVERSION" EmptyString /\
  BUILD_BUILDID args = getenv environ "BUILD_BUILDID" EmptyString.
Proof.
  unfold parse_args.
  repeat match goal with
         | |- context [match ?e with Some _ => _ | None => _ end] => destruct e
         end; try discriminate.
  intros [= <-]. cbn. auto.
Qed.

(** X23. A run that gets a base URL or an API key from neither the
    command line nor the environment (the variable unset, or blank once
    stripped), or an empty one from the command line, returns 2 and does
    nothing: no file is read, nothing is sent. *)
Theorem X23_unconfigured_run :
  forall environ py_int py_strip read_json cli args env fuel (w : World),
    parse_args environ py_int py_strip read_json cli = Started args ->
    (opt_base_url cli = None /\
     py_strip (getenv environ "DEPLOY_API_BASE_URL" EmptyString) = EmptyString) \/
    (opt_api_key cli = None /\
     py_strip (getenv environ "DEPLOY_API_KEY" EmptyString) = EmptyString) \/
    opt_base_url cli = Some EmptyString \/
    opt_api_key cli = Some EmptyString ->
    main env fuel args w = (Ok (Some 2), w).
Proof.
  intros environ py_int py_strip read_json cli args env fuel w Hstart Hmissing.
  apply parse_args_started in Hstart. destruct Hstart as (Hb & Hk & _).
  apply main_missing_config. rewrite Hb, Hk.
  destruct Hmissing as [[-> ->] | [[-> ->] | [-> | ->]]]; cbn; auto.
Qed.

Lemma X23_witness :
  main (Scenario.world 1 (Scenario.api Scenario.accepted Scenario.completed) Scenario.docs) 5
       (mkArgs EmptyString "k-123456789" 30 10 3600 6 "/deployments" "/deployments/{jobId}"
               EmptyString None EmptyString EmptyString None)
       Scenario.boot
  = (Ok (Some 2), Scenario.boot).
Proof.
  apply (X23_unconfigured_run {[ "DEPLOY_API_KEY" := "k-123456789" ]} int_of_text
           (fun s => s) (fun _ => None) (only_payload "payload.json")).
  - reflexivity.
  - left. split; reflexivity.
Defined.

(** X24. Without [--correlation-id] the build id of the pipeline, when
    there is one, marks the run twice: it is the correlation id sent with
    the submission and with every status request, and it is the middle
    part of the salt of the idempotency key. The job id of the pipeline
    stands in as correlation id when there is no build id, but not in the
    salt, whose middle part is then empty. *)
Theorem X24_build_id_marks_the_run :
  forall environ py_int py_strip read_json cli args payload,
    parse_args environ py_int py_strip read_json cli = Started args ->
    opt_correlation_id cli = None ->
    (forall build, environ !! "BUILD_BUILDID" = Some build -> build <> EmptyString ->
       headers (submit_request args payload) !! "X-Correlation-Id" = Some build /\
       (forall status_url,
           headers (status_request args payload status_url) !! "X-Correlation-Id" = Some build) /\
       salt_of args
       = getenv environ "BUILD_SOURCEVERSION" EmptyString ++ "|" ++ build ++ "|" ++ base_url args) /\
    (forall job, environ !! "BUILD_BUILDID" = None ->
       environ !! "SYSTEM_JOBID" = Some job -> job <> EmptyString ->
       headers (submit_request args payload) !! "X-Correlation-Id" = Some job /\
       salt_of args
       = getenv environ "BUILD_SOURCEVERSION" EmptyString ++ "||" ++ base_url args).
Proof.
  intros environ py_int py_strip read_json cli args payload Hstart Hcli.
  apply parse_args_started in Hstart. destruct Hstart as (_ & _ & Hc & Hsv & Hbid).
  rewrite Hcli in Hc. cbn [default from_option id] in Hc.
  assert (Hsub : correlation_id args <> EmptyString ->
                 headers (submit_request args payload) !! "X-Correlation-Id"
                 = Some (correlation_id args)).
  { intros Hne. cbn [headers submit_request]. unfold submit_headers.
    apply String.eqb_neq in Hne. rewrite Hne. now simplify_map_eq. }
  assert (Hst : forall status_url,
             headers (status_request args payload status_url) !! "X-Correlation-Id"
             = Some (correlation_id args)).
  { intros status_url. cbn [headers submit_request status_request].
    unfold status_headers, submit_headers.
    destruct (String.eqb (correlation_id args) EmptyString) eqn:E.
    - apply String.eqb_eq in E. rewrite E. now simplify_map_eq.
    - now simplify_map_eq. }
  split.
  - intros build Hb Hne. unfold getenv in Hc, Hbid. rewrite Hb in Hc, Hbid.
    cbn [default from_option id] in Hc, Hbid. unfold str_or in Hc. apply String.eqb_neq in Hne. rewrite Hne in Hc.
    apply String.eqb_neq in Hne.
    split; [rewrite <- Hc; apply Hsub; now rewrite Hc |].
    split; [intros status_url; rewrite <- Hc; apply Hst |].
    unfold salt_of. now rewrite Hsv, Hbid.
  - intros job Hb Hj Hne. unfold getenv in Hc, Hbid. rewrite Hb in Hc, Hbid. rewrite Hj in Hc.
    cbn [default from_option id] in Hc, Hbid. unfold str_or in Hc. cbn [String.eqb] in Hc.
    apply String.eqb_neq in Hne. rewrite Hne in Hc. apply String.eqb_neq in Hne.
    split; [rewrite <- Hc; apply Hsub; now rewrite Hc |].
    unfold salt_of. rewrite Hsv, Hbid. reflexivity.
Qed.

Lemma X24_witness :
  headers (submit_request
             (mkArgs "https://deploy-api.internal" "k-123456789" 30 10 3600 6 "/deployments"
                     "/deployments/{jobId}" "77" None "4f2a" "77" None)
             Scenario.payload) !! "X-Correlation-Id" = Some "77" /\
  (forall status_url,
      headers (status_request
                 (mkArgs "https://deploy-api.internal" "k-123456789" 30 10 3600 6 "/deployments"
                         "/deployments/{jobId}" "77" None "4f2a" "77" None)
                 Scenario.payload status_url) !! "X-Correlation-Id" = Some "77") /\
  salt_of (mkArgs "https://deploy-api.internal" "k-123456789" 30 10 3600 6 "/deployments"
                  "/deployments/{jobId}" "77" None "4f2a" "77" None)
  = "4f2a" ++ "|" ++ "77" ++ "|" ++ "https://deploy-api.internal".
Proof.
  apply (proj1 (X24_build_id_marks_the_run
                  pipeline_environ
                  int_of_text (fun s => s) (fun _ => None) (only_payload "payload.json")
                  (mkArgs "https://deploy-api.internal" "k-123456789" 30 10 3600 6 "/deployments"
                          "/deployments/{jobId}" "77" None "4f2a" "77" None)
                  Scenario.payload eq_refl eq_refl) "77").
  - reflexivity.
  - discriminate.
Defined.

(** ** Where the artifact goes *)

Lemma poll_loop_artifacts env args job_id payload resp hdrs status_url start :
  sane env ->
  forall fuel w r w',
    poll_loop env fuel args job_id payload resp hdrs status_url start w = (r, w') ->
    exists new : list Event,
      trace w' = (trace w ++ new)%list /\
      Forall (fun a => art_dir a = default "artifacts" (BUILD_ARTIFACTSTAGINGDIRECTORY args) /\
                       art_file a = "deploy-result-" ++ py_str env job_id ++ ".json" /\
                       art_jobId a = job_id /\ art_submitResponse a = resp)
             (artifacts new).
Proof.
  intros Hsane.
  induction fuel as [| fuel IH]; intros w r w' Hrun.
  - cbn in Hrun. inversion Hrun; subst. exists []. rewrite List.app_nil_r. cbn. auto.
  - apply poll_loop_step in Hrun.
    destruct Hrun as [(_ & _ & ->) | (_ & r1 & w1 & Hreq & Hrest)].
    { exists []. rewrite List.app_nil_r. cbn. auto. }
    destruct (_request_frame _ _ _ _ _ _ Hsane Hreq) as (new1 & Htr1 & _ & Hart1 & _).
    set (req := mkRequest "GET" status_url (status_headers args hdrs) None (arg_timeout args)) in *.
    assert (Harts : forall tail,
               artifacts (EvCall (now w) req :: new1 ++ tail) = artifacts tail).
    { intros tail. cbn. now rewrite artifacts_app, Hart1. }
    destruct Hrest as [(e & -> & ->) | (st & b & s_resp & raw & -> & _ & _ & Hcases)].
    { exists (EvCall (now w) req :: new1 ++ []). rewrite Harts, List.app_nil_r. cbn. auto. }
    cbv zeta in Hcases.
    destruct Hcases as [(_ & _ & ->) | [(_ & _ & ->) | (_ & _ & Hrun)]].
    + eexists (EvCall (now w) req :: new1 ++ [EvArtifact (now w1) _]).
      rewrite Harts. cbn [trace].
      split; [rewrite Htr1, <- List.app_assoc; reflexivity |].
      cbn. constructor; [auto | constructor].
    + eexists (EvCall (now w) req :: new1 ++ [EvArtifact (now w1) _]).
      rewrite Harts. cbn [trace].
      split; [rewrite Htr1, <- List.app_assoc; reflexivity |].
      cbn. constructor; [auto | constructor].
    + apply IH in Hrun. destruct Hrun as (new2 & Htr2 & Hall). cbn [trace] in Htr2.
      exists (EvCall (now w) req :: new1 ++ EvSleep (now w1) (poll args) :: new2).
      rewrite Harts.
      split; [rewrite Htr2, Htr1, <- !List.app_assoc; reflexivity | exact Hall].
Qed.

(** X25. Whatever a run writes goes to one place: the file
    [deploy-result-<job id>.json], named after the job id the submission
    returned, in the directory [BUILD_ARTIFACTSTAGINGDIRECTORY] names, or
    in [artifacts] when that variable is not set. *)
Theorem X25_artifact_location :
  forall env fuel args (w : World) r w',
    sane env ->
    main env fuel args w = (r, w') ->
    exists new : list Event,
      trace w' = (trace w ++ new)%list /\
      Forall (fun a => art_dir a = default "artifacts" (BUILD_ARTIFACTSTAGINGDIRECTORY args) /\
                       art_file a = "deploy-result-" ++ py_str env (art_jobId a) ++ ".json" /\
                       truthy (art_jobId a) = true /\
                       job_id_of (art_submitResponse a) = Ok (art_jobId a))
             (artifacts new).
Proof.
  intros env fuel args w r w' Hsane Hrun.
  apply main_cases in Hrun.
  destruct Hrun as [(_ & _ & ->) | (_ & _ & [(_ & _ & ->) | Hsub])];
    try (exists []; rewrite List.app_nil_r; cbn; auto; fail).
  destruct Hsub as (payload & r1 & w1 & Hpay & Hreq & Hrest).
  destruct (_request_frame _ _ _ _ _ _ Hsane Hreq) as (new1 & Htr1 & _ & Hart1 & _).
  assert (Hstop : w' = w1 ->
            exists new : list Event,
              trace w' = (trace w ++ new)%list /\
              Forall (fun a => art_dir a = default "artifacts" (BUILD_ARTIFACTSTAGINGDIRECTORY args) /\
                               art_file a = "deploy-result-" ++ py_str env (art_jobId a) ++ ".json" /\
                               truthy (art_jobId a) = true /\
                               job_id_of (art_submitResponse a) = Ok (art_jobId a))
                     (artifacts new)).
  { intros ->. eexists. split; [exact Htr1 |]. cbn [artifacts]. rewrite Hart1. constructor. }
  destruct Hrest as [(e & _ & Hw) | (st & b & resp & job_id & _ & _ & Hjob & Hcases)];
    [exact (Hstop Hw) |].
  destruct Hcases as [(_ & _ & Hw) | (Htruthy & path & _ & Hpoll)]; [exact (Hstop Hw) |].
  apply (poll_loop_artifacts _ _ _ _ _ _ _ _ Hsane) in Hpoll.
  destruct Hpoll as (new2 & Htr2 & Hall).
  exists (EvCall (now w) (submit_request args payload) :: new1 ++ new2)%list.
  split; [rewrite Htr2, Htr1, <- List.app_assoc; reflexivity |].
  cbn [artifacts]. rewrite artifacts_app, Hart1. cbn [List.app].
  rewrite List.Forall_forall in *. intros a Ha.
  destruct (Hall a Ha) as (Hd & Hf & Hj & Hr).
  rewrite Hj, Hr. auto.
Qed.

Lemma X25_witness :
  exists new : list Event,
    trace (snd (main (Scenario.world 1 (Scenario.api Scenario.accepted Scenario.completed)
                                     Scenario.docs)
                     5 (Scenario.args 5 2) Scenario.boot))
    = (trace Scenario.boot ++ new)%list /\
    Forall (fun a => art_dir a = default "artifacts"
                                         (BUILD_ARTIFACTSTAGINGDIRECTORY (Scenario.args 5 2)) /\
                     art_file a
                     = "deploy-result-"
                       ++ py_str (Scenario.world 1 (Scenario.api Scenario.accepted Scenario.completed)
                                                 Scenario.docs) (art_jobId a)
                       ++ ".json" /\
                     truthy (art_jobId a) = true /\
                     job_id_of (art_submitResponse a) = Ok (art_jobId a))
           (artifacts new).
Proof.
  apply (X25_artifact_location
           (Scenario.world 1 (Scenario.api Scenario.accepted Scenario.completed) Scenario.docs)
           5 (Scenario.args 5 2) Scenario.boot
           (fst (main (Scenario.world 1 (Scenario.api Scenario.accepted Scenario.completed)
                                      Scenario.docs)
                      5 (Scenario.args 5 2) Scenario.boot))).
  - apply sane_scenario. lia.
  - apply surjective_pairing.
Defined.

(** * The contracts of the two scripts *)

(** ** A response or a status that is not retried *)

Lemma _request_loop_stops env req mr : forall (i : nat) budget a le (w : World) out,
  mr + 1 - a <= Z.of_nat budget ->
  a + Z.of_nat i <= mr ->
  (forall j, (j < i)%nat -> retryable (net env (calls w + j) req) = true) ->
  net env (calls w + i) req = out ->
  retryable out = false ->
  exists w' pre t,
    _request_loop env budget req mr a le w = (settle out, w') /\
    trace w' = (trace w ++ pre ++ [EvUrlopen t req out])%list /\
    attempts pre = i /\
    sleeps pre = List.map backoff (zseq a i).
Proof.
  induction i as [| i IH]; intros budget a le w out Hb Ha Hpre Hout Hno.
  - destruct budget as [| budget]; [lia |].
    assert (Hle : (a <=? mr) = true) by lia.
    rewrite (_request_loop_step _ _ _ _ _ _ _ Hle).
    rewrite Nat.add_0_r in Hout. rewrite Hout, Hno. cbn [andb].
    eexists _, [], (now w). split; [reflexivity |]. cbn [trace]. auto.
  - destruct budget as [| budget]; [lia |].
    assert (Hle : (a <=? mr) = true) by lia.
    assert (Hlt : (a <? mr) = true) by lia.
    rewrite (_request_loop_step _ _ _ _ _ _ _ Hle).
    pose proof (Hpre O ltac:(lia)) as H0. rewrite Nat.add_0_r in H0.
    rewrite H0, Hlt. cbn [andb].
    unfold bind. rewrite time_sleep_backoff. cbn [now calls trace].
    edestruct (IH budget (a + 1)
                  (match net env (calls w) req with URLError e => Some e | _ => le end)
                  (mkWorld (now w + lag env (List.length (trace w))
                            + (backoff a * hz env
                               + lag env (List.length (trace w ++ [EvUrlopen (now w) req
                                                                     (net env (calls w) req)]))))
                           (S (calls w))
                           ((trace w ++ [EvUrlopen (now w) req (net env (calls w) req)])
                            ++ [EvSleep (now w + lag env (List.length (trace w))) (backoff a)]))
                  out)
      as (w' & pre & t & Hrun & Htr & Hatt & Hsl).
    + lia.
    + lia.
    + intros j Hj. cbn [calls].
      replace (S (calls w) + j)%nat with (calls w + S j)%nat by lia. apply Hpre. lia.
    + cbn [calls]. replace (S (calls w) + i)%nat with (calls w + S i)%nat by lia. exact Hout.
    + exact Hno.
    + exists w', (EvUrlopen (now w) req (net env (calls w) req)
                  :: EvSleep (now w + lag env (List.length (trace w))) (backoff a) :: pre), t.
      split; [exact Hrun |]. cbn [trace] in Htr.
      split; [rewrite Htr, <- !List.app_assoc; reflexivity |].
      split.
      * unfold attempts in *. cbn. now rewrite Hatt.
      * cbn [sleeps zseq List.map]. now rewrite Hsl.
Qed.

Lemma _request_stops env req mr (w : World) (i : nat) out :
  0 <= mr -> Z.of_nat i <= mr ->
  (forall j, (j < i)%nat -> retryable (net env (calls w + j) req) = true) ->
  net env (calls w + i) req = out ->
  retryable out = false ->
  exists w' pre t,
    _request env req mr w = (settle out, w') /\
    trace w' = (trace w ++ EvCall (now w) req :: pre ++ [EvUrlopen t req out])%list /\
    attempts pre = i /\
    sleeps pre = List.map backoff (zseq 0 i).
Proof.
  intros Hmr Hi Hpre Hout Hno. rewrite _request_unfold.
  destruct (_request_loop_stops env req mr i (Z.to_nat (mr + 1)) 0 None
              (mkWorld (now w) (calls w) (trace w ++ [EvCall (now w) req])) out)
    as (w' & pre & t & Hrun & Htr & Hatt & Hsl); cbn [calls]; try assumption; try lia.
  exists w', pre, t. split; [exact Hrun |]. cbn [trace] in Htr.
  split; [rewrite Htr, <- List.app_assoc; reflexivity | auto].
Qed.

(** What is true of C2 on the code. A response that [urlopen] hands back,
    on the first attempt or after retries, is returned at once with its
    status and body, whatever the status: it is the last thing the call
    does. A status outside the retryable set arrives as [HTTPError] and is
    not retried either, on whichever attempt it comes, but it ends the call
    with the [RuntimeError] of line 62, which carries the status and the
    body, instead of a return value. (Attempt [i] is reached when the [i]
    attempts before it had retryable outcomes and [i <= max_retries].) *)
Theorem C2_non_retryable_status_not_retried :
  (forall env req max_retries (w : World) (i : nat) status body,
      0 <= max_retries -> Z.of_nat i <= max_retries ->
      (forall j, (j < i)%nat -> retryable (net env (calls w + j) req) = true) ->
      net env (calls w + i) req = Response status body ->
      exists w' pre t,
        _request env req max_retries w = (Ok (status, body), w') /\
        trace w' = (trace w ++ EvCall (now w) req
                            :: pre ++ [EvUrlopen t req (Response status body)])%list /\
        attempts pre = i /\
        sleeps pre = List.map backoff (zseq 0 i)) /\
  (forall env req max_retries (w : World) (i : nat) status body,
      0 <= max_retries -> Z.of_nat i <= max_retries ->
      (forall j, (j < i)%nat -> retryable (net env (calls w + j) req) = true) ->
      ~ In status [429; 500; 502; 503; 504] ->
      net env (calls w + i) req = HTTPError status body ->
      exists w' pre t,
        _request env req max_retries w = (Raise (RuntimeError_HTTPError status body), w') /\
        trace w' = (trace w ++ EvCall (now w) req
                            :: pre ++ [EvUrlopen t req (HTTPError status body)])%list /\
        attempts pre = i /\
        sleeps pre = List.map backoff (zseq 0 i)).
Proof.
  split.
  - intros env req mr w i status body Hmr Hi Hpre Hout.
    apply (_request_stops env req mr w i (Response status body)); auto.
  - intros env req mr w i status body Hmr Hi Hpre Hnot Hout.
    apply (_request_stops env req mr w i (HTTPError status body)); auto.
    cbn [retryable]. apply bool_decide_eq_false. unfold RETRYABLE_HTTP.
    rewrite !elem_of_union, !elem_of_singleton. cbn [In] in Hnot. intuition lia.
Qed.

(** The 200 that comes after two retried 503s is returned at once. *)
Lemma C2_witness :
  exists w' pre t,
    _request (Scenario.world 1 Scenario.flaky []) Scenario.get_status 2 Scenario.boot
    = (Ok (200, "{}"), w') /\
    trace w' = (trace Scenario.boot
                ++ EvCall (now Scenario.boot) Scenario.get_status
                   :: pre ++ [EvUrlopen t Scenario.get_status (Response 200 "{}")])%list /\
    attempts pre = 2%nat /\
    sleeps pre = List.map backoff (zseq 0 2).
Proof.
  apply (proj1 C2_non_retryable_status_not_retried
               (Scenario.world 1 Scenario.flaky []) Scenario.get_status 2 Scenario.boot
               2%nat 200 "{}").
  - lia.
  - lia.
  - intros j Hj. destruct j as [| [| j]]; [reflexivity | reflexivity | lia].
  - reflexivity.
Defined.

(** ** A job-id field that is present but falsy *)

Lemma job_id_of_first_truthy (items : list (string * json)) (k : string)
      (before after : list string) :
  JOB_ID_FIELDS = (before ++ k :: after)%list ->
  (forall k', In k' before -> truthy (dict_get items k') = false) ->
  truthy (dict_get items k) = true ->
  job_id_of (JObj items) = Ok (dict_get items k).
Proof.
  intros Hsplit Hbefore Hk. rewrite job_id_of_dict. unfold JOB_ID_FIELDS in Hsplit.
  destruct before as [| b1 [| b2 [| b3 before]]]; cbn in Hsplit.
  - injection Hsplit as <- _. now rewrite Hk.
  - injection Hsplit as <- <- _.
    rewrite (Hbefore "jobId") by (cbn; auto). now rewrite Hk.
  - injection Hsplit as <- <- <- _.
    rewrite (Hbefore "jobId"), (Hbefore "id") by (cbn; auto). reflexivity.
  - injection Hsplit as _ _ _ Hnil. now destruct before.
Qed.

(** What is true of C10 on the code. A recognised job-id field whose value
    is falsy (the empty string, 0, null, false) counts as a missing one:
    it is passed over for the next field. When no recognised field holds a
    truthy value the run returns 3 in the state the submission left, with
    no status request, even though a field is present; when a later field
    holds a truthy value, that value is the job id and the run goes on to
    poll. *)
Theorem C10_falsy_job_id_is_missing :
  (forall v, In v [JStr EmptyString; JInt 0; JNull; JBool false] -> truthy v = false) /\
  (forall items k, assoc k items = None -> truthy (dict_get items k) = false) /\
  (forall env fuel args (w w1 : World) payload st b items,
      sane env ->
      base_url args <> EmptyString -> api_key args <> EmptyString ->
      payload_file args = Some payload ->
      _request env (submit_request args payload) (max_retries args) w = (Ok (st, b), w1) ->
      _parse_json env b = Ok (JObj items) ->
      (forall k, In k ["jobId"; "id"; "deploymentId"] -> truthy (dict_get items k) = false) ->
      main env fuel args w = (Ok (Some 3), w1) /\
      exists new1, trace w1 = (trace w ++ new1)%list /\ status_requests new1 = []) /\
  (forall env fuel args (w w1 : World) payload st b items k before after path,
      base_url args <> EmptyString -> api_key args <> EmptyString ->
      payload_file args = Some payload ->
      _request env (submit_request args payload) (max_retries args) w = (Ok (st, b), w1) ->
      _parse_json env b = Ok (JObj items) ->
      ["jobId"; "id"; "deploymentId"] = (before ++ k :: after)%list ->
      (forall k', In k' before -> truthy (dict_get items k') = false) ->
      truthy (dict_get items k) = true ->
      str_format env (status_path_template args) (dict_get items k) = Some path ->
      job_id_of (JObj items) = Ok (dict_get items k) /\
      main env fuel args w
      = poll_loop env fuel args (dict_get items k) payload (JObj items)
                  (headers (submit_request args payload))
                  (rstrip_slash (base_url args) ++ path) (now w1) w1).
Proof.
  split; [| split; [| split]].
  - intros v Hv. cbn [In] in Hv.
    destruct Hv as [<- | [<- | [<- | [<- | []]]]]; reflexivity.
  - apply dict_get_missing.
  - intros env fuel args w w1 payload st b items Hsane E1 E2 Hpay Hreq Hparse Hfalsy.
    apply (main_stops_without_job_id env fuel args w w1 payload st b items); assumption.
  - intros env fuel args w w1 payload st b items k before after path
           E1 E2 Hpay Hreq Hparse Hsplit Hbefore Hk Hfmt.
    pose proof (job_id_of_first_truthy items k before after Hsplit Hbefore Hk) as Hjob.
    split; [exact Hjob |].
    apply (main_polls env fuel args w w1 payload st b (JObj items) (dict_get items k) path);
      assumption.
Qed.

Lemma C10_witness :
  main (Scenario.world 1 (Scenario.api Scenario.empty_job_id Scenario.running) Scenario.docs)
       5 (Scenario.args 5 2) Scenario.boot
  = (Ok (Some 3),
     snd (_request
            (Scenario.world 1 (Scenario.api Scenario.empty_job_id Scenario.running) Scenario.docs)
            (submit_request (Scenario.args 5 2) Scenario.payload) 2 Scenario.boot)) /\
  exists new1,
    trace (snd (_request
                  (Scenario.world 1 (Scenario.api Scenario.empty_job_id Scenario.running)
                                  Scenario.docs)
                  (submit_request (Scenario.args 5 2) Scenario.payload) 2 Scenario.boot))
    = (trace Scenario.boot ++ new1)%list /\
    status_requests new1 = [].
Proof.
  apply (proj1 (proj2 (proj2 C10_falsy_job_id_is_missing))
           (Scenario.world 1 (Scenario.api Scenario.empty_job_id Scenario.running) Scenario.docs)
           5%nat (Scenario.args 5 2) Scenario.boot _ Scenario.payload 200
           (_json_dumps Scenario.empty_job_id)
           [("jobId", JStr EmptyString); ("note", JStr "queued")]).
  - apply sane_scenario. lia.
  - discriminate.
  - discriminate.
  - reflexivity.
  - vm_compute. reflexivity.
  - reflexivity.
  - intros k Hk. cbn in Hk.
    destruct Hk as [<- | [<- | [<- | []]]]; reflexivity.
Defined.

(** C10 as stated fails: with an empty [jobId] and an [id] of ["i-2"] the
    run does not return 3; it polls job [i-2] and ends with that job's
    outcome. *)
Lemma C10_counterexample_next_field_is_used :
  assoc "jobId" [("jobId", JStr EmptyString); ("id", JStr "i-2")] = Some (JStr EmptyString) /\
  fst (main (Scenario.world 1 (Scenario.api Scenario.second_field Scenario.completed)
                            [Scenario.second_field; Scenario.completed])
            5 (Scenario.args 5 2) Scenario.boot)
  = Ok (Some 0) /\
  List.length
    (status_requests
       (trace (snd (main (Scenario.world 1 (Scenario.api Scenario.second_field Scenario.completed)
                                         [Scenario.second_field; Scenario.completed])
                         5 (Scenario.args 5 2) Scenario.boot))))
  = 1%nat.
Proof. split; [reflexivity | split; vm_compute; reflexivity]. Qed.

(** ** What the validator prints *)

Lemma app_cons_nonempty (a : string) (c : ascii) (r : string) :
  String.eqb (a ++ String c r) EmptyString = false.
Proof. destruct a; reflexivity. Qed.

Lemma int_of_text_str_int (i : Z) : int_of_text (str_int i) = Some i.
Proof.
  unfold int_of_text, str_int.
  pose proof (to_int_nonnil i) as Hn.
  rewrite NilZero.isi.
  - cbn [option_map]. now rewrite DecimalZ.of_to.
  - intros E. rewrite E in Hn. now apply Hn.
  - intros E. rewrite E in Hn. now apply Hn.
Qed.

Lemma string_compare_refl (s : string) : String.compare s s = Eq.
Proof.
  induction s as [| c s IH]; [reflexivity |].
  cbn [String.compare]. now rewrite ascii_compare_refl.
Qed.

Lemma path_ltb_prefix (p : list Validate.Seg) (s : Validate.Seg) (q : list Validate.Seg) :
  Validate.path_ltb p (p ++ s :: q) = true.
Proof.
  unfold Validate.path_ltb.
  induction p as [| a p IH]; [reflexivity |].
  cbn [List.app Validate.path_lt]. now rewrite (proj2 (seg_eqb_eq a a) eq_refl).
Qed.

(** C9. With no violation the validator prints the success message alone
    and returns 0. Otherwise it prints the failure header and then one line
    per violation, each violation once, in the order of their paths (by
    segments: a path before its extensions, property names in string
    order, array indices in numeric order), and returns 2. A line is a
    dash, the path, a colon and the message; the path is shown as its
    segments joined by dots, a property name as it is and an array index
    in decimal, and the empty path as ["(root)"]. (The paths of one
    document are pairwise comparable.) *)
Theorem C9_validator_report :
  forall (iter_errors : json -> json -> list Validate.ValidationError) (payload schema : json),
    Validate.all_comparable (iter_errors schema payload) = true ->
    (iter_errors schema payload = [] ->
     Validate.main iter_errors payload schema = Some (["Payload schema validation OK."], 0)) /\
    (iter_errors schema payload <> [] ->
     exists sorted,
       Validate.main iter_errors payload schema
       = Some (("Payload schema validation FAILED:" ++ String "010"%char EmptyString)
               :: List.map Validate.render sorted, 2) /\
       Permutation.Permutation (iter_errors schema payload) sorted /\
       Sorted.StronglySorted
         (fun a b => Validate.path_ltb (Validate.path b) (Validate.path a) = false) sorted) /\
    (forall m, Validate.render (Validate.mkError [] m) = "- (root): " ++ m) /\
    (forall k m, k <> EmptyString ->
                 Validate.render (Validate.mkError [Validate.Key k] m) = "- " ++ k ++ ": " ++ m) /\
    (forall i m, Validate.render (Validate.mkError [Validate.Index i] m)
                 = "- " ++ str_int i ++ ": " ++ m) /\
    (forall s t q m,
        Validate.render (Validate.mkError (s :: t :: q) m)
        = "- " ++ (Validate.str_seg s ++ "." ++ Validate.dotted (t :: q)) ++ ": " ++ m) /\
    (forall k, Validate.str_seg (Validate.Key k) = k) /\
    (forall i, int_of_text (Validate.str_seg (Validate.Index i)) = Some i) /\
    Validate.dotted [Validate.Key "targets"; Validate.Index 2; Validate.Key "region"]
    = "targets.2.region" /\
    (forall i j, Validate.path_ltb [Validate.Index i] [Validate.Index j] = (i <? j)) /\
    (forall k l, Validate.path_ltb [Validate.Key k] [Validate.Key l] = String.ltb k l) /\
    (forall p s q, Validate.path_ltb p (p ++ s :: q) = true) /\
    Validate.main Scenario.checker payload schema
    = Some (["Payload schema validation FAILED:" ++ String "010"%char EmptyString;
             "- (root): 'env' is a required property";
             "- replicas: -1 is less than the minimum of 0";
             "- targets.2.region: 'moon' is not one of ['eu', 'us']";
             "- targets.10: 'x' is not of type 'object'"], 2).
Proof.
  intros iter_errors payload schema Hcmp.
  split; [| split; [| split; [| split; [| split; [| split; [| split; [| split;
    [| split; [| split; [| split; [| split]]]]]]]]]]].
  - intros Hnil. unfold Validate.main, Validate.sorted_by_path. rewrite Hnil. reflexivity.
  - intros Hne. exists (Validate.stable_sort (iter_errors schema payload)).
    split; [| split; [apply stable_sort_perm | apply (stable_sort_strongly_sorted _ Hcmp)]].
    unfold Validate.main, Validate.sorted_by_path. rewrite Hcmp.
    destruct (Validate.stable_sort (iter_errors schema payload)) as [| e l] eqn:E; [| reflexivity].
    exfalso. apply Hne. apply Permutation.Permutation_nil.
    apply Permutation.Permutation_sym. rewrite <- E. apply stable_sort_perm.
  - reflexivity.
  - intros k m Hk. unfold Validate.render, Validate.render_path. cbn [Validate.path Validate.message].
    change (Validate.dotted [Validate.Key k]) with k.
    apply String.eqb_neq in Hk. now rewrite Hk.
  - intros i m. unfold Validate.render, Validate.render_path. cbn [Validate.path Validate.message].
    change (Validate.dotted [Validate.Index i]) with (str_int i).
    destruct (String.eqb_spec (str_int i) EmptyString) as [E | _]; [| reflexivity].
    pose proof (str_int_nonempty i) as H. rewrite E in H. cbn in H. lia.
  - intros s t q m. unfold Validate.render, Validate.render_path.
    cbn [Validate.path Validate.message].
    change (Validate.dotted (s :: t :: q))
      with (Validate.str_seg s ++ "." ++ Validate.dotted (t :: q)).
    assert (H : String.eqb (Validate.str_seg s ++ "." ++ Validate.dotted (t :: q)) EmptyString
                = false) by apply app_cons_nonempty.
    now rewrite H.
  - reflexivity.
  - intros i. apply int_of_text_str_int.
  - reflexivity.
  - intros i j. unfold Validate.path_ltb. cbn [Validate.path_lt Validate.seg_eqb Validate.seg_lt].
    destruct (Z.eqb_spec i j) as [-> | Hne]; [| reflexivity].
    cbn. now rewrite Z.ltb_irrefl.
  - intros k l. unfold Validate.path_ltb. cbn [Validate.path_lt Validate.seg_eqb Validate.seg_lt].
    destruct (String.eqb_spec k l) as [-> | Hne]; [| reflexivity].
    cbn. unfold String.ltb. now rewrite string_compare_refl.
  - apply path_ltb_prefix.
  - reflexivity.
Qed.

Lemma C9_witness :
  exists sorted,
    Validate.main Scenario.checker JNull JNull
    = Some (("Payload schema validation FAILED:" ++ String "010"%char EmptyString)
            :: List.map Validate.render sorted, 2) /\
    Permutation.Permutation (Scenario.checker JNull JNull) sorted /\
    Sorted.StronglySorted
      (fun a b => Validate.path_ltb (Validate.path b) (Validate.path a) = false) sorted.
Proof.
  apply (proj1 (proj2 (C9_validator_report Scenario.checker JNull JNull eq_refl))).
  discriminate.
Defined.

(** ** The end of the polling *)

Ltac same_trace :=
  repeat (rewrite <- List.app_assoc || rewrite <- List.app_comm_cons);
  cbn [List.app]; reflexivity.

Lemma _request_loop_ok env req mr : forall budget a le (w : World) st b w',
  _request_loop env budget req mr a le w = (Ok (st, b), w') ->
  exists pre t,
    trace w' = (trace w ++ pre ++ [EvUrlopen t req (Response st b)])%list /\
    artifacts pre = [].
Proof.
  induction budget as [| budget IH]; intros a le w st b w' Hrun.
  - cbn [_request_loop] in Hrun. destruct (a <=? mr); discriminate Hrun.
  - destruct (a <=? mr) eqn:Ha.
    2:{ rewrite (_request_loop_exit _ _ _ _ _ _ _ Ha) in Hrun. discriminate Hrun. }
    rewrite (_request_loop_step _ _ _ _ _ _ _ Ha) in Hrun.
    set (out := net env (calls w) req) in *.
    destruct (retryable out && (a <? mr)).
    + unfold bind in Hrun. rewrite time_sleep_backoff in Hrun. cbn [now calls trace] in Hrun.
      apply IH in Hrun. destruct Hrun as (pre & t & Htr & Hart). cbn [trace] in Htr.
      exists (EvUrlopen (now w) req out
              :: EvSleep (now w + lag env (List.length (trace w))) (backoff a) :: pre), t.
      split; [rewrite Htr, <- !List.app_assoc; reflexivity | exact Hart].
    + destruct out as [st' b' | | |]; cbn [settle] in Hrun; try discriminate Hrun.
      injection Hrun as -> -> <-. exists [], (now w). cbn [trace]. auto.
Qed.

Lemma _request_ok env req mr (w : World) st b w' :
  _request env req mr w = (Ok (st, b), w') ->
  exists pre t,
    trace w' = (trace w ++ EvCall (now w) req :: pre ++ [EvUrlopen t req (Response st b)])%list /\
    artifacts pre = [].
Proof.
  rewrite _request_unfold. intros Hrun. apply _request_loop_ok in Hrun.
  destruct Hrun as (pre & t & Htr & Hart). cbn [trace] in Htr.
  exists pre, t. split; [rewrite Htr, <- List.app_assoc; reflexivity | exact Hart].
Qed.

Lemma _write_artifacts_run env args job_id payload resp doc (w : World) :
  _write_artifacts env args job_id payload resp doc w
  = if can_write env args job_id then
      (Ok tt, mkWorld (now w) (calls w)
                      (trace w ++ [EvArtifact (now w)
                                     (artifact_of env args job_id payload resp doc (now w))]))
    else (Raise OSError, w).
Proof.
  unfold _write_artifacts, can_write, artifact_of, artifact_dir, artifact_file, note.
  destruct (String.eqb (default "artifacts" (BUILD_ARTIFACTSTAGINGDIRECTORY args)) EmptyString);
    cbn [negb andb]; [reflexivity |].
  destruct (writable env _ _); reflexivity.
Qed.

(** A poll that sees a terminal state writes the artifact, if it can, and
    returns 0 for a success word, 5 for a failure word; if it cannot write,
    it raises. *)
Lemma poll_tick_terminal env fuel args job_id payload resp hdrs status_url start
      (w w1 : World) (st : Z) (b : string) (doc : json) (raw : string) :
  elapsed_seconds env (now w) start <= max_wait args ->
  _request env (mkRequest "GET" status_url (status_headers args hdrs) None (arg_timeout args))
           (max_retries args) w = (Ok (st, b), w1) ->
  _parse_json env b = Ok doc ->
  raw_state_of doc = Ok (JStr raw) ->
  classify raw <> InProgress ->
  poll_loop env (S fuel) args job_id payload resp hdrs status_url start w
  = if can_write env args job_id then
      (Ok (Some (match classify raw with Succeeded => 0 | _ => 5 end)),
       mkWorld (now w1) (calls w1)
               (trace w1 ++ [EvArtifact (now w1)
                               (artifact_of env args job_id payload resp doc (now w1))]))
    else (Raise OSError, w1).
Proof.
  intros Hel Hreq Hparse Hraw Hcl.
  rewrite (poll_tick_after_request _ _ _ _ _ _ _ _ _ _ _ _ _ Hel Hreq), Hparse, Hraw.
  destruct (classify raw); [| | congruence];
    unfold bind; rewrite _write_artifacts_run; destruct (can_write env args job_id); reflexivity.
Qed.

Lemma poll_loop_in_progress env args job_id payload resp status_url start :
  forall k w w',
    in_progress env args payload status_url start k w w' ->
    forall fuel,
      poll_loop env (k + fuel) args job_id payload resp (headers (submit_request args payload))
                status_url start w
      = poll_loop env fuel args job_id payload resp (headers (submit_request args payload))
                  status_url start w'.
Proof.
  induction 1 as [w | k w w1 w2 w' doc raw Hel (st & b & Hreq & Hparse & Hraw) Hcl Hsleep _ IH];
    intros fuel; [reflexivity |].
  cbn [Nat.add].
  rewrite (poll_tick_after_request _ _ _ _ _ _ _ _ _ _ _ _ _ Hel Hreq), Hparse, Hraw, Hcl.
  unfold bind. rewrite Hsleep. apply IH.
Qed.

Lemma main_accepted env fuel args (w : World) payload resp job_id path (w1 : World) :
  accepted env args w payload resp job_id path w1 ->
  main env fuel args w
  = poll_loop env fuel args job_id payload resp (headers (submit_request args payload))
              (rstrip_slash (base_url args) ++ path) (now w1) w1.
Proof.
  intros (E1 & E2 & Hpay & (st & b & Hreq & Hparse) & Hjob & Htruthy & Hfmt).
  apply (main_polls env fuel args w w1 payload st b resp job_id path); assumption.
Qed.

(** How a polling loop that returns 0 or 5 ended: with the response to its
    last status request and, right after it, the artifact made of it. *)
Lemma poll_loop_written env args job_id payload resp hdrs status_url start :
  forall fuel (w : World) c w',
    poll_loop env fuel args job_id payload resp hdrs status_url start w = (Ok (Some c), w') ->
    c = 4 \/
    exists pre t st b doc raw,
      trace w' = (trace w ++ pre
                  ++ [EvUrlopen t (mkRequest "GET" status_url (status_headers args hdrs) None
                                             (arg_timeout args))
                                (Response st b);
                      EvArtifact (now w')
                                 (artifact_of env args job_id payload resp doc (now w'))])%list /\
      artifacts pre = [] /\
      _parse_json env b = Ok doc /\ raw_state_of doc = Ok (JStr raw) /\
      ((c = 0 /\ classify raw = Succeeded) \/ (c = 5 /\ classify raw = Failed)).
Proof.
  induction fuel as [| fuel IH]; intros w c w' Hrun; [discriminate Hrun |].
  apply poll_loop_step in Hrun.
  destruct Hrun as [(_ & Hr & _) | (_ & r1 & w1 & Hreq & Hrest)];
    [injection Hr as ->; now left |].
  destruct Hrest as [(e & He & _) | (st & b & s_resp & raw & Hr1 & Hparse & Hraw & Hcases)];
    [discriminate He |].
  subst r1. destruct (_request_ok _ _ _ _ _ _ _ Hreq) as (pre1 & t & Htr1 & Hart1).
  set (sreq := mkRequest "GET" status_url (status_headers args hdrs) None (arg_timeout args)) in *.
  cbv zeta in Hcases.
  destruct Hcases as [(Hcl & Hr & ->) | [(Hcl & Hr & ->) | (_ & _ & Hrun)]].
  - injection Hr as ->. right. cbn [now trace].
    exists (EvCall (now w) sreq :: pre1), t, st, b, s_resp, raw.
    split; [rewrite Htr1; same_trace |].
    cbn [artifacts]. split; [exact Hart1 |]. split; [exact Hparse |]. split; [exact Hraw |].
    left. auto.
  - injection Hr as ->. right. cbn [now trace].
    exists (EvCall (now w) sreq :: pre1), t, st, b, s_resp, raw.
    split; [rewrite Htr1; same_trace |].
    cbn [artifacts]. split; [exact Hart1 |]. split; [exact Hparse |]. split; [exact Hraw |].
    right. auto.
  - apply IH in Hrun.
    destruct Hrun as [-> | (pre & t' & st' & b' & doc & raw' & Htr & Hart & Hrest)];
      [now left | right].
    cbn [trace] in Htr.
    exists ((EvCall (now w) sreq :: pre1 ++ [EvUrlopen t sreq (Response st b)])
            ++ EvSleep (now w1) (poll args) :: pre)%list, t', st', b', doc, raw'.
    split; [rewrite Htr, Htr1; same_trace |].
    split; [| exact Hrest].
    cbn [List.app artifacts]. rewrite !artifacts_app, Hart1. cbn [artifacts List.app]. exact Hart.
Qed.

(** ** The exit code of a run *)

(** What is true of C7 on the code. [main] returns 2 when the base URL or
    the API key is missing, 3 when the submission response holds no truthy
    job id, 4 when, after any number of polls that found the job in
    progress, the wait budget is exceeded, and, when such a poll is
    answered with a success or a failure state, 0 or 5 once the artifact is
    written. When the artifact cannot be written the run ends with the
    exception instead, exit status 1, whatever the remote reported: like
    every uncaught exception. Conversely each of the five codes is returned
    for its own condition only, and the six statuses are distinct. *)
Theorem C7_exit_codes :
  (forall env fuel args (w : World),
      base_url args = EmptyString \/ api_key args = EmptyString ->
      main env fuel args w = (Ok (Some 2), w)) /\
  (forall env fuel args (w w1 : World) payload st b resp job_id,
      base_url args <> EmptyString -> api_key args <> EmptyString ->
      payload_file args = Some payload ->
      _request env (submit_request args payload) (max_retries args) w = (Ok (st, b), w1) ->
      _parse_json env b = Ok resp -> job_id_of resp = Ok job_id -> truthy job_id = false ->
      main env fuel args w = (Ok (Some 3), w1)) /\
  (forall env fuel args (w w1 w2 : World) payload resp job_id path k,
      accepted env args w payload resp job_id path w1 ->
      in_progress env args payload (rstrip_slash (base_url args) ++ path) (now w1) k w1 w2 ->
      max_wait args < elapsed_seconds env (now w2) (now w1) ->
      main env (k + S fuel) args w = (Ok (Some 4), w2)) /\
  (forall env fuel args (w w1 w2 w3 : World) payload resp job_id path k doc raw,
      accepted env args w payload resp job_id path w1 ->
      in_progress env args payload (rstrip_slash (base_url args) ++ path) (now w1) k w1 w2 ->
      elapsed_seconds env (now w2) (now w1) <= max_wait args ->
      answered env args payload (rstrip_slash (base_url args) ++ path) w2 doc raw w3 ->
      (classify raw = Succeeded -> can_write env args job_id = true ->
       fst (main env (k + S fuel) args w) = Ok (Some 0)) /\
      (classify raw = Failed -> can_write env args job_id = true ->
       fst (main env (k + S fuel) args w) = Ok (Some 5)) /\
      (classify raw <> InProgress -> can_write env args job_id = false ->
       main env (k + S fuel) args w = (Raise OSError, w3) /\
       exit_status (fst (main env (k + S fuel) args w)) = Some 1)) /\
  (forall env fuel args (w : World) r w' c,
      sane env ->
      main env fuel args w = (r, w') ->
      r = Ok (Some c) ->
      (c = 2 /\ (base_url args = EmptyString \/ api_key args = EmptyString))
      \/ (c = 3 /\ base_url args <> EmptyString /\ api_key args <> EmptyString /\
          exists payload st b resp job_id,
            payload_file args = Some payload /\
            _request env (submit_request args payload) (max_retries args) w = (Ok (st, b), w') /\
            _parse_json env b = Ok resp /\ job_id_of resp = Ok job_id /\
            truthy job_id = false)
      \/ (exists payload resp job_id path w1,
             accepted env args w payload resp job_id path w1 /\
             ((c = 4 /\ max_wait args < elapsed_seconds env (now w') (now w1))
              \/ exists pre t st b doc raw,
                  trace w'
                  = (trace w1 ++ pre
                     ++ [EvUrlopen t (status_request args payload
                                        (rstrip_slash (base_url args) ++ path))
                                   (Response st b);
                         EvArtifact (now w')
                                    (artifact_of env args job_id payload resp doc (now w'))])%list /\
                  _parse_json env b = Ok doc /\ raw_state_of doc = Ok (JStr raw) /\
                  ((c = 0 /\ classify raw = Succeeded) \/ (c = 5 /\ classify raw = Failed))))) /\
  (forall e, exit_status (Raise e) = Some 1) /\
  (forall c, exit_status (Ok (Some c)) = Some c) /\
  List.NoDup [0; 1; 2; 3; 4; 5].
Proof.
  split; [| split; [| split; [| split; [| split; [| split; [| split]]]]]].
  - apply main_missing_config.
  - apply main_no_job_id.
  - intros env fuel args w w1 w2 payload resp job_id path k Hacc Hprog Hover.
    rewrite (main_accepted _ _ _ _ _ _ _ _ _ Hacc).
    rewrite (poll_loop_in_progress _ _ job_id _ resp _ _ _ _ _ Hprog).
    now apply poll_loop_timeout.
  - intros env fuel args w w1 w2 w3 payload resp job_id path k doc raw
           Hacc Hprog Hel (st & b & Hreq & Hparse & Hraw).
    rewrite (main_accepted _ _ _ _ _ _ _ _ _ Hacc).
    rewrite (poll_loop_in_progress _ _ job_id _ resp _ _ _ _ _ Hprog).
    split; [| split].
    + intros Hcl Hw.
      rewrite (poll_tick_terminal _ _ _ _ _ _ _ _ _ _ _ _ _ _ _ Hel Hreq Hparse Hraw)
        by congruence.
      now rewrite Hw, Hcl.
    + intros Hcl Hw.
      rewrite (poll_tick_terminal _ _ _ _ _ _ _ _ _ _ _ _ _ _ _ Hel Hreq Hparse Hraw)
        by congruence.
      now rewrite Hw, Hcl.
    + intros Hcl Hw.
      rewrite (poll_tick_terminal _ _ _ _ _ _ _ _ _ _ _ _ _ _ _ Hel Hreq Hparse Hraw Hcl).
      rewrite Hw. auto.
  - intros env fuel args w r w' c Hsane Hrun ->.
    apply main_cases in Hrun.
    destruct Hrun as [(Hcfg & Hr & _) | (E1 & E2 & [(_ & Hr & _) | Hsub])];
      [injection Hr as ->; auto | discriminate Hr |].
    destruct Hsub as (payload & r1 & w1 & Hpay & Hreq & Hrest).
    destruct Hrest as [(e & He & _) | (st & b & resp & job_id & -> & Hparse & Hjob & Hcases)];
      [discriminate He |].
    destruct Hcases as [(Hfalsy & Hr & ->) | (Htruthy & path & Hfmt & Hpoll)].
    + injection Hr as ->. right; left.
      split; [reflexivity |]. split; [exact E1 |]. split; [exact E2 |].
      exists payload, st, b, resp, job_id. auto.
    + right; right. exists payload, resp, job_id, path, w1.
      split; [unfold accepted; eauto 10 |].
      pose proof (poll_loop_run _ _ _ _ _ _ _ _ Hsane _ _ _ _ Hpoll)
        as (new2 & _ & _ & _ & Hto & _).
      apply poll_loop_written in Hpoll.
      destruct Hpoll as [-> | (pre & t & st' & b' & doc & raw & Htr & _ & Hrest)].
      * left. split; [reflexivity |]. now apply Hto.
      * right. exists pre, t, st', b', doc, raw. split; [exact Htr | exact Hrest].
  - reflexivity.
  - reflexivity.
  - repeat (apply List.NoDup_cons; [cbn [In]; intuition lia |]). apply List.NoDup_nil.
Qed.

(** A first poll that is answered [completed] ends the run with 0. *)
Lemma C7_witness :
  fst (main (Scenario.world 1 (Scenario.api Scenario.accepted Scenario.completed) Scenario.docs)
            (0 + 1) (Scenario.args 5 2) Scenario.boot)
  = Ok (Some 0).
Proof.
  refine (proj1 (proj1 (proj2 (proj2 (proj2 C7_exit_codes)))
                       (Scenario.world 1 (Scenario.api Scenario.accepted Scenario.completed)
                                       Scenario.docs)
                       0%nat (Scenario.args 5 2) Scenario.boot
                       (snd (_request
                               (Scenario.world 1 (Scenario.api Scenario.accepted Scenario.completed)
                                               Scenario.docs)
                               (submit_request (Scenario.args 5 2) Scenario.payload) 2
                               Scenario.boot))
                       _ _ Scenario.payload Scenario.accepted (JStr "abc") "/deployments/abc"
                       0%nat Scenario.completed "completed" _ _ _ _) _ _).
  - unfold accepted. split; [discriminate |]. split; [discriminate |].
    split; [reflexivity |]. split; [| split; [reflexivity | split; reflexivity]].
    exists 200, (_json_dumps Scenario.accepted). split; reflexivity.
  - apply in_progress_O.
  - vm_compute. discriminate.
  - exists 200, (_json_dumps Scenario.completed).
    split; [vm_compute; reflexivity |]. split; reflexivity.
  - reflexivity.
  - reflexivity.
Defined.

(** C7 as stated fails: the remote reports success, but the staging
    directory of the pipeline has the empty name, the artifact cannot be
    written and the process ends with status 1, not 0. *)
Lemma C7_counterexample_success_without_artifact :
  raw_state_of Scenario.completed = Ok (JStr "completed") /\
  classify "completed" = Succeeded /\
  fst (main (Scenario.world 1 (Scenario.api Scenario.accepted Scenario.completed) Scenario.docs)
            5 (Scenario.unnamed_staging 5 2) Scenario.boot)
  = Raise OSError /\
  exit_status
    (fst (main (Scenario.world 1 (Scenario.api Scenario.accepted Scenario.completed) Scenario.docs)
               5 (Scenario.unnamed_staging 5 2) Scenario.boot))
  = Some 1 /\
  exit_status
    (fst (main (Scenario.world 1 (Scenario.api Scenario.accepted Scenario.completed) Scenario.docs)
               5 (Scenario.unnamed_staging 5 2) Scenario.boot))
  <> Some 0.
Proof.
  split; [reflexivity |]. split; [reflexivity |].
  split; [vm_compute; reflexivity |]. split; [vm_compute; reflexivity |].
  vm_compute. discriminate.
Qed.

(** ** The artifact of a run *)


